(** * Document toolkit backend: quota, composition and ledger

    A shallow embedding of the Flask backend (models.py, utils.py, tools.py,
    app.py) and the properties of its document-composition and
    quota-enforcement core.

    Conventions of the embedding:
    - Python values that reach the code untyped (request fields, JSON items)
      are [pyval]; attribute errors, type errors and the like are explicit
      in the [result] type.
    - Python floats are IEEE binary64, here Rocq's primitive floats.
    - Text is modelled by [string] restricted to ASCII characters.
    - The database and the file system form the [world]; a request handler
      is a function from a world to a response and a world.  What a handler
      draws from outside (the clock, uuid4 tokens) is its [Env]; what the
      third-party libraries decide (reportlab, qrcode, PIL, parsing of
      numbers) is the [Library] record. *)

From Stdlib Require Import ZArith Ascii PrimFloat FloatOps SpecFloat.
From stdpp Require Import gmap strings list pretty.

Open Scope Z_scope.

(** ** Python values and exceptions *)

Module Py.

Inductive ec_level := ERROR_CORRECT_L | ERROR_CORRECT_M | ERROR_CORRECT_Q | ERROR_CORRECT_H.

Inductive pyval :=
  | VNone
  | VBool (b : bool)
  | VInt (z : Z)
  | VFloat (f : float)
  | VStr (s : string)
  (* a PIL/qrcode image object: the level and data of the QRCode it was made
     from, and its side in pixels after resize (None for SVG) *)
  | VImage (level : ec_level) (data : pyval) (side : option Z).

Inductive exn :=
  | AttributeError
  | TypeError
  | UnboundLocalError
  | ValueError
  | KeyError
  | OverflowError
  | IntegrityError
  | LibraryError (origin : string).

Inductive result (A : Type) :=
  | Ok (a : A)
  | Raise (e : exn).
Arguments Ok {A} a.
Arguments Raise {A} e.

#[global] Instance result_ret : MRet result := fun A a => Ok a.
#[global] Instance result_bind : MBind result := fun A B k r =>
  match r with
  | Ok a => k a
  | Raise e => Raise e
  end.

#[global] Instance result_fmap : FMap result := fun A B f r =>
  match r with
  | Ok a => Ok (f a)
  | Raise e => Raise e
  end.

Definition is_ok {A} (r : result A) : bool :=
  match r with Ok _ => true | Raise _ => false end.

(** Truth value of an object ([if x:], [x and y]). *)
Definition truthy (v : pyval) : bool :=
  match v with
  | VNone => false
  | VBool b => b
  | VInt z => negb (z =? 0)
  | VFloat f => negb (PrimFloat.eqb f PrimFloat.zero)
  | VStr s => negb (bool_decide (s = ""))
  | VImage _ _ _ => true
  end.

(** [v == 'lit'] for a string literal. *)
Definition eq_str (v : pyval) (lit : string) : bool :=
  match v with
  | VStr s => bool_decide (s = lit)
  | _ => false
  end.

(** *** str methods (ASCII) *)

Definition is_upper (c : ascii) : bool :=
  let n := nat_of_ascii c in ((65 <=? n) && (n <=? 90))%nat.
Definition is_lower (c : ascii) : bool :=
  let n := nat_of_ascii c in ((97 <=? n) && (n <=? 122))%nat.
Definition to_lower (c : ascii) : ascii :=
  if is_upper c then ascii_of_nat (nat_of_ascii c + 32) else c.
Definition to_upper (c : ascii) : ascii :=
  if is_lower c then ascii_of_nat (nat_of_ascii c - 32) else c.

(** [str.isspace] on one ASCII character: TAB..CR, FS..US and the space. *)
Definition is_space (c : ascii) : bool :=
  let n := nat_of_ascii c in
  (((9 <=? n) && (n <=? 13)) || ((28 <=? n) && (n <=? 32)))%nat.

Fixpoint str_map (f : ascii -> ascii) (s : string) : string :=
  match s with
  | EmptyString => EmptyString
  | String c s' => String (f c) (str_map f s')
  end.

(** [s.lower()] *)
Definition str_lower (s : string) : string := str_map to_lower s.

(** [s.replace(' ', '_')] *)
Definition str_replace_space (s : string) : string :=
  str_map (fun c => if Ascii.eqb c " " then "_"%char else c) s.

(** [s.title()]: a letter is upper-cased when the character before it is
    not a letter, lower-cased otherwise. *)
Fixpoint str_title_from (prev_cased : bool) (s : string) : string :=
  match s with
  | EmptyString => EmptyString
  | String c s' =>
      let cased := is_upper c || is_lower c in
      String (if prev_cased then to_lower c else to_upper c)
             (str_title_from cased s')
  end.
Definition str_title (s : string) : string := str_title_from false s.

Fixpoint lstrip (s : string) : string :=
  match s with
  | EmptyString => EmptyString
  | String c s' => if is_space c then lstrip s' else s
  end.

(** [s.strip()] *)
Definition str_strip (s : string) : string :=
  String.rev (lstrip (String.rev (lstrip s))).

(** Methods looked up on an arbitrary object: only [str] has them. *)
Definition lower (v : pyval) : result string :=
  match v with VStr s => Ok (str_lower s) | _ => Raise AttributeError end.
Definition title (v : pyval) : result string :=
  match v with VStr s => Ok (str_title s) | _ => Raise AttributeError end.
Definition strip (v : pyval) : result string :=
  match v with VStr s => Ok (str_strip s) | _ => Raise AttributeError end.
Definition replace_space (v : pyval) : result string :=
  match v with VStr s => Ok (str_replace_space s) | _ => Raise AttributeError end.

(** *** Floats *)

(** [float(n)] for an int: the nearest binary64, or OverflowError. *)
Definition float_of_Z (z : Z) : result float :=
  let f := SF2Prim (binary_normalize prec emax z 0 false) in
  if PrimFloat.is_infinity f then Raise OverflowError else Ok f.

Definition hundred : float := Eval vm_compute in
  SF2Prim (binary_normalize prec emax 100 0 false).


(** ** dict access *)

Definition dict := gmap string pyval.

(** [d.get(k)] and [d.get(k, default)] *)
Definition get (d : dict) (k : string) : pyval := default VNone (d !! k).
Definition get_or (d : dict) (k : string) (dflt : pyval) : pyval := default dflt (d !! k).

(** [d[k]] *)
Definition item (d : dict) (k : string) : result pyval :=
  match d !! k with
  | Some v => Ok v
  | None => Raise KeyError
  end.

End Py.
Import Py.

(** ** datetime *)

(** A naive [datetime]; comparison is lexicographic on the seven fields. *)
Record datetime := mk_datetime {
  year : Z; month : Z; day : Z;
  hour : Z; minute : Z; second : Z; microsecond : Z
}.

Definition dt_fields (t : datetime) : list Z :=
  [year t; month t; day t; hour t; minute t; second t; microsecond t].

Fixpoint lex_compare (a b : list Z) : comparison :=
  match a, b with
  | [], [] => Eq
  | [], _ :: _ => Lt
  | _ :: _, [] => Gt
  | x :: a', y :: b' =>
      match x ?= y with
      | Eq => lex_compare a' b'
      | c => c
      end
  end.

Definition dt_compare (a b : datetime) : comparison :=
  lex_compare (dt_fields a) (dt_fields b).

(** [a > b] and [a >= b] *)
Definition dt_gt (a b : datetime) : bool :=
  match dt_compare a b with Gt => true | _ => false end.
Definition dt_ge (a b : datetime) : bool :=
  match dt_compare a b with Lt => false | _ => true end.

(** [now.replace(day=1, hour=0, minute=0, second=0, microsecond=0)] *)
Definition month_start (now : datetime) : datetime :=
  {| year := year now; month := month now; day := 1;
     hour := 0; minute := 0; second := 0; microsecond := 0 |}.

(** ** models.py *)

(** A row of [User]; the primary key [id] is the key of the [users] table.
    Columns that the core never reads (email, password hash, ...) are left
    out. *)
Record User := mk_User {
  subscription_plan : string;
  subscription_expires : option datetime;
  documents_created : Z
}.

(** The form data of each tool, as the handlers extract it. *)
Record InvoiceData := mk_InvoiceData {
  company_name : pyval; company_address : pyval;
  company_email : pyval; company_phone : pyval;
  client_name : pyval; client_address : pyval; client_email : pyval;
  invoice_number : pyval; invoice_date : pyval; due_date : pyval;
  items : list dict;        (* json.loads(data.get('items', '[]')) *)
  tax_rate : float;         (* float(data.get('tax_rate', 0)) *)
  discount : float;         (* float(data.get('discount', 0)) *)
  notes : pyval;
  invoice_template_id : pyval
}.

Record QrData := mk_QrData {
  qr_type : pyval;
  qr_content : pyval;
  qr_size : Z;
  qr_format : pyval;
  qr_error_correction : pyval
}.

Record ResumeData := mk_ResumeData {
  full_name : pyval;        (* personal_info.full_name *)
  resume_sections : dict;   (* the other fields, which only the renderer reads *)
  resume_template_id : pyval;
  resume_format : pyval
}.

Record CertificateData := mk_CertificateData {
  recipient_name : pyval;
  course_name : pyval;
  completion_date : pyval;
  instructor_name : pyval;
  organization : pyval;
  description : pyval;
  certificate_template_id : pyval;
  bulk_names : list pyval
}.

(** What [json.dumps] stores in [Document.data_json]. *)
Inductive payload :=
  | JInvoice (d : InvoiceData)
  | JQr (d : QrData)
  | JResume (d : ResumeData)
  | JCertificate (d : CertificateData).

Record Document := mk_Document {
  uuid : string;
  user_id : Z;
  document_type : string;
  title : string;
  file_path : string;
  file_type : pyval;
  template_used : pyval;
  data_json : payload;
  created_at : option datetime;
  downloaded_count : Z
}.

(** [User.is_premium] *)
Definition is_premium (self : User) (utcnow : datetime) : bool :=
  if bool_decide (subscription_plan self = "premium") then
    match subscription_expires self with
    | Some expires => dt_gt expires utcnow
    | None => false
    end
  else false.

(** The query of [can_create_document]:
    [Document.user_id == self.id, Document.created_at >= current_month_start].
    A row without a timestamp does not satisfy the comparison. *)
Definition in_month_of (self_id : Z) (current_month_start : datetime) (d : Document) : bool :=
  bool_decide (user_id d = self_id) &&
  match created_at d with
  | Some t => dt_ge t current_month_start
  | None => false
  end.

(** [User.can_create_document], with the rows of [Document] it queries. *)
Definition can_create_document (self_id : Z) (self : User)
    (docs : list Document) (utcnow : datetime) : bool :=
  if is_premium self utcnow then true
  else
    let current_month_start := month_start utcnow in
    let monthly_docs := length (filter (fun d => in_month_of self_id current_month_start d = true) docs) in
    bool_decide (monthly_docs < 5)%nat.

(** ** The world: database, file system, calls into the qrcode library *)

Record world := mk_world {
  users : gmap Z User;
  documents : list Document;
  files : gset string;
  (* every QRCode(...) constructed so far: its error_correction and data *)
  qr_log : list (ec_level * pyval)
}.

Definition empty_world : world :=
  {| users := ∅; documents := []; files := ∅; qr_log := [] |}.

(** What one request draws from outside the program. *)
Record Env := mk_Env {
  now : datetime;               (* datetime.utcnow() during the request *)
  token : nat -> string;        (* the i-th uuid.uuid4().hex[:8] *)
  fresh_uuid : nat -> string    (* Document.uuid default of the i-th inserted row *)
}.

(** The figures [generate_invoice_pdf] computes and prints. *)
Record InvoiceFigures := mk_InvoiceFigures {
  amounts : list float;
  subtotal : float;
  discount_amount : float;
  after_discount : float;
  tax_amount : float;
  total : float
}.

(** Decisions of the third-party libraries and of the number parsers. *)
Record Library := mk_Library {
  int_of_str : string -> option Z;          (* int(s); None is ValueError *)
  int_of_float : float -> result Z;         (* int(f) *)
  float_of_str : string -> option float;    (* float(s); None is ValueError *)
  str_of_float : float -> string;           (* str(f) *)
  (* reportlab: does laying out and writing the PDF succeed *)
  build_invoice : InvoiceData -> InvoiceFigures -> string -> bool;
  build_resume : ResumeData -> string -> bool;
  save_certificate : CertificateData -> string -> bool;
  (* qrcode and PIL *)
  qr_make : ec_level -> pyval -> bool;      (* add_data(data); make(fit=True) *)
  image_resize : Z -> bool;                 (* img.resize((n, n)) *)
  image_save : string -> bool               (* img.save(path) *)
}.

(** Code that reads or changes the world and may raise. *)
Definition effect (A : Type) : Type := world -> result A * world.

#[global] Instance effect_ret : MRet effect := fun A a w => (Ok a, w).
#[global] Instance effect_bind : MBind effect := fun A B k m w =>
  match m w with
  | (Ok a, w') => k a w'
  | (Raise e, w') => (Raise e, w')
  end.

Definition lift {A} (r : result A) : effect A := fun w => (r, w).

Definition raise {A} (e : exn) : effect A := lift (Raise e).

(** [try: body except Exception as e: handler(e)] *)
Definition try_except {A} (body : effect A) (handler : exn -> effect A) : effect A :=
  fun w =>
    match body w with
    | (Ok a, w') => (Ok a, w')
    | (Raise e, w') => handler e w'
    end.

Definition write_file (path : string) : effect unit := fun w =>
  (Ok (), {| users := users w; documents := documents w;
             files := {[ path ]} ∪ files w; qr_log := qr_log w |}).

Definition log_QRCode (level : ec_level) (data : pyval) : effect unit := fun w =>
  (Ok (), {| users := users w; documents := documents w;
             files := files w; qr_log := qr_log w ++ [(level, data)] |}).

Section Backend.
Context (lib : Library).

(** *** builtins that depend on the parsers *)

(** [str(v)], as in an f-string *)
Definition py_str (v : pyval) : string :=
  match v with
  | VNone => "None"
  | VBool true => "True"
  | VBool false => "False"
  | VInt z => pretty z
  | VFloat f => str_of_float lib f
  | VStr s => s
  | VImage _ _ _ => "<image>"
  end.

(** [int(v)] *)
Definition py_int (v : pyval) : result Z :=
  match v with
  | VInt z => Ok z
  | VBool b => Ok (if b then 1 else 0)
  | VFloat f => int_of_float lib f
  | VStr s => match int_of_str lib s with Some z => Ok z | None => Raise ValueError end
  | _ => Raise TypeError
  end.

(** [float(v)] *)
Definition py_float (v : pyval) : result float :=
  match v with
  | VFloat f => Ok f
  | VInt z => float_of_Z z
  | VBool b => Ok (if b then PrimFloat.one else PrimFloat.zero)
  | VStr s => match float_of_str lib s with Some f => Ok f | None => Raise ValueError end
  | _ => Raise TypeError
  end.

(** ** utils.py *)

(** The loop over [invoice_data['items']] of [generate_invoice_pdf]:
    [amount = float(item['quantity']) * float(item['rate'])],
    [subtotal += amount], one table row per item. *)
Fixpoint invoice_items_loop (its : list dict) (subtotal : float) (rows : list float)
    : result (float * list float) :=
  match its with
  | [] => Ok (subtotal, rows)
  | it :: rest =>
      q ← item it "quantity" ≫= py_float;
      r ← item it "rate" ≫= py_float;
      let amount := PrimFloat.mul q r in
      let subtotal := PrimFloat.add subtotal amount in
      _ ← item it "description";
      invoice_items_loop rest subtotal (rows ++ [amount])
  end.

(** The totals of [generate_invoice_pdf]. *)
Definition invoice_figures (invoice_data : InvoiceData) : result InvoiceFigures :=
  '(subtotal, rows) ← invoice_items_loop (items invoice_data) PrimFloat.zero [];
  let discount_amount := PrimFloat.mul subtotal (PrimFloat.div (discount invoice_data) hundred) in
  let after_discount := PrimFloat.sub subtotal discount_amount in
  let tax_amount := PrimFloat.mul after_discount (PrimFloat.div (tax_rate invoice_data) hundred) in
  let total := PrimFloat.add after_discount tax_amount in
  Ok {| amounts := rows; subtotal := subtotal; discount_amount := discount_amount;
        after_discount := after_discount; tax_amount := tax_amount; total := total |}.

(** [generate_invoice_pdf(invoice_data, file_path)] *)
Definition generate_invoice_pdf (invoice_data : InvoiceData) (file_path : string) : effect unit :=
  figures ← lift (invoice_figures invoice_data);
  if build_invoice lib invoice_data figures file_path
  then write_file file_path
  else raise (LibraryError "reportlab").

(** [generate_resume_pdf(resume_data, file_path)] *)
Definition generate_resume_pdf (resume_data : ResumeData) (file_path : string) : effect unit :=
  if build_resume lib resume_data file_path
  then write_file file_path
  else raise (LibraryError "reportlab").

(** [generate_certificate_pdf(certificate_data, file_path)] *)
Definition generate_certificate_pdf (certificate_data : CertificateData) (file_path : string)
    : effect unit :=
  if save_certificate lib certificate_data file_path
  then write_file file_path
  else raise (LibraryError "reportlab").

(** [qr = qrcode.QRCode(version=1, error_correction=level, ...);
     qr.add_data(data); qr.make(fit=True)] *)
Definition QRCode (level : ec_level) (data : pyval) : effect unit :=
  _ ← log_QRCode level data;
  if qr_make lib level data then mret () else raise (LibraryError "qrcode").

(** [img.resize((size, size))]: the size must be an int PIL accepts. *)
Definition resize (size : pyval) : result Z :=
  match size with
  | VInt n => if image_resize lib n then Ok n else Raise ValueError
  | VBool b => let n := if b then 1 else 0 in
               if image_resize lib n then Ok n else Raise ValueError
  | _ => Raise TypeError
  end.

(** [img.save(file_path)] *)
Definition save (file_path : pyval) : effect unit :=
  match file_path with
  | VStr p => if image_save lib p then write_file p else raise (LibraryError "PIL")
  | _ => raise TypeError
  end.

(** A module-level function: positional arguments in, a value or an
    exception out. *)
Definition pyfun := list pyval -> effect pyval.

(** The first [def generate_qr_code(content, file_path, size=300, format='png')]
    of utils.py (line 262). *)
Definition generate_qr_code_1 : pyfun := fun args =>
  match args with
  | content :: file_path :: rest =>
      if bool_decide (2 < length rest)%nat then raise TypeError else
      let size := nth 0 rest (VInt 300) in
      let format := nth 1 rest (VStr "png") in
      _ ← QRCode ERROR_CORRECT_M content;
      fmt ← lift (lower format);
      if bool_decide (fmt = "svg") then
        _ ← save file_path; mret VNone
      else
        _ ← lift (resize size);
        _ ← save file_path; mret VNone
  | _ => raise TypeError
  end.

(** Reading the name [qrcode] inside the second [generate_qr_code].  The
    [import qrcode.image.svg] in the svg branch of that function binds
    [qrcode], so the name is a local variable of the whole function body, and
    nothing has assigned it when the first statement reads it. *)
Definition local_qrcode : effect unit := raise UnboundLocalError.

(** The [try] block of the second [generate_qr_code] of utils.py: its first
    statement, [qr = qrcode.QRCode(...)], starts by reading [qrcode]. *)
Definition generate_qr_code_2_try (data size format : pyval) : effect pyval :=
  _ ← local_qrcode;
  _ ← QRCode ERROR_CORRECT_M data;
  fmt ← lift (lower format);
  if bool_decide (fmt = "svg") then
    mret (VImage ERROR_CORRECT_M data None)
  else
    n ← lift (resize size);
    mret (VImage ERROR_CORRECT_M data (Some n)).

(** The second [def generate_qr_code(data, size=300, format='png',
    error_correction='M', foreground_color=..., background_color=...)]
    of utils.py (line 468): the whole body is inside [try], the handler
    prints and returns None.  [error_correction] is bound and not used. *)
Definition generate_qr_code_2 : pyfun := fun args =>
  match args with
  | data :: rest =>
      if bool_decide (5 < length rest)%nat then raise TypeError else
      let size := nth 0 rest (VInt 300) in
      let format := nth 1 rest (VStr "png") in
      let error_correction := nth 2 rest (VStr "M") in
      try_except (generate_qr_code_2_try data size format) (fun e => mret VNone)
  | [] => raise TypeError
  end.

(** The functions utils.py defines under the name [generate_qr_code], in the
    order of the file. *)
Definition utils_defs : list (string * pyfun) :=
  [ ("generate_qr_code", generate_qr_code_1);
    ("generate_qr_code", generate_qr_code_2) ].

(** Executing the [def] statements in order: each one rebinds its name. *)
Definition exec_defs (defs : list (string * pyfun)) : gmap string pyfun :=
  fold_left (fun ns '(name, f) => <[name := f]> ns) defs ∅.

Definition utils : gmap string pyfun := exec_defs utils_defs.

(** [from utils import name], then a call of it with positional arguments *)
Definition call_utils (name : string) (args : list pyval) : effect pyval :=
  match utils !! name with
  | Some f => f args
  | None => raise (LibraryError "ImportError")
  end.

End Backend.

(** ** The database session *)

(** The arguments of a [Document(...)] constructor call; [uuid],
    [created_at] and [downloaded_count] get their column defaults when the
    row is inserted. *)
Record NewDocument := mk_NewDocument {
  new_user_id : Z;
  new_document_type : string;
  new_title : string;
  new_file_path : string;
  new_file_type : pyval;
  new_template_used : pyval;
  new_data_json : payload
}.

Definition insert_row (env : Env) (i : nat) (d : NewDocument) : Document :=
  {| uuid := fresh_uuid env i;
     user_id := new_user_id d;
     document_type := new_document_type d;
     title := new_title d;
     file_path := new_file_path d;
     file_type := new_file_type d;
     template_used := new_template_used d;
     data_json := new_data_json d;
     created_at := Some (now env);
     downloaded_count := 0 |}.

Definition set_documents_created (n : Z) (u : User) : User :=
  {| subscription_plan := subscription_plan u;
     subscription_expires := subscription_expires u;
     documents_created := n |}.

(** The UNIQUE constraint on [Document.uuid], for rows about to be inserted. *)
Definition uuids_unique (existing rows : list Document) : Prop :=
  NoDup (uuid <$> rows) ∧ Forall (fun r => uuid r ∉ uuid <$> existing) rows.

(** The NOT NULL constraint on [Document.file_type]: of the columns declared
    [nullable=False] it is the one a handler can give None (the format field
    of a request); the others are strings the handler builds, or have a
    column default. *)
Definition not_null_value (v : pyval) : bool :=
  match v with
  | VNone => false
  | _ => true
  end.

Definition not_null (d : NewDocument) : bool := not_null_value (new_file_type d).

(** [db.session.add(document)] for each of [added],
    [user.documents_created += created], [db.session.commit()].
    [user] is the object the request loaded; the UPDATE writes the value
    computed from it, and is only issued when the attribute changed. *)
Definition commit (env : Env) (self_id : Z) (user : User)
    (added : list NewDocument) (created : Z) : effect (list Document) := fun w =>
  let rows := imap (insert_row env) added in
  if bool_decide (uuids_unique (documents w) rows) && forallb not_null added then
    (Ok rows,
     {| users := if bool_decide (created = 0) then users w
                 else alter (set_documents_created (documents_created user + created))
                            self_id (users w);
        documents := documents w ++ rows;
        files := files w;
        qr_log := qr_log w |})
  else (Raise IntegrityError, w).

(** [db.session.rollback()]: the tables are as when the request began; files
    already written stay. *)
Definition rollback (w0 w : world) : world :=
  {| users := users w0; documents := documents w0;
     files := files w; qr_log := qr_log w |}.

(** ** tools.py *)

Inductive response :=
  | Success (rows : list Document)   (* 200 and the rows committed *)
  | Forbidden (error : string)       (* 403 *)
  | Failed (e : exn)                 (* 500 from the handler's own except *)
  | Unhandled (e : exn).             (* an exception that left the handler *)

Definition QuotaExceeded : response :=
  Forbidden "Document limit reached. Upgrade to premium for unlimited access.".
Definition PremiumRequired : response :=
  Forbidden "Bulk certificate generation requires premium subscription.".

Definition is_success (r : response) : bool :=
  match r with Success _ => true | _ => false end.

(** The rows a reply reports as committed. *)
Definition rows_of (r : response) : list Document :=
  match r with Success rows => rows | _ => [] end.

Definition GENERATED_FILES_FOLDER : string := "generated_files".

(** [os.path.join(folder, filename)] for a relative [filename] *)
Definition path_join (folder filename : string) : string :=
  folder +:+ "/" +:+ filename.

Definition newline : string := String (ascii_of_nat 10) EmptyString.

(** [User.query.get(session['user_id'])] *)
Definition get_current_user (self_id : Z) (w : world) : option User :=
  users w !! self_id.

(** The first lines of every POST handler: load the user and test
    [user.can_create_document()].  Either the reply is decided, or the
    handler goes on with the user object it loaded. *)
Definition quota_gate (env : Env) (self_id : Z) (w : world) : response + User :=
  match get_current_user self_id w with
  | None => inl (Unhandled AttributeError)
  | Some user =>
      if can_create_document self_id user (documents w) (now env)
      then inr user
      else inl QuotaExceeded
  end.

(** [try: body ... except Exception as e: db.session.rollback(); 500].
    The reply carries the rows; the download links [url_for] builds from
    committed rows are text in the reply only. *)
Definition try_or_rollback (body : effect (list Document)) (w0 : world) : response * world :=
  match body w0 with
  | (Ok rows, w) => (Success rows, w)
  | (Raise e, w) => (Failed e, rollback w0 w)
  end.

Section Tools.
Context (lib : Library).

(** *** invoice_generator *)

Definition invoice_body (env : Env) (self_id : Z) (user : User)
    (invoice_data : InvoiceData) : effect (list Document) :=
  let filename := "invoice_" +:+ py_str lib (invoice_number invoice_data)
                  +:+ "_" +:+ token env 0 +:+ ".pdf" in
  let file_path := path_join GENERATED_FILES_FOLDER filename in
  _ ← generate_invoice_pdf lib invoice_data file_path;
  let document :=
    {| new_user_id := self_id;
       new_document_type := "invoice";
       new_title := "Invoice #" +:+ py_str lib (invoice_number invoice_data);
       new_file_path := file_path;
       new_file_type := VStr "pdf";
       new_template_used := invoice_template_id invoice_data;
       new_data_json := JInvoice invoice_data |} in
  commit env self_id user [document] 1.

Definition invoice_generator (env : Env) (self_id : Z) (invoice_data : InvoiceData)
    (w : world) : response * world :=
  match quota_gate env self_id w with
  | inl r => (r, w)
  | inr user => try_or_rollback (invoice_body env self_id user invoice_data) w
  end.

(** *** qrcode_generator *)

Definition qr_extract (data : dict) : result QrData :=
  size ← py_int lib (get_or data "size" (VInt 300));
  mret {| qr_type := get_or data "type" (VStr "text");
          qr_content := get data "content";
          qr_size := size;
          qr_format := get_or data "format" (VStr "png");
          qr_error_correction := get_or data "error_correction" (VStr "M") |}.

(** "Handle different QR types" *)
Definition qr_content_of (data : dict) (qr_data : QrData) : pyval :=
  if eq_str (qr_type qr_data) "wifi" then
    VStr ("WIFI:T:" +:+ py_str lib (get data "wifi_security")
          +:+ ";S:" +:+ py_str lib (get data "wifi_ssid")
          +:+ ";P:" +:+ py_str lib (get data "wifi_password") +:+ ";;")
  else if eq_str (qr_type qr_data) "vcard" then
    VStr ("BEGIN:VCARD" +:+ newline +:+ "VERSION:3.0" +:+ newline
          +:+ "FN:" +:+ py_str lib (get data "vcard_name") +:+ newline
          +:+ "TEL:" +:+ py_str lib (get data "vcard_phone") +:+ newline
          +:+ "EMAIL:" +:+ py_str lib (get data "vcard_email") +:+ newline
          +:+ "ORG:" +:+ py_str lib (get data "vcard_org") +:+ newline
          +:+ "END:VCARD")
  else if eq_str (qr_type qr_data) "upi" then
    VStr ("upi://pay?pa=" +:+ py_str lib (get data "upi_id")
          +:+ "&pn=" +:+ py_str lib (get data "upi_name")
          +:+ "&am=" +:+ py_str lib (get data "upi_amount"))
  else qr_content qr_data.

Definition with_content (qr_data : QrData) (content : pyval) : QrData :=
  {| qr_type := qr_type qr_data; qr_content := content; qr_size := qr_size qr_data;
     qr_format := qr_format qr_data;
     qr_error_correction := qr_error_correction qr_data |}.

Definition qrcode_body (env : Env) (self_id : Z) (user : User)
    (data : dict) (qr_data : QrData) : effect (list Document) :=
  let content := qr_content_of data qr_data in
  let filename := "qrcode_" +:+ token env 0 +:+ "." +:+ py_str lib (qr_format qr_data) in
  let file_path := path_join GENERATED_FILES_FOLDER filename in
  _ ← call_utils lib "generate_qr_code"
        [content; VStr file_path; VInt (qr_size qr_data); qr_format qr_data];
  type_title ← lift (Py.title (qr_type qr_data));
  let document :=
    {| new_user_id := self_id;
       new_document_type := "qrcode";
       new_title := "QR Code - " +:+ type_title;
       new_file_path := file_path;
       new_file_type := qr_format qr_data;
       new_template_used := VNone;
       new_data_json := JQr (with_content qr_data content) |} in
  commit env self_id user [document] 1.

(** What the handler does once the quota check has passed. *)
Definition qrcode_act (env : Env) (self_id : Z) (user : User) (data : dict)
    (w : world) : response * world :=
  match qr_extract data with
  | Raise e => (Unhandled e, w)
  | Ok qr_data => try_or_rollback (qrcode_body env self_id user data qr_data) w
  end.

Definition qrcode_generator (env : Env) (self_id : Z) (data : dict)
    (w : world) : response * world :=
  match quota_gate env self_id w with
  | inl r => (r, w)
  | inr user => qrcode_act env self_id user data w
  end.

(** *** resume_builder *)

Definition resume_body (env : Env) (self_id : Z) (user : User)
    (resume_data : ResumeData) : effect (list Document) :=
  let format_ext := resume_format resume_data in
  name ← lift (replace_space (full_name resume_data));
  let filename := "resume_" +:+ name +:+ "_" +:+ token env 0
                  +:+ "." +:+ py_str lib format_ext in
  let file_path := path_join GENERATED_FILES_FOLDER filename in
  _ ← generate_resume_pdf lib resume_data file_path;
  let document :=
    {| new_user_id := self_id;
       new_document_type := "resume";
       new_title := "Resume - " +:+ py_str lib (full_name resume_data);
       new_file_path := file_path;
       new_file_type := format_ext;
       new_template_used := resume_template_id resume_data;
       new_data_json := JResume resume_data |} in
  commit env self_id user [document] 1.

Definition resume_builder (env : Env) (self_id : Z) (resume_data : ResumeData)
    (w : world) : response * world :=
  match quota_gate env self_id w with
  | inl r => (r, w)
  | inr user => try_or_rollback (resume_body env self_id user resume_data) w
  end.

(** *** certificate_creator *)

Definition with_recipient (c : CertificateData) (name : pyval) : CertificateData :=
  {| recipient_name := name; course_name := course_name c;
     completion_date := completion_date c; instructor_name := instructor_name c;
     organization := organization c; description := description c;
     certificate_template_id := certificate_template_id c;
     bulk_names := bulk_names c |}.

Definition with_bulk_names (c : CertificateData) (names : list pyval) : CertificateData :=
  {| recipient_name := recipient_name c; course_name := course_name c;
     completion_date := completion_date c; instructor_name := instructor_name c;
     organization := organization c; description := description c;
     certificate_template_id := certificate_template_id c;
     bulk_names := names |}.

(** [url_for('download_document', document_uuid=document.uuid)] in
    certificate_creator, where the document has been given to
    [db.session.add] and is not committed yet: [Document.uuid] is a column
    default, filled in by the INSERT, so the attribute is still None, and no
    URL is built for a rule whose argument is None (werkzeug's BuildError). *)
Definition url_for_download_pending : effect unit :=
  raise (LibraryError "url_for").

(** One certificate: file name, PDF, [Document(...)], [db.session.add], the
    entry of [generated_files] with its download URL. [name] is the value
    the file name and the title are made from, [cert_data] what is rendered
    and stored. *)
Definition one_certificate (env : Env) (self_id : Z) (i : nat)
    (certificate_data cert_data : CertificateData) (name : pyval) : effect NewDocument :=
  underscored ← lift (replace_space name);
  let filename := "certificate_" +:+ underscored +:+ "_" +:+ token env i +:+ ".pdf" in
  let file_path := path_join GENERATED_FILES_FOLDER filename in
  _ ← generate_certificate_pdf lib cert_data file_path;
  let document :=
    {| new_user_id := self_id;
       new_document_type := "certificate";
       new_title := "Certificate - " +:+ py_str lib name;
       new_file_path := file_path;
       new_file_type := VStr "pdf";
       new_template_used := certificate_template_id certificate_data;
       new_data_json := JCertificate cert_data |} in
  _ ← url_for_download_pending;
  mret document.

(** [for name in certificate_data['bulk_names']: if name.strip(): ...];
    [added] are the documents given to [db.session.add] so far, one per
    entry of [generated_files]. *)
Fixpoint bulk_loop (env : Env) (self_id : Z) (certificate_data : CertificateData)
    (names : list pyval) (added : list NewDocument) : effect (list NewDocument) :=
  match names with
  | [] => mret added
  | name :: rest =>
      stripped ← lift (strip name);
      if bool_decide (stripped = "") then
        bulk_loop env self_id certificate_data rest added
      else
        let cert_data := with_recipient certificate_data (VStr stripped) in
        document ← one_certificate env self_id (length added)
                     certificate_data cert_data name;
        bulk_loop env self_id certificate_data rest (added ++ [document])
  end.

Definition certificate_body (env : Env) (self_id : Z) (user : User)
    (is_bulk : pyval) (certificate_data : CertificateData) : effect (list Document) :=
  added ←
    (if truthy is_bulk && negb (bool_decide (bulk_names certificate_data = []))
     then bulk_loop env self_id certificate_data (bulk_names certificate_data) []
     else
       document ← one_certificate env self_id 0 certificate_data certificate_data
                    (recipient_name certificate_data);
       mret [document]);
  commit env self_id user added (Z.of_nat (length added)).

(** After the quota check: the premium check of bulk mode, then the body.
    [form] holds the submitted fields, its [bulk_names] the parsed list. *)
Definition certificate_act (env : Env) (self_id : Z) (user : User)
    (is_bulk : pyval) (form : CertificateData) (w : world) : response * world :=
  if truthy is_bulk && negb (is_premium user (now env)) then (PremiumRequired, w)
  else
    let certificate_data :=
      with_bulk_names form (if truthy is_bulk then bulk_names form else []) in
    try_or_rollback (certificate_body env self_id user is_bulk certificate_data) w.

Definition certificate_creator (env : Env) (self_id : Z)
    (is_bulk : pyval) (form : CertificateData) (w : world) : response * world :=
  match quota_gate env self_id w with
  | inl r => (r, w)
  | inr user => certificate_act env self_id user is_bulk form w
  end.

End Tools.

(** ** app.py: download_document *)

(** [Document.query.filter_by(uuid=document_uuid, user_id=user.id).first()]:
    the position and the row of the first match. *)
Definition find_document (document_uuid : string) (self_id : Z) (docs : list Document)
    : option (nat * Document) :=
  list_find (fun d => uuid d = document_uuid ∧ user_id d = self_id) docs.

(** The ledger lookup of the specification, on the same query. *)
Definition get_by_public_id (document_uuid : string) (owner : Z) (w : world)
    : option Document :=
  snd <$> find_document document_uuid owner (documents w).

Inductive download_response :=
  | Sent (d : Document)       (* send_file(document.file_path, ...) *)
  | NotFound                  (* 'Document not found' *)
  | FileNotFound              (* 'File not found on server' *)
  | DownloadUnhandled (e : exn).

Definition count_download (d : Document) : Document :=
  {| uuid := uuid d; user_id := user_id d; document_type := document_type d;
     title := title d; file_path := file_path d; file_type := file_type d;
     template_used := template_used d; data_json := data_json d;
     created_at := created_at d; downloaded_count := downloaded_count d + 1 |}.

Definition download_document (self_id : Z) (document_uuid : string) (w : world)
    : download_response * world :=
  match get_current_user self_id w with
  | None => (DownloadUnhandled AttributeError, w)
  | Some user =>
      match find_document document_uuid self_id (documents w) with
      | None => (NotFound, w)
      | Some (i, document) =>
          let w' := {| users := users w;
                       documents := alter count_download i (documents w);
                       files := files w; qr_log := qr_log w |} in
          if bool_decide (file_path document ∈ files w)
          then (Sent (count_download document), w')
          else (FileNotFound, w')
      end
  end.

(** ** auth.py: signup *)

(** [User(email=..., full_name=..., subscription_plan='free')], added and
    committed; [new_id] is the primary key the database assigns. *)
Definition signup (new_id : Z) (w : world) : world :=
  match users w !! new_id with
  | Some _ => w
  | None =>
      {| users := <[new_id := {| subscription_plan := "free";
                                 subscription_expires := None;
                                 documents_created := 0 |}]> (users w);
         documents := documents w; files := files w; qr_log := qr_log w |}
  end.

(** ** Requests, one at a time and interleaved *)

Inductive request :=
  | PostInvoice (invoice_data : InvoiceData)
  | PostQrcode (data : dict)
  | PostResume (resume_data : ResumeData)
  | PostCertificate (is_bulk : pyval) (form : CertificateData).

(** A generation request of a logged-in user, with what it will draw from
    the clock and from uuid4. *)
Record call := mk_call {
  call_env : Env;
  call_user : Z;
  call_request : request
}.

Section Workers.
Context (lib : Library).

(** The handler after its quota check, for each tool. *)
Definition act (c : call) (user : User) (w : world) : response * world :=
  match call_request c with
  | PostInvoice invoice_data =>
      try_or_rollback (invoice_body lib (call_env c) (call_user c) user invoice_data) w
  | PostQrcode data => qrcode_act lib (call_env c) (call_user c) user data w
  | PostResume resume_data =>
      try_or_rollback (resume_body lib (call_env c) (call_user c) user resume_data) w
  | PostCertificate is_bulk form =>
      certificate_act lib (call_env c) (call_user c) user is_bulk form w
  end.

(** One request served from start to end with no other request in between. *)
Definition handle (c : call) (w : world) : response * world :=
  match call_request c with
  | PostInvoice invoice_data => invoice_generator lib (call_env c) (call_user c) invoice_data w
  | PostQrcode data => qrcode_generator lib (call_env c) (call_user c) data w
  | PostResume resume_data => resume_builder lib (call_env c) (call_user c) resume_data w
  | PostCertificate is_bulk form =>
      certificate_creator lib (call_env c) (call_user c) is_bulk form w
  end.

(** Requests served one after the other: the replies and the final world. *)
Fixpoint serve (cs : list call) (w : world) : list response * world :=
  match cs with
  | [] => ([], w)
  | c :: rest =>
      let '(r, w1) := handle c w in
      let '(rs, w2) := serve rest w1 in
      (r :: rs, w2)
  end.

(** A worker serving one request.  Between the quota check (a SELECT) and
    the rest of the handler (render, insert, commit) other workers may run;
    the worker keeps the user object it loaded. *)
Inductive worker :=
  | Received (c : call)
  | Checked (c : call) (user : User)
  | Replied (r : response).

(** The reply of a worker that has finished. *)
Definition reply_of (t : worker) : option response :=
  match t with
  | Replied r => Some r
  | _ => None
  end.

Definition step (t : worker) (w : world) : worker * world :=
  match t with
  | Received c =>
      match quota_gate (call_env c) (call_user c) w with
      | inl r => (Replied r, w)
      | inr user => (Checked c user, w)
      end
  | Checked c user =>
      let '(r, w') := act c user w in (Replied r, w')
  | Replied r => (t, w)
  end.

(** A schedule names, step by step, the worker that moves next. *)
Fixpoint run (schedule : list nat) (ts : list worker) (w : world) : list worker * world :=
  match schedule with
  | [] => (ts, w)
  | i :: rest =>
      match ts !! i with
      | None => run rest ts w
      | Some t =>
          let '(t', w') := step t w in
          run rest (<[i := t']> ts) w'
      end
  end.

End Workers.

(** ** Operations on the store *)

Inductive operation :=
  | Signup (new_id : Z)
  | Generate (c : call)
  | Download (self_id : Z) (document_uuid : string).

Definition perform (lib : Library) (op : operation) (w : world) : world :=
  match op with
  | Signup new_id => signup new_id w
  | Generate c => snd (handle lib c w)
  | Download self_id document_uuid => snd (download_document self_id document_uuid w)
  end.

(** The operations performed one after the other, each to its end. *)
Definition perform_all (lib : Library) (ops : list operation) (w : world) : world :=
  fold_left (fun w op => perform lib op w) ops w.

(** ** Ledger consistency *)

(** The rows of the ledger a user owns. *)
Definition owned_by (self_id : Z) (docs : list Document) : list Document :=
  filter (fun d => user_id d = self_id) docs.

(** The invariant of the data model: every user's lifetime counter is the
    number of ledger rows the user owns, and every row has an owner. *)
Definition ledger_consistent (w : world) : Prop :=
  (∀ self_id user, users w !! self_id = Some user →
     documents_created user = Z.of_nat (length (owned_by self_id (documents w))))
  ∧ Forall (fun d => is_Some (users w !! user_id d)) (documents w).

(** The counter of a user, 0 before the user exists. *)
Definition counter (self_id : Z) (w : world) : Z :=
  from_option documents_created 0 (users w !! self_id).

(** The number of a user's artifacts of the calendar month of [clock]. *)
Definition monthly_count (self_id : Z) (docs : list Document) (clock : datetime) : nat :=
  length (filter (fun d => in_month_of self_id (month_start clock) d = true) docs).

(** ** Concrete libraries, users and requests *)

(** A library in which the qrcode and PIL calls succeed (PIL wants a
    positive size) and reportlab lays out every invoice; a resume is laid
    out when its address is a string, as [Paragraph(personal['address'], ...)]
    needs, a certificate when the recipient and the course are strings, as
    [c.stringWidth] needs.  Numbers arrive as JSON numbers, so the string
    parsers are not needed. *)
Definition working_library : Library :=
  {| int_of_str := fun _ => None;
     int_of_float := fun _ => Raise ValueError;
     float_of_str := fun _ => None;
     str_of_float := fun _ => "0.0";
     build_invoice := fun _ _ _ => true;
     build_resume := fun resume_data _ =>
       match Py.get (resume_sections resume_data) "address" with
       | VStr _ => true
       | _ => false
       end;
     save_certificate := fun certificate_data _ =>
       match recipient_name certificate_data, course_name certificate_data with
       | VStr _, VStr _ => true
       | _, _ => false
       end;
     qr_make := fun _ _ => true;
     image_resize := fun n => bool_decide (0 < n);
     image_save := fun _ => true |}.

Definition at_noon (y m d : Z) : datetime :=
  {| year := y; month := m; day := d; hour := 12; minute := 0; second := 0;
     microsecond := 0 |}.

(** The environment of a request served at [t]; [tag] tells the tokens and
    uuids of different requests apart. *)
Definition env_at (tag : string) (t : datetime) : Env :=
  {| now := t;
     token := fun i => tag +:+ pretty (Z.of_nat i);
     fresh_uuid := fun i => "uuid-" +:+ tag +:+ "-" +:+ pretty (Z.of_nat i) |}.

Definition free_user (n : Z) : User :=
  {| subscription_plan := "free"; subscription_expires := None; documents_created := n |}.

Definition premium_user (n : Z) (expires : datetime) : User :=
  {| subscription_plan := "premium"; subscription_expires := Some expires;
     documents_created := n |}.

(** A ledger row of user [owner] created at [t]. *)
Definition row_of (owner : Z) (id : string) (t : datetime) : Document :=
  {| uuid := id; user_id := owner; document_type := "qrcode"; title := "QR Code - Text";
     file_path := "generated_files/qrcode_" +:+ id +:+ ".png"; file_type := VStr "png";
     template_used := VNone;
     data_json := JQr {| qr_type := VStr "text"; qr_content := VStr id; qr_size := 300;
                         qr_format := VStr "png"; qr_error_correction := VStr "M" |};
     created_at := Some t; downloaded_count := 0 |}.

(** User 1, on the free plan, with four artifacts made in May 2024. *)
Definition four_in_may : world :=
  {| users := {[ 1 := free_user 4 ]};
     documents := [ row_of 1 "d1" (at_noon 2024 5 2); row_of 1 "d2" (at_noon 2024 5 3);
                    row_of 1 "d3" (at_noon 2024 5 7); row_of 1 "d4" (at_noon 2024 5 9) ];
     files := ∅; qr_log := [] |}.

(** A text QR code asking for error correction level H. *)
Definition qr_text_H : dict :=
  {[ "type" := VStr "text"; "content" := VStr "hello"; "error_correction" := VStr "H" ]}.

(** [type=wifi, security=WPA, ssid=Home, password=secret] *)
Definition qr_wifi_home : dict :=
  {[ "type" := VStr "wifi"; "wifi_security" := VStr "WPA"; "wifi_ssid" := VStr "Home";
     "wifi_password" := VStr "secret" ]}.

Definition certificate_form (recipient : pyval) (names : list pyval) : CertificateData :=
  {| recipient_name := recipient; course_name := VStr "Rocq";
     completion_date := VStr "2024-05-20"; instructor_name := VStr "Ada";
     organization := VStr "Academy"; description := VNone;
     certificate_template_id := VNone; bulk_names := names |}.

Definition line_item (description : string) (quantity rate : Z) : dict :=
  {[ "description" := VStr description; "quantity" := VInt quantity; "rate" := VInt rate ]}.

(** Items [{qty: 2, rate: 100}, {qty: 1, rate: 50}], discount 10%%, tax 5%%. *)
Definition example_invoice : InvoiceData :=
  {| company_name := VStr "Acme"; company_address := VStr "1 Main St";
     company_email := VStr "billing@acme.test"; company_phone := VStr "555";
     client_name := VStr "Client"; client_address := VStr "2 Side St";
     client_email := VStr "client@acme.test";
     invoice_number := VStr "INV-1"; invoice_date := VStr "2024-05-01";
     due_date := VStr "2024-06-01";
     items := [line_item "design" 2 100; line_item "hosting" 1 50];
     tax_rate := 5%float; discount := 10%float;
     notes := VStr ""; invoice_template_id := VNone |}.

(** User 1 has just signed up. *)
Definition new_user_world : world := signup 1 empty_world.

(** A request served on 20 May 2024. *)
Definition may_20 (tag : string) : Env := env_at tag (at_noon 2024 5 20).

(** Two invoice requests of user 1, both received on 20 May 2024. *)
Definition invoice_call (tag : string) : call :=
  {| call_env := may_20 tag; call_user := 1; call_request := PostInvoice example_invoice |}.

Definition two_invoice_workers : list worker :=
  [Received (invoice_call "a"); Received (invoice_call "b")].

(** Three invoice requests of user 1, all received on 20 May 2024. *)
Definition three_invoice_workers : list worker :=
  [Received (invoice_call "a"); Received (invoice_call "b"); Received (invoice_call "c")].

(** User 2 is premium until 2025, user 3 is on the free plan with five
    artifacts made in May 2024. *)
Definition certificate_world : world :=
  {| users := {[ 2 := premium_user 0 (at_noon 2025 1 1); 3 := free_user 5 ]};
     documents := [ row_of 3 "e1" (at_noon 2024 5 1); row_of 3 "e2" (at_noon 2024 5 2);
                    row_of 3 "e3" (at_noon 2024 5 3); row_of 3 "e4" (at_noon 2024 5 4);
                    row_of 3 "e5" (at_noon 2024 5 5) ];
     files := ∅; qr_log := [] |}.

(** ** Bulk certificates, as the specification describes them *)

(** The names of a bulk list that are not blank. *)
Definition non_blank (names : list string) : list string :=
  filter (fun name => str_strip name ≠ "") names.

(** The certificate of the [i]-th non-blank name: the fields of the form,
    the stripped name as recipient. *)
Definition bulk_document (env : Env) (self_id : Z) (form : CertificateData)
    (i : nat) (name : string) : NewDocument :=
  {| new_user_id := self_id;
     new_document_type := "certificate";
     new_title := "Certificate - " +:+ name;
     new_file_path :=
       path_join GENERATED_FILES_FOLDER
         ("certificate_" +:+ str_replace_space name +:+ "_" +:+ token env i +:+ ".pdf");
     new_file_type := VStr "pdf";
     new_template_used := certificate_template_id form;
     new_data_json := JCertificate (with_recipient form (VStr (str_strip name))) |}.

(** The rows a bulk request for [names] is expected to commit. *)
Definition bulk_rows (env : Env) (self_id : Z) (form : CertificateData)
    (names : list string) : list Document :=
  imap (insert_row env) (imap (bulk_document env self_id form) (non_blank names)).

(** A sign-up, an invoice, a QR code, a bulk request that is refused, and a
    download of the invoice. *)
Definition example_operations : list operation :=
  [ Signup 1;
    Generate (invoice_call "a");
    Generate {| call_env := may_20 "q"; call_user := 1; call_request := PostQrcode qr_text_H |};
    Generate {| call_env := may_20 "c"; call_user := 1;
                call_request := PostCertificate (VBool true)
                                  (certificate_form VNone [VStr "Alice"]) |};
    Download 1 "uuid-a-0" ].

(** ** Notions the properties are stated with *)

(** The premium rule of the specification: the plan is premium and the
    expiry timestamp is strictly after the clock. *)
Definition premium_eligible (user : User) (clock : datetime) : Prop :=
  subscription_plan user = "premium" ∧
  ∃ expiry, subscription_expires user = Some expiry ∧ dt_compare expiry clock = Gt.

(** The artifact was created in a calendar month before the one of [clock]. *)
Definition in_prior_month (clock : datetime) (d : Document) : Prop :=
  ∃ t, created_at d = Some t ∧
       (year t < year clock ∨ (year t = year clock ∧ month t < month clock)).

#[global] Instance in_prior_month_dec clock d : Decision (in_prior_month clock d).
Proof.
  unfold in_prior_month. destruct (created_at d) as [t|].
  - destruct (decide (year t < year clock ∨ (year t = year clock ∧ month t < month clock))) as [H|H].
    + left. eauto.
    + right. intros (t' & Ht & H'). simplify_eq. auto.
  - right. intros (t' & Ht & _). discriminate.
Defined.

(** The fields of a datetime are in range as far as the comparison with the
    start of its month needs. *)
Definition valid_datetime (t : datetime) : Prop :=
  1 ≤ day t ∧ 0 ≤ hour t ∧ 0 ≤ minute t ∧ 0 ≤ second t ∧ 0 ≤ microsecond t.

(** The quota rule of the specification: the artifact belongs to the user
    and was created at or after the first instant of the calendar month of
    [clock], that is, in that month or in a later one. *)
Definition since_month_start (self_id : Z) (clock : datetime) (d : Document) : Prop :=
  user_id d = self_id ∧
  ∃ t, created_at d = Some t ∧
       (year clock < year t ∨ (year t = year clock ∧ month clock ≤ month t)).

#[global] Instance since_month_start_dec self_id clock d :
  Decision (since_month_start self_id clock d).
Proof.
  unfold since_month_start. destruct (decide (user_id d = self_id)) as [Hu|Hu].
  - destruct (created_at d) as [t|].
    + destruct (decide (year clock < year t ∨ (year t = year clock ∧ month clock ≤ month t)))
        as [H|H].
      * left. eauto.
      * right. intros (_ & t' & Ht & H'). simplify_eq. auto.
    + right. intros (_ & t' & Ht & _). discriminate.
  - right. intros (Hu' & _). auto.
Defined.

(** The number of a user's artifacts the specification counts at [clock]. *)
Definition artifacts_this_month (self_id : Z) (docs : list Document) (clock : datetime) : nat :=
  length (filter (since_month_start self_id clock) docs).

(** Every timestamp of the ledger is a datetime. *)
Definition timestamps_valid (docs : list Document) : Prop :=
  Forall (fun d => ∀ t, created_at d = Some t → valid_datetime t) docs.

(** The instant [y]-[m]-[d] [h]:[mi]:[s].[us]. *)
Definition instant (y m d h mi s us : Z) : datetime :=
  {| year := y; month := m; day := d; hour := h; minute := mi; second := s;
     microsecond := us |}.


(** The line item has the three fields, and quantity and rate are numbers. *)
Definition item_well_formed (lib : Library) (it : dict) : Prop :=
  is_ok (item it "quantity" ≫= py_float lib) = true ∧
  is_ok (item it "rate" ≫= py_float lib) = true ∧
  is_ok (item it "description") = true.

(** The tables are the same in both worlds. *)
Definition same_db (w w' : world) : Prop :=
  users w' = users w ∧ documents w' = documents w.

(** [m] leaves the tables alone, and what it returns satisfies [Q]. *)
Definition db_preserving {A} (Q : A → Prop) (m : effect A) : Prop :=
  ∀ w r w', m w = (r, w') → same_db w w' ∧ ∀ a, r = Ok a → Q a.

(** The effect on the tables of a commit of [rows] by the session that
    loaded [user]. *)
Record committed (env : Env) (self_id : Z) (user : User) (w w' : world)
    (rows : list Document) : Prop := {
  committed_documents : documents w' = documents w ++ rows;
  committed_owner : Forall (fun d => user_id d = self_id) rows;
  committed_created : Forall (fun d => created_at d = Some (now env)) rows;
  committed_users :
    users w' = if bool_decide (Z.of_nat (length rows) = 0) then users w
               else alter (set_documents_created
                             (documents_created user + Z.of_nat (length rows)))
                          self_id (users w);
  committed_unique : uuids_unique (documents w) rows
}.

(** [m] either commits rows of [self_id], which satisfy [P], together with
    the counter, or raises and leaves the tables alone. *)
Definition transactional (P : list Document → Prop) (env : Env) (self_id : Z)
    (user : User) (m : effect (list Document)) : Prop :=
  ∀ w r w', m w = (r, w') →
    match r with
    | Ok rows => committed env self_id user w w' rows ∧ P rows
    | Raise _ => same_db w w'
    end.

(** The outcome of a request served to its end: rows and counter committed
    together for the user who asked (one row when that user is not premium),
    or the tables untouched. *)
Definition settled (env : Env) (self_id : Z) (w w' : world) (resp : response) : Prop :=
  (∃ user rows, resp = Success rows ∧ users w !! self_id = Some user
                ∧ committed env self_id user w w' rows
                ∧ (is_premium user (now env) = false → length rows = 1%nat))
  ∨ (is_success resp = false ∧ same_db w w').

(** ** app.py: the statistics endpoints *)

(** The JSON of [api_user_stats]. *)
Record UserStats := mk_UserStats {
  stats_documents_created : Z;
  stats_subscription_plan : string;
  stats_is_premium : bool;
  stats_can_create_document : bool;
  stats_documents_this_month : nat
}.

(** [api_user_stats] for a logged-in session. *)
Definition api_user_stats (utcnow : datetime) (self_id : Z) (w : world) : result UserStats :=
  match get_current_user self_id w with
  | None => Raise AttributeError
  | Some user =>
      Ok {| stats_documents_created := documents_created user;
            stats_subscription_plan := subscription_plan user;
            stats_is_premium := is_premium user utcnow;
            stats_can_create_document :=
              can_create_document self_id user (documents w) utcnow;
            stats_documents_this_month :=
              length (filter (fun d => in_month_of self_id (month_start utcnow) d = true)
                             (documents w)) |}
  end.

(** One turn of the loop of [dashboard]:
    [if doc.document_type not in doc_stats: doc_stats[doc.document_type] = 0]
    and [doc_stats[doc.document_type] += 1]. *)
Definition count_document (doc_stats : gmap string Z) (doc : Document) : gmap string Z :=
  let doc_stats :=
    match doc_stats !! document_type doc with
    | None => <[document_type doc := 0]> doc_stats
    | Some _ => doc_stats
    end in
  alter (fun n => n + 1) (document_type doc) doc_stats.

(** "Group documents by type": [doc_stats] after the loop over the user's
    documents, in the order the query returned them. *)
Definition doc_stats (documents : list Document) : gmap string Z :=
  fold_left count_document documents ∅.

(** The documents [dashboard] queries, before the ORDER BY of the query. *)
Definition dashboard_stats (self_id : Z) (w : world) : gmap string Z :=
  doc_stats (filter (fun d => user_id d = self_id) (documents w)).

(** ** Notions for the file system and for requests *)

(** [m] never removes a file. *)
Definition files_grow {A} (m : effect A) : Prop :=
  ∀ w r w', m w = (r, w') → files w ⊆ files w'.

Definition is_qrcode (r : request) : bool :=
  match r with PostQrcode _ => true | _ => false end.

(** The entries of a table of counts add up to [total]. *)
Definition counts_sum (m : gmap string Z) : Z :=
  map_fold (fun _ n acc => n + acc) 0 m.

(** The requests whose file name ends in the request's token and [.pdf]. *)
Definition is_token_pdf (r : request) : bool :=
  match r with PostInvoice _ | PostCertificate _ _ => true | _ => false end.

(** A path of the generated files folder whose name ends in
    [_<token>.pdf] for a token drawn by the request of [env]. *)
Definition token_named (env : Env) (path : string) : Prop :=
  ∃ base i, path = path_join GENERATED_FILES_FOLDER
                     (base +:+ "_" +:+ token env i +:+ ".pdf").

(** An environment whose tokens all are [tok], as long as one request draws
    one token. *)
Definition one_token_env (tok : string) (t : datetime) : Env :=
  {| now := t;
     token := fun _ => tok;
     fresh_uuid := fun i => "uuid-" +:+ tok +:+ "-" +:+ pretty (Z.of_nat i) |}.

Definition invoice_call_with (tok : string) : call :=
  {| call_env := one_token_env tok (at_noon 2024 5 20); call_user := 1;
     call_request := PostInvoice example_invoice |}.

(** A resume request made from [base] with its name and format replaced. *)
Definition resume_form (base : ResumeData) (name format : string) : ResumeData :=
  {| full_name := VStr name; resume_sections := resume_sections base;
     resume_template_id := resume_template_id base; resume_format := VStr format |}.

(** Two resume forms made for the tokens of two requests: the first asks
    for a format that spells the end of the second file name, the second
    gives a name that spells the start of the first.  All other fields are
    those of [base1] and [base2]. *)
Definition colliding_resumes (base1 base2 : ResumeData) (env1 env2 : Env)
    : ResumeData * ResumeData :=
  (resume_form base1 "x" ("y_" +:+ token env2 0 +:+ ".pdf"),
   resume_form base2 ("x_" +:+ token env1 0 +:+ ".y") "pdf").

(** The other fields of a resume that renders: contact details with an
    address, and a summary. *)
Definition example_resume : ResumeData :=
  {| full_name := VStr "Ada Lovelace";
     resume_sections :=
       {[ "email" := VStr "ada@example.org"; "phone" := VStr "+44 20 7946 0000";
          "address" := VStr "12 St James's Square, London";
          "summary" := VStr "Analyst" ]};
     resume_template_id := VNone; resume_format := VStr "pdf" |}.

(** ** Regular expressions, as far as auth.py uses them *)

Module Re.

Inductive regex :=
  | Never                          (* matches nothing *)
  | Eps                            (* the empty string *)
  | Class (p : ascii -> bool)      (* one character of a set: [...] or a literal *)
  | Cat (r1 r2 : regex)
  | Alt (r1 r2 : regex)
  | Star (r : regex).

(** [r+] and [r{2,}] *)
Definition Plus (r : regex) : regex := Cat r (Star r).
Definition AtLeast2 (r : regex) : regex := Cat r (Cat r (Star r)).

Definition Chr (c : ascii) : regex := Class (Ascii.eqb c).

(** [$] at the end of a pattern compiled without MULTILINE: the end of the
    string, or the newline that ends the string. *)
Definition Dollar : regex := Alt Eps (Chr (ascii_of_nat 10)).

Fixpoint nullable (r : regex) : bool :=
  match r with
  | Never => false
  | Eps => true
  | Class _ => false
  | Cat r1 r2 => nullable r1 && nullable r2
  | Alt r1 r2 => nullable r1 || nullable r2
  | Star _ => true
  end.

(** What is left of [r] once [c] has been read. *)
Fixpoint deriv (c : ascii) (r : regex) : regex :=
  match r with
  | Never => Never
  | Eps => Never
  | Class p => if p c then Eps else Never
  | Cat r1 r2 =>
      if nullable r1 then Alt (Cat (deriv c r1) r2) (deriv c r2)
      else Cat (deriv c r1) r2
  | Alt r1 r2 => Alt (deriv c r1) (deriv c r2)
  | Star r => Cat (deriv c r) (Star r)
  end.

(** [re.match(r, s) is not None] for a pattern [r] that ends in [$]: a
    match starts at the first character and reaches the end assertion. *)
Fixpoint matched (r : regex) (s : string) : bool :=
  match s with
  | EmptyString => nullable r
  | String c s' => matched (deriv c r) s'
  end.

(** The strings of a regular expression. *)
Inductive matches : regex -> string -> Prop :=
  | matches_Eps : matches Eps ""
  | matches_Class p c : p c = true -> matches (Class p) (String c "")
  | matches_Cat r1 r2 s1 s2 :
      matches r1 s1 -> matches r2 s2 -> matches (Cat r1 r2) (s1 +:+ s2)
  | matches_Alt_l r1 r2 s : matches r1 s -> matches (Alt r1 r2) s
  | matches_Alt_r r1 r2 s : matches r2 s -> matches (Alt r1 r2) s
  | matches_Star_nil r : matches (Star r) ""
  | matches_Star_cons r s1 s2 :
      matches r s1 -> matches (Star r) s2 -> matches (Star r) (s1 +:+ s2).

End Re.

Definition is_digit (c : ascii) : bool :=
  let n := nat_of_ascii c in ((48 <=? n) && (n <=? 57))%nat.

(** [[a-zA-Z]], [[a-zA-Z0-9.-]] and [[a-zA-Z0-9._%+-]] *)
Definition is_letter (c : ascii) : bool := Py.is_lower c || Py.is_upper c.
Definition is_domain_char (c : ascii) : bool :=
  is_letter c || is_digit c || Ascii.eqb c "." || Ascii.eqb c "-".
Definition is_local_char (c : ascii) : bool :=
  is_letter c || is_digit c || Ascii.eqb c "." || Ascii.eqb c "_" || Ascii.eqb c "%"
  || Ascii.eqb c "+" || Ascii.eqb c "-".

(** Every character of [s] satisfies [p]. *)
Fixpoint str_all (p : ascii -> bool) (s : string) : bool :=
  match s with
  | EmptyString => true
  | String c s' => p c && str_all p s'
  end.

(** ** auth.py, with [User.set_password], [User.check_password] and
    [toggle_user_status] of admin.py *)

Module Auth.

(** The columns of [User] that signing up and logging in read and write. *)
Record User := mk_User {
  email : string;
  password_hash : string;
  full_name : string;
  subscription_plan : string;
  is_active : bool;
  last_login : option datetime
}.

(** werkzeug.security: [generate_password_hash(password)] with the salt it
    draws, and [check_password_hash(pwhash, password)]. *)
Record Werkzeug := mk_Werkzeug {
  generate_password_hash : string -> string -> string;
  check_password_hash : string -> string -> bool
}.

(** The table of users in the order of their ids (a row's id is its
    position; no code deletes a user), and the [user_id] of the client's
    session cookie. *)
Record state := mk_state {
  users : list User;
  session : option nat
}.

(** The JSON replies; a form submission takes the same decisions and
    answers with flashed messages. *)
Inductive reply :=
  | Done (message : string)                     (* 'success': True *)
  | Errors (status : Z) (errors : list string)  (* 'success': False, 'errors': [...] *)
  | Error (status : Z) (error : string)         (* 'success': False, 'error': ... *)
  | Authenticated (user : User)                 (* check_auth: 'authenticated': True *)
  | NotAuthenticated.                           (* check_auth: 401 *)

(** [pattern] of [validate_email]:
    [^[a-zA-Z0-9._%+-]+@[a-zA-Z0-9.-]+\.[a-zA-Z]{2,}$] *)
Definition pattern : Re.regex :=
  Re.Cat (Re.Plus (Re.Class is_local_char))
    (Re.Cat (Re.Chr "@")
       (Re.Cat (Re.Plus (Re.Class is_domain_char))
          (Re.Cat (Re.Chr ".")
             (Re.Cat (Re.AtLeast2 (Re.Class is_letter)) Re.Dollar)))).

Definition validate_email (email : string) : bool := Re.matched pattern email.

(** "At least 6 characters" *)
Definition validate_password (password : string) : bool :=
  bool_decide (6 ≤ String.length password)%nat.

(** [User.query.filter_by(email=email).first()] *)
Definition find_by_email (email_ : string) (table : list User) : option (nat * User) :=
  list_find (fun u => email u = email_) table.

(** [errors.append(message)] when [test] holds *)
Definition append_if (test : bool) (message : string) (errors : list string) : list string :=
  if test then errors ++ [message] else errors.

Definition is_empty (s : string) : bool := bool_decide (s = "").

Section Handlers.
Context (wz : Werkzeug).

Definition set_password (salt password : string) (u : User) : User :=
  {| email := email u; password_hash := generate_password_hash wz salt password;
     full_name := full_name u; subscription_plan := subscription_plan u;
     is_active := is_active u; last_login := last_login u |}.

Definition check_password (u : User) (password : string) : bool :=
  check_password_hash wz (password_hash u) password.

(** POST /auth/signup.  The fields are strings, as a form delivers them; a
    missing field is the empty string. *)
Definition signup (salt : string) (email_field password full_name_field : string)
    (st : state) : reply * state :=
  let email_ := Py.str_lower (Py.str_strip email_field) in
  let full_name_ := Py.str_strip full_name_field in
  let errors := [] in
  let errors := append_if (is_empty email_ || negb (validate_email email_))
                  "Please enter a valid email address" errors in
  let errors := append_if (is_empty password || negb (validate_password password))
                  "Password must be at least 6 characters long" errors in
  let errors := append_if (is_empty full_name_
                           || bool_decide (String.length full_name_ < 2)%nat)
                  "Please enter your full name" errors in
  let errors := append_if (bool_decide (is_Some (find_by_email email_ (users st))))
                  "An account with this email already exists" errors in
  if negb (bool_decide (errors = [])) then (Errors 400 errors, st)
  else
    let user := set_password salt password
                  {| email := email_; password_hash := ""; full_name := full_name_;
                     subscription_plan := "free"; is_active := true;
                     last_login := None |} in
    (* db.session.commit() under the UNIQUE constraint on email *)
    if bool_decide (email_ ∈ email <$> users st)
    then (Errors 500 ["Registration failed. Please try again."], st)
    else (Done "Account created successfully!",
          {| users := users st ++ [user]; session := Some (length (users st)) |}).

Definition set_last_login (t : datetime) (u : User) : User :=
  {| email := email u; password_hash := password_hash u; full_name := full_name u;
     subscription_plan := subscription_plan u; is_active := is_active u;
     last_login := Some t |}.

(** POST /auth/login *)
Definition login (utcnow : datetime) (email_field password : string) (st : state)
    : reply * state :=
  let email_ := Py.str_lower (Py.str_strip email_field) in
  if is_empty email_ || is_empty password
  then (Error 400 "Please enter both email and password", st)
  else
    match find_by_email email_ (users st) with
    | None => (Error 401 "Invalid email or password", st)
    | Some (i, user) =>
        if negb (check_password user password)
        then (Error 401 "Invalid email or password", st)
        else if negb (is_active user)
        then (Error 401 "Your account has been deactivated. Please contact support.", st)
        else (Done "Login successful!",
              {| users := alter (set_last_login utcnow) i (users st);
                 session := Some i |})
    end.

(** /auth/logout *)
Definition logout (st : state) : state := {| users := users st; session := None |}.

(** /auth/check-auth *)
Definition check_auth (st : state) : reply :=
  match session st with
  | Some i =>
      match users st !! i with
      | Some user => if is_active user then Authenticated user else NotAuthenticated
      | None => NotAuthenticated
      end
  | None => NotAuthenticated
  end.

(** The test of [login_required] in tools.py: ['user_id' in session]. *)
Definition login_required (st : state) : bool :=
  match session st with Some _ => true | None => false end.

Definition set_full_name (name : string) (u : User) : User :=
  {| email := email u; password_hash := password_hash u; full_name := name;
     subscription_plan := subscription_plan u; is_active := is_active u;
     last_login := last_login u |}.

(** The [if new_password: if ... elif ... elif ...] of [update_profile]. *)
Definition password_errors (user : User) (current_password new_password : string)
    (errors : list string) : list string :=
  if negb (is_empty new_password) then
    if is_empty current_password
    then errors ++ ["Please enter your current password"]
    else if negb (check_password user current_password)
    then errors ++ ["Current password is incorrect"]
    else if negb (validate_password new_password)
    then errors ++ ["New password must be at least 6 characters long"]
    else errors
  else errors.

(** POST /auth/profile/update *)
Definition update_profile (salt : string)
    (full_name_field current_password new_password : string) (st : state)
    : reply * state :=
  match session st with
  | None => (Error 401 "Not authenticated", st)
  | Some i =>
      match users st !! i with
      | None => (Error 404 "User not found", {| users := users st; session := None |})
      | Some user =>
          let full_name_ := Py.str_strip full_name_field in
          let errors := [] in
          let errors := append_if (is_empty full_name_
                                   || bool_decide (String.length full_name_ < 2)%nat)
                          "Please enter your full name" errors in
          let errors := password_errors user current_password new_password errors in
          if negb (bool_decide (errors = [])) then (Errors 400 errors, st)
          else
            let update u :=
              let u := set_full_name full_name_ u in
              if negb (is_empty new_password) then set_password salt new_password u
              else u in
            (Done "Profile updated successfully!",
             {| users := alter update i (users st); session := session st |})
      end
  end.

End Handlers.

(** admin.py: POST /admin/users/<user_id>/toggle-status, for a logged-in
    admin; [None] is the 404 of [get_or_404]. *)
Definition flip_active (u : User) : User :=
  {| email := email u; password_hash := password_hash u; full_name := full_name u;
     subscription_plan := subscription_plan u; is_active := negb (is_active u);
     last_login := last_login u |}.

Definition toggle_user_status (user_id : nat) (st : state) : option state :=
  match users st !! user_id with
  | None => None
  | Some _ => Some {| users := alter flip_active user_id (users st);
                      session := session st |}
  end.

(** What a client and the admin can do, one request after the other. *)
Inductive operation :=
  | Signup (salt email_field password full_name_field : string)
  | Login (utcnow : datetime) (email_field password : string)
  | Logout
  | UpdateProfile (salt full_name_field current_password new_password : string)
  | ToggleStatus (user_id : nat).

Definition perform (wz : Werkzeug) (op : operation) (st : state) : state :=
  match op with
  | Signup salt e p n => snd (signup wz salt e p n st)
  | Login t e p => snd (login wz t e p st)
  | Logout => logout st
  | UpdateProfile salt n c p => snd (update_profile wz salt n c p st)
  | ToggleStatus i => default st (toggle_user_status i st)
  end.

Definition perform_all (wz : Werkzeug) (ops : list operation) (st : state) : state :=
  fold_left (fun st op => perform wz op st) ops st.

(** The table is well formed: emails are pairwise different, valid and in
    lower case, names have at least two characters, and a session names a
    row of the table. *)
Definition well_formed (st : state) : Prop :=
  NoDup (email <$> users st)
  ∧ Forall (fun u => validate_email (email u) = true
                     ∧ Py.str_lower (email u) = email u
                     ∧ (2 ≤ String.length (full_name u))%nat) (users st)
  ∧ (∀ i, session st = Some i → (i < length (users st))%nat).

(** [check_password_hash] accepts the password a hash was generated from,
    and no other. *)
Definition accepts_own (wz : Werkzeug) : Prop :=
  ∀ salt password, check_password_hash wz (generate_password_hash wz salt password) password
                   = true.
Definition rejects_other (wz : Werkzeug) : Prop :=
  ∀ salt password other, other ≠ password →
    check_password_hash wz (generate_password_hash wz salt password) other = false.

(** A stand-in for werkzeug in examples: the hash is a marker and the
    password, whatever the salt. *)
Definition plain_werkzeug : Werkzeug :=
  {| generate_password_hash := fun salt password => "plain$" +:+ password;
     check_password_hash := fun pwhash password =>
       bool_decide (pwhash = "plain$" +:+ password) |}.

Definition empty : state := {| users := []; session := None |}.

End Auth.

(** Ada signs up, logs out, logs in again writing her address in capitals,
    changes her password, and is deactivated by the admin. *)
Definition ada_operations : list Auth.operation :=
  [ Auth.Signup "s1" "  Ada@Example.org " "secret1" " Ada Lovelace ";
    Auth.Logout;
    Auth.Login (at_noon 2024 5 20) "ADA@EXAMPLE.ORG" "secret1";
    Auth.UpdateProfile "s2" "Ada King" "secret1" "secret2";
    Auth.Signup "s3" "ada@example.org" "another" "Someone Else";
    Auth.ToggleStatus 0 ].

(** The table after Ada has signed up. *)
Definition ada : Auth.User :=
  {| Auth.email := "ada@example.org"; Auth.password_hash := "plain$secret1";
     Auth.full_name := "Ada Lovelace"; Auth.subscription_plan := "free";
     Auth.is_active := true; Auth.last_login := None |}.

Definition ada_state : Auth.state :=
  snd (Auth.signup Auth.plain_werkzeug "s1" "  Ada@Example.org " "secret1"
         " Ada Lovelace " Auth.empty).

(** ** utils.py: file names of uploads *)

(** [c in s] for a character *)
Fixpoint str_contains (c : ascii) (s : string) : bool :=
  match s with
  | EmptyString => false
  | String x s' => Ascii.eqb x c || str_contains c s'
  end.

(** [s.rsplit('.', 1)] when it has two parts: what stands before the last
    dot and what stands after it. *)
Fixpoint rsplit_dot (s : string) : option (string * string) :=
  match s with
  | EmptyString => None
  | String c s' =>
      match rsplit_dot s' with
      | Some (name, ext) => Some (String c name, ext)
      | None => if Ascii.eqb c "." then Some (EmptyString, s') else None
      end
  end.

(** [allowed_file(filename, allowed_extensions)]; indexing the result of
    rsplit with 1 raises IndexError when there is one part only. *)
Definition allowed_file (filename : string) (allowed_extensions : gset string)
    : result bool :=
  if str_contains "." filename then
    match rsplit_dot filename with
    | Some (_, ext) => Ok (bool_decide (Py.str_lower ext ∈ allowed_extensions))
    | None => Raise (LibraryError "IndexError")
    end
  else Ok false.

(** [generate_unique_filename(original_filename, prefix)], with the
    [datetime.now().strftime('%Y%m%d_%H%M%S')] and the [str(uuid.uuid4())[:8]]
    it draws. *)
Definition generate_unique_filename (timestamp unique_id : string)
    (original_filename prefix : string) : result string :=
  if str_contains "." original_filename then
    match rsplit_dot original_filename with
    | Some (name, ext) =>
        Ok (prefix +:+ timestamp +:+ "_" +:+ unique_id +:+ "." +:+ ext)
    | None => Raise ValueError   (* unpacking one part into [name, ext] *)
    end
  else Ok (prefix +:+ timestamp +:+ "_" +:+ unique_id).

(** ** utils.py: cleanup_old_files *)

(** An entry of the directory, in the order of [os.listdir]: whether it is a
    regular file, its modification time, and whether [os.remove] succeeds
    on it. *)
Record Entry := mk_Entry {
  entry_name : string;
  isfile : bool;
  getmtime : float;
  removable : bool
}.

(** The test of the loop: a regular file modified before the cutoff. *)
Definition is_old (cutoff : float) (en : Entry) : bool :=
  isfile en && PrimFloat.ltb (getmtime en) cutoff.

(** The [for] loop of [cleanup_old_files]: the count, or the exception of
    [os.remove], and the entries left in the directory. *)
Fixpoint cleanup_loop (cutoff : float) (entries : list Entry) (cleaned_count : Z)
    : result Z * list Entry :=
  match entries with
  | [] => (Ok cleaned_count, [])
  | en :: rest =>
      if is_old cutoff en then
        if removable en then cleanup_loop cutoff rest (cleaned_count + 1)
        else (Raise (LibraryError "OSError"), en :: rest)
      else
        let '(r, remaining) := cleanup_loop cutoff rest cleaned_count in
        (r, en :: remaining)
  end.

(** [cleanup_old_files(directory, days)] at [time.time() = clock]: the
    value returned and the directory afterwards.  The cutoff is computed
    before the [try]; the handler prints and returns 0. *)
Definition cleanup_old_files (clock : float) (directory : list Entry) (days : Z)
    : result Z * list Entry :=
  match Py.float_of_Z (days * 24 * 60 * 60) with
  | Raise e => (Raise e, directory)
  | Ok seconds =>
      let cutoff := PrimFloat.sub clock seconds in
      match cleanup_loop cutoff directory 0 with
      | (Ok cleaned_count, remaining) => (Ok cleaned_count, remaining)
      | (Raise _, remaining) => (Ok 0, remaining)
      end
  end.

(** The cutoff of a call that gets as far as the loop. *)
Definition cutoff_of (clock : float) (days : Z) : option float :=
  match Py.float_of_Z (days * 24 * 60 * 60) with
  | Ok seconds => Some (PrimFloat.sub clock seconds)
  | Raise _ => None
  end.

(** A directory listed on 20 May 2024 (clock 1716206400): an invoice of
    November 2023, a subdirectory, a resume of November 2023 that cannot be
    removed, a certificate of the same month, and a file of the day. *)
Definition example_directory : list Entry :=
  [ {| entry_name := "invoice_1.pdf"; isfile := true; getmtime := 1700000000%float;
       removable := true |};
    {| entry_name := "archive"; isfile := false; getmtime := 1600000000%float;
       removable := false |};
    {| entry_name := "resume_2.pdf"; isfile := true; getmtime := 1700000100%float;
       removable := false |};
    {| entry_name := "certificate_3.pdf"; isfile := true; getmtime := 1700000200%float;
       removable := true |};
    {| entry_name := "invoice_4.pdf"; isfile := true; getmtime := 1716200000%float;
       removable := true |} ].

(** ** models.py: Analytics.update_daily_stats *)

Module Analytics.

(** [t.date()] and [datetime.combine(today, datetime.min.time())] *)
Definition date_of (t : datetime) : Z * Z * Z := (year t, month t, day t).
Definition midnight (t : datetime) : datetime :=
  {| year := year t; month := month t; day := day t;
     hour := 0; minute := 0; second := 0; microsecond := 0 |}.

(** The columns of [Analytics] that [update_daily_stats] writes. *)
Record row := mk_row {
  date : Z * Z * Z;
  active_users : nat;
  documents_created : nat
}.

(** [column >= start] in a query: a NULL satisfies no comparison. *)
Definition on_or_after (start : datetime) (column : option datetime) : bool :=
  match column with
  | Some t => dt_ge t start
  | None => false
  end.

Definition set_stats (users_today documents_today : nat) (a : row) : row :=
  {| date := date a; active_users := users_today; documents_created := documents_today |}.

(** [Analytics.update_daily_stats()]: the table afterwards and the row
    returned. *)
Definition update_daily_stats (utcnow : datetime) (users : list Auth.User)
    (documents : list Document) (table : list row) : list row * row :=
  let today := date_of utcnow in
  let users_today :=
    length (filter (fun u => on_or_after (midnight utcnow) (Auth.last_login u) = true)
              users) in
  let documents_today :=
    length (filter (fun d => on_or_after (midnight utcnow) (created_at d) = true)
              documents) in
  match list_find (fun a => date a = today) table with
  | Some (i, analytics) =>
      (alter (set_stats users_today documents_today) i table,
       set_stats users_today documents_today analytics)
  | None =>
      let analytics := {| date := today; active_users := users_today;
                          documents_created := documents_today |} in
      (table ++ [analytics], analytics)
  end.

End Analytics.

(** A request by [self_id] is made in the calendar month of [clock], by a
    user who is not premium then; requests of other users are not
    constrained. *)
Definition in_free_month (self_id : Z) (user : User) (clock : datetime) (c : call) : Prop :=
  call_user c = self_id →
  is_premium user (now (call_env c)) = false
  ∧ year (now (call_env c)) = year clock
  ∧ month (now (call_env c)) = month clock
  ∧ valid_datetime (now (call_env c)).

(** ** Templates: models.py, the GET branches of tools.py, admin.py, and
    the seeding of create_app *)

Module Templates.

Record Template := mk_Template {
  id : Z;
  name : string;
  document_type : string;
  is_premium : bool;
  is_active : bool
}.

(** [Template.query.filter_by(document_type=..., is_active=True).all()] *)
Definition active_of_type (ty : string) (table : list Template) : list Template :=
  filter (fun t => document_type t = ty ∧ is_active t = true) table.

(** The loop of the GET branch of invoice_generator, resume_builder and
    certificate_creator; [premium] is [user.is_premium()]. *)
Fixpoint available_loop (premium : bool) (templates available_templates : list Template)
    : list Template :=
  match templates with
  | [] => available_templates
  | template :: rest =>
      if negb (is_premium template) || premium
      then available_loop premium rest (available_templates ++ [template])
      else available_loop premium rest available_templates
  end.

Definition available_templates (premium : bool) (ty : string) (table : list Template)
    : list Template :=
  available_loop premium (active_of_type ty table) [].

(** [get_templates(document_type)]: each template with its ['available']. *)
Fixpoint get_templates_loop (premium : bool) (templates : list Template)
    (available_templates : list (Template * bool)) : list (Template * bool) :=
  match templates with
  | [] => available_templates
  | template :: rest =>
      get_templates_loop premium rest
        (available_templates ++ [(template, negb (is_premium template) || premium)])
  end.

Definition get_templates (premium : bool) (ty : string) (table : list Template)
    : list (Template * bool) :=
  get_templates_loop premium (active_of_type ty table) [].

(** The primary key a new row gets. *)
Definition next_id (table : list Template) : Z :=
  1 + foldr Z.max 0 (id <$> table).

(** admin.py [create_template]: the fields of the form, missing ones as
    [None]; [None] as result is the 'Please fill in all required fields'. *)
Definition create_template (name_ document_type_ is_premium_ : option string)
    (table : list Template) : option (list Template) :=
  match name_, document_type_ with
  | Some n, Some ty =>
      if bool_decide (n = "") || bool_decide (ty = "") then None
      else Some (table ++ [ {| id := next_id table; name := n; document_type := ty;
                               is_premium := bool_decide (is_premium_ = Some "on");
                               is_active := true |} ])
  | _, _ => None
  end.

(** admin.py [delete_template]: [None] is the 404. *)
Definition delete_template (template_id : Z) (table : list Template)
    : option (list Template) :=
  match list_find (fun t => id t = template_id) table with
  | Some _ => Some (filter (fun t => id t ≠ template_id) table)
  | None => None
  end.

(** The templates [create_app] adds together with the default admin. *)
Definition default_templates : list (string * string * bool) :=
  [ ("Modern Invoice", "invoice", false);
    ("Corporate Invoice", "invoice", true);
    ("Professional Resume", "resume", false);
    ("Creative Resume", "resume", true);
    ("Achievement Certificate", "certificate", false);
    ("Completion Certificate", "certificate", true) ].

Fixpoint add_all (defaults : list (string * string * bool)) (table : list Template)
    : list Template :=
  match defaults with
  | [] => table
  | (n, ty, p) :: rest =>
      add_all rest (table ++ [ {| id := next_id table; name := n; document_type := ty;
                                  is_premium := p; is_active := true |} ])
  end.

(** The database part of [create_app]: the emails of the admins and the
    templates.  Both are seeded when no admin has the configured email
    (config.py: the value below unless the environment sets another). *)
Definition ADMIN_EMAIL : string := "admin@toolkit.com".

Definition create_app (db : list string * list Template) : list string * list Template :=
  let '(admins, table) := db in
  if bool_decide (ADMIN_EMAIL ∈ admins) then db
  else (admins ++ [ADMIN_EMAIL], add_all default_templates table).

End Templates.

(** * Properties *)

(** ** Quota evaluator *)

Lemma is_premium_eligible user clock :
  is_premium user clock = true ↔ premium_eligible user clock.
Proof.
  unfold is_premium, premium_eligible, dt_gt. split.
  - case_bool_decide as Hplan; [|discriminate].
    destruct (subscription_expires user) as [e|]; [|discriminate].
    destruct (dt_compare e clock) eqn:Hc; try discriminate. eauto.
  - intros (Hplan & e & -> & ->). by rewrite bool_decide_eq_true_2.
Qed.

Lemma prior_month_before_start clock t :
  year t < year clock ∨ (year t = year clock ∧ month t < month clock) →
  dt_ge t (month_start clock) = false.
Proof.
  intros H. unfold dt_ge, dt_compare, dt_fields, month_start. cbn [lex_compare year month].
  destruct H as [H | [-> H]].
  - apply Z.compare_lt_iff in H. by rewrite H.
  - rewrite Z.compare_refl. apply Z.compare_lt_iff in H. by rewrite H.
Qed.

Lemma prior_month_not_counted self_id clock d :
  in_prior_month clock d → in_month_of self_id (month_start clock) d = false.
Proof.
  intros (t & Ht & H). unfold in_month_of. rewrite Ht.
  rewrite (prior_month_before_start _ _ H). apply andb_false_r.
Qed.

Lemma monthly_count_drop_prior self_id docs clock :
  monthly_count self_id (filter (fun d => ¬ in_prior_month clock d) docs) clock
  = monthly_count self_id docs clock.
Proof.
  unfold monthly_count. induction docs as [|d docs IH]; [done|].
  rewrite (filter_cons (fun d => ¬ in_prior_month clock d)).
  destruct (decide (¬ in_prior_month clock d)) as [Hn|Hp].
  - rewrite !filter_cons. case_decide; cbn [length]; by rewrite IH.
  - rewrite IH, filter_cons.
    assert (in_prior_month clock d) as Hd by (destruct (decide (in_prior_month clock d)); tauto).
    rewrite decide_False; [done|].
    rewrite (prior_month_not_counted _ _ _ Hd). discriminate.
Qed.

Lemma can_create_not_premium self_id user docs clock :
  is_premium user clock = false →
  can_create_document self_id user docs clock
  = bool_decide (monthly_count self_id docs clock < 5)%nat.
Proof. intros H. unfold can_create_document. by rewrite H. Qed.

Lemma dt_ge_month_start_iff clock t :
  valid_datetime t →
  dt_ge t (month_start clock) = true
  ↔ year clock < year t ∨ (year t = year clock ∧ month clock ≤ month t).
Proof.
  intros (Hd & Hh & Hm & Hs & Hu).
  unfold dt_ge, dt_compare, dt_fields, month_start.
  cbn [lex_compare year month day hour minute second microsecond].
  destruct (Z.compare_spec (year t) (year clock)); [|split; [done|lia]|split; [lia|done]].
  destruct (Z.compare_spec (month t) (month clock)); [|split; [done|lia]|split; [lia|done]].
  split; [lia|intros _].
  destruct (Z.compare_spec (day t) 1); [|lia|done].
  destruct (Z.compare_spec (hour t) 0); [|lia|done].
  destruct (Z.compare_spec (minute t) 0); [|lia|done].
  destruct (Z.compare_spec (second t) 0); [|lia|done].
  destruct (Z.compare_spec (microsecond t) 0); [done|lia|done].
Qed.

Lemma in_month_of_spec self_id clock d :
  (∀ t, created_at d = Some t → valid_datetime t) →
  in_month_of self_id (month_start clock) d = true ↔ since_month_start self_id clock d.
Proof.
  intros Hvalid. unfold in_month_of, since_month_start.
  rewrite andb_true_iff, bool_decide_eq_true.
  destruct (created_at d) as [t|].
  - rewrite (dt_ge_month_start_iff clock t) by auto. split.
    + intros [Hu H]. eauto.
    + intros (Hu & t' & [= <-] & H). done.
  - split; [by intros [_ ?]|]. by intros (_ & t & ? & _).
Qed.

Lemma monthly_count_spec self_id docs clock :
  timestamps_valid docs →
  monthly_count self_id docs clock = artifacts_this_month self_id docs clock.
Proof.
  unfold monthly_count, artifacts_this_month.
  induction 1 as [|d docs Hd Hdocs IH]; [done|].
  rewrite !filter_cons. pose proof (in_month_of_spec self_id clock d Hd) as Hiff.
  destruct (decide (since_month_start self_id clock d)) as [Hs|Hs].
  - rewrite decide_True by by apply Hiff. cbn [length]. by rewrite IH.
  - rewrite decide_False by (by rewrite Hiff). done.
Qed.

Lemma can_create_cons_prior self_id user docs clock d :
  in_prior_month clock d →
  can_create_document self_id user (d :: docs) clock
  = can_create_document self_id user docs clock.
Proof.
  intros Hd. unfold can_create_document. destruct (is_premium user clock); [done|].
  rewrite filter_cons, decide_False; [done|].
  rewrite (prior_month_not_counted _ _ _ Hd). discriminate.
Qed.

(** C3: [can_create_document] answers true exactly when the user is
    premium-eligible at the clock (premium plan and expiry strictly after the
    clock) or owns fewer than 5 artifacts created at or after the first
    instant of the clock's calendar month, that is, in that month or later.
    For a user who is not premium-eligible, 4 such artifacts pass and 5
    fail, and a fifth artifact of the month turns the answer to false;
    artifacts created in an earlier month never change the answer.  At noon
    of 20 May 2024, with four artifacts of May, a fifth created at
    2024-05-01 00:00:00.000000 is counted and one created at
    2024-04-30 23:59:59.999999 is not. *)
Theorem can_create_document_spec (self_id : Z) (user : User)
    (docs : list Document) (clock : datetime) :
  timestamps_valid docs →
  (can_create_document self_id user docs clock = true ↔
     premium_eligible user clock ∨ (artifacts_this_month self_id docs clock < 5)%nat)
  ∧ (¬ premium_eligible user clock → artifacts_this_month self_id docs clock = 4%nat →
     can_create_document self_id user docs clock = true)
  ∧ (¬ premium_eligible user clock → artifacts_this_month self_id docs clock = 5%nat →
     can_create_document self_id user docs clock = false)
  ∧ (∀ d, ¬ premium_eligible user clock →
          since_month_start self_id clock d →
          (∀ t, created_at d = Some t → valid_datetime t) →
          artifacts_this_month self_id docs clock = 4%nat →
          can_create_document self_id user (d :: docs) clock = false)
  ∧ (∀ d, in_prior_month clock d →
          can_create_document self_id user (d :: docs) clock
          = can_create_document self_id user docs clock)
  ∧ can_create_document self_id user
      (filter (fun d => ¬ in_prior_month clock d) docs) clock
    = can_create_document self_id user docs clock
  ∧ can_create_document 1 (free_user 4) (documents four_in_may) (at_noon 2024 5 20) = true
  ∧ can_create_document 1 (free_user 4)
      (row_of 1 "d0" (instant 2024 5 1 0 0 0 0) :: documents four_in_may)
      (at_noon 2024 5 20) = false
  ∧ can_create_document 1 (free_user 4)
      (row_of 1 "d0" (instant 2024 4 30 23 59 59 999999) :: documents four_in_may)
      (at_noon 2024 5 20) = true.
Proof.
  intros Hvalid.
  assert (¬ premium_eligible user clock → is_premium user clock = false) as Hfree.
  { intros Hn. destruct (is_premium user clock) eqn:Hp; [|done].
    by apply is_premium_eligible in Hp. }
  split; [|split; [|split; [|split; [|split; [|split]]]]].
  - destruct (is_premium user clock) eqn:Hp.
    + unfold can_create_document. rewrite Hp.
      apply is_premium_eligible in Hp. tauto.
    + rewrite (can_create_not_premium _ _ _ _ Hp), bool_decide_eq_true.
      rewrite (monthly_count_spec _ _ _ Hvalid).
      split; [tauto|]. intros [He|Hc]; [|done].
      apply is_premium_eligible in He. congruence.
  - intros Hp Hc. rewrite (can_create_not_premium _ _ _ _ (Hfree Hp)).
    rewrite (monthly_count_spec _ _ _ Hvalid), Hc. done.
  - intros Hp Hc. rewrite (can_create_not_premium _ _ _ _ (Hfree Hp)).
    rewrite (monthly_count_spec _ _ _ Hvalid), Hc. done.
  - intros d Hp Hd Hdv Hc. rewrite (can_create_not_premium _ _ _ _ (Hfree Hp)).
    rewrite monthly_count_spec by (by constructor).
    unfold artifacts_this_month in *. rewrite filter_cons, decide_True by done.
    cbn [length]. rewrite Hc. done.
  - intros d. apply can_create_cons_prior.
  - unfold can_create_document. destruct (is_premium user clock); [done|].
    pose proof (monthly_count_drop_prior self_id docs clock) as H.
    unfold monthly_count in H. by rewrite H.
  - repeat split; vm_compute; reflexivity.
Qed.

Lemma can_create_document_spec_witness :
  timestamps_valid (documents four_in_may)
  ∧ artifacts_this_month 1 (documents four_in_may) (at_noon 2024 5 20) = 4%nat
  ∧ (can_create_document 1 (free_user 4) (documents four_in_may) (at_noon 2024 5 20) = true ↔
       premium_eligible (free_user 4) (at_noon 2024 5 20)
       ∨ (artifacts_this_month 1 (documents four_in_may) (at_noon 2024 5 20) < 5)%nat).
Proof.
  assert (timestamps_valid (documents four_in_may)) as Hvalid.
  { unfold timestamps_valid. cbn [documents four_in_may].
    repeat (apply Forall_cons_2;
            [intros t [= <-]; unfold valid_datetime; cbn; lia|]).
    apply Forall_nil_2. }
  split; [exact Hvalid|]. split; [vm_compute; reflexivity|].
  exact (proj1 (can_create_document_spec 1 (free_user 4) (documents four_in_may)
                  (at_noon 2024 5 20) Hvalid)).
Defined.

(** ** The quota gate *)

Lemma quota_gate_inl env self_id w r :
  quota_gate env self_id w = inl r → is_success r = false.
Proof. unfold quota_gate. intros H. repeat case_match; by simplify_eq. Qed.

Lemma quota_gate_inr env self_id w user :
  quota_gate env self_id w = inr user →
  users w !! self_id = Some user
  ∧ can_create_document self_id user (documents w) (now env) = true.
Proof.
  unfold quota_gate, get_current_user. intros H.
  destruct (users w !! self_id) as [u|]; [|discriminate].
  destruct (can_create_document self_id u (documents w) (now env)) eqn:Hc; by simplify_eq.
Qed.

(** ** Invoice arithmetic *)

Section Invoice.
Context (lib : Library).





End Invoice.


(** ** Transactions *)

Lemma same_db_refl w : same_db w w.
Proof. done. Qed.

Lemma same_db_trans w1 w2 w3 : same_db w1 w2 → same_db w2 w3 → same_db w1 w3.
Proof. unfold same_db. intros [? ?] [? ?]. split; congruence. Qed.

Lemma committed_same_db env self_id user w0 w w' rows :
  same_db w0 w → committed env self_id user w w' rows →
  committed env self_id user w0 w' rows.
Proof. intros [Hu Hd] [? ? ? ? ?]. split; rewrite <- ?Hu, <- ?Hd; done. Qed.

Lemma db_preserving_weaken {A} (Q R : A → Prop) m :
  (∀ a, Q a → R a) → db_preserving Q m → db_preserving R m.
Proof. intros HQR Hm w r w' Hrun. destruct (Hm _ _ _ Hrun). naive_solver. Qed.

Lemma db_preserving_ret {A} (Q : A → Prop) a : Q a → db_preserving Q (mret a).
Proof. intros HQ w r w' Hrun. inversion Hrun; subst. split; [done|]. by intros ? [= <-]. Qed.

Lemma db_preserving_lift {A} (r : result A) : db_preserving (fun a => r = Ok a) (lift r).
Proof. intros w r' w' Hrun. inversion Hrun; subst. done. Qed.

Lemma db_preserving_raise {A} (Q : A → Prop) e : db_preserving Q (raise e).
Proof. intros w r w' Hrun. inversion Hrun; subst. done. Qed.

Lemma db_preserving_write_file path : db_preserving (fun _ => True) (write_file path).
Proof. intros w r w' Hrun. inversion Hrun; subst. done. Qed.

Lemma db_preserving_log_QRCode level data :
  db_preserving (fun _ => True) (log_QRCode level data).
Proof. intros w r w' Hrun. inversion Hrun; subst. done. Qed.

Lemma db_preserving_bind {A B} (Q : A → Prop) (R : B → Prop) m (k : A → effect B) :
  db_preserving Q m → (∀ a, Q a → db_preserving R (k a)) → db_preserving R (m ≫= k).
Proof.
  intros Hm Hk w r w' Hrun. unfold mbind, effect_bind in Hrun.
  destruct (m w) as [[a|e] w1] eqn:Hmw; destruct (Hm _ _ _ Hmw) as [Hdb HQ].
  - destruct (Hk a (HQ _ eq_refl) _ _ _ Hrun) as [Hdb' HR].
    split; [by eapply same_db_trans|done].
  - inversion Hrun; subst. done.
Qed.

Lemma db_preserving_try_except {A} (Q : A → Prop) body handler :
  db_preserving Q body → (∀ e, db_preserving Q (handler e)) →
  db_preserving Q (try_except body handler).
Proof.
  intros Hb Hh w r w' Hrun. unfold try_except in Hrun.
  destruct (body w) as [[a|e] w1] eqn:Hbw; destruct (Hb _ _ _ Hbw) as [Hdb HQ].
  - inversion Hrun; subst. done.
  - destruct (Hh e _ _ _ Hrun) as [Hdb' HQ'].
    split; [by eapply same_db_trans|done].
Qed.

Lemma transactional_bind {A} (Q : A → Prop) P env self_id user m
    (k : A → effect (list Document)) :
  db_preserving Q m → (∀ a, Q a → transactional P env self_id user (k a)) →
  transactional P env self_id user (m ≫= k).
Proof.
  intros Hm Hk w r w' Hrun. unfold mbind, effect_bind in Hrun.
  destruct (m w) as [[a|e] w1] eqn:Hmw; destruct (Hm _ _ _ Hmw) as [Hdb HQ].
  - specialize (Hk a (HQ _ eq_refl) _ _ _ Hrun). destruct r as [rows|e].
    + destruct Hk as [Hc HP]. split; [by eapply committed_same_db|done].
    + by eapply same_db_trans.
  - inversion Hrun; subst. done.
Qed.

Lemma imap_insert_row_owner env self_id added :
  Forall (fun d => new_user_id d = self_id) added →
  Forall (fun d => user_id d = self_id) (imap (insert_row env) added).
Proof.
  intros H. apply Forall_forall. intros d Hd.
  apply list_elem_of_lookup in Hd as [i Hi].
  rewrite list_lookup_imap in Hi.
  destruct (added !! i) as [nd|] eqn:Hnd; [|discriminate]. cbn in Hi.
  inversion Hi; subst. cbn. eapply Forall_lookup_1 in H; eauto.
Qed.

Lemma imap_insert_row_created env added :
  Forall (fun d => created_at d = Some (now env)) (imap (insert_row env) added).
Proof.
  apply Forall_forall. intros d Hd.
  apply list_elem_of_lookup in Hd as [i Hi].
  rewrite list_lookup_imap in Hi.
  destruct (added !! i) as [nd|]; [|discriminate]. cbn in Hi. by inversion Hi.
Qed.

Lemma commit_transactional (P : list Document → Prop) env self_id user added :
  Forall (fun d => new_user_id d = self_id) added →
  P (imap (insert_row env) added) →
  transactional P env self_id user
    (commit env self_id user added (Z.of_nat (length added))).
Proof.
  intros Hown HP w r w' Hrun. unfold commit in Hrun.
  destruct (bool_decide _ && forallb not_null added) eqn:Hok; inversion Hrun; subst;
    [|done].
  apply andb_prop in Hok as [Huniq%bool_decide_eq_true _].
  split; [|done].
  split; cbn; [done|by apply imap_insert_row_owner|apply imap_insert_row_created| |done].
  by rewrite length_imap.
Qed.

Ltac db_leaf :=
  first
    [ by apply db_preserving_ret
    | apply db_preserving_raise
    | eapply db_preserving_weaken;
      [|first [ apply db_preserving_write_file
              | apply db_preserving_log_QRCode
              | apply db_preserving_lift ]]; done ].

Ltac db_bind := eapply db_preserving_bind; [|intros ? ?].

Section Handlers.
Context (lib : Library).

Lemma generate_invoice_pdf_db d path :
  db_preserving (fun _ => True) (generate_invoice_pdf lib d path).
Proof.
  unfold generate_invoice_pdf. db_bind; [apply db_preserving_lift|].
  destruct (build_invoice lib d a path); db_leaf.
Qed.

Lemma generate_resume_pdf_db d path :
  db_preserving (fun _ => True) (generate_resume_pdf lib d path).
Proof. unfold generate_resume_pdf. destruct (build_resume lib d path); db_leaf. Qed.

Lemma generate_certificate_pdf_db d path :
  db_preserving (fun _ => True) (generate_certificate_pdf lib d path).
Proof.
  unfold generate_certificate_pdf. destruct (save_certificate lib d path); db_leaf.
Qed.

Lemma QRCode_db level data : db_preserving (fun _ => True) (QRCode lib level data).
Proof.
  unfold QRCode. db_bind; [apply db_preserving_log_QRCode|].
  destruct (qr_make lib level data); db_leaf.
Qed.

Lemma save_db path : db_preserving (fun _ => True) (save lib path).
Proof. unfold save. destruct path; try db_leaf. destruct (image_save lib s); db_leaf. Qed.

Lemma generate_qr_code_2_db args :
  db_preserving (fun _ => True) (generate_qr_code_2 lib args).
Proof.
  unfold generate_qr_code_2. destruct args as [|data rest]; [db_leaf|].
  case_bool_decide; [db_leaf|].
  apply db_preserving_try_except; [|intros e; db_leaf].
  unfold generate_qr_code_2_try, local_qrcode.
  db_bind; [apply (db_preserving_raise (fun _ => True))|].
  db_bind; [apply QRCode_db|]. db_bind; [apply db_preserving_lift|].
  case_bool_decide; [db_leaf|]. db_bind; [apply db_preserving_lift|]. db_leaf.
Qed.

(** utils.py binds [generate_qr_code] twice; the name denotes the second
    function. *)
Lemma utils_generate_qr_code :
  utils lib !! "generate_qr_code" = Some (generate_qr_code_2 lib).
Proof. unfold utils, exec_defs, utils_defs. cbn. by rewrite lookup_insert_eq. Qed.

Lemma call_generate_qr_code args :
  call_utils lib "generate_qr_code" args = generate_qr_code_2 lib args.
Proof.
  unfold call_utils. pose proof utils_generate_qr_code as Hutils.
  unfold pyfun in *. by rewrite Hutils.
Qed.

Lemma invoice_body_transactional env self_id user d :
  transactional (fun rows => length rows = 1%nat) env self_id user
    (invoice_body lib env self_id user d).
Proof.
  unfold invoice_body. eapply transactional_bind; [apply generate_invoice_pdf_db|].
  intros _ _. apply (commit_transactional _ env self_id user [_]); [|done].
  by repeat constructor.
Qed.

Lemma qrcode_body_transactional env self_id user data qr_data :
  transactional (fun rows => length rows = 1%nat) env self_id user
    (qrcode_body lib env self_id user data qr_data).
Proof.
  unfold qrcode_body. rewrite call_generate_qr_code.
  eapply transactional_bind; [apply generate_qr_code_2_db|]. intros _ _.
  eapply transactional_bind; [apply db_preserving_lift|]. intros t _.
  apply (commit_transactional _ env self_id user [_]); [|done].
  by repeat constructor.
Qed.

Lemma resume_body_transactional env self_id user d :
  transactional (fun rows => length rows = 1%nat) env self_id user
    (resume_body lib env self_id user d).
Proof.
  unfold resume_body. eapply transactional_bind; [apply db_preserving_lift|]. intros n _.
  eapply transactional_bind; [apply generate_resume_pdf_db|]. intros _ _.
  apply (commit_transactional _ env self_id user [_]); [|done].
  by repeat constructor.
Qed.

Lemma url_for_download_pending_db :
  db_preserving (fun _ => False) url_for_download_pending.
Proof. apply db_preserving_raise. Qed.

Lemma one_certificate_db env self_id i c cd name :
  db_preserving (fun d => new_user_id d = self_id)
    (one_certificate lib env self_id i c cd name).
Proof.
  unfold one_certificate. db_bind; [apply db_preserving_lift|].
  db_bind; [apply generate_certificate_pdf_db|].
  db_bind; [apply url_for_download_pending_db|]. db_leaf.
Qed.

Lemma bulk_loop_db env self_id c names : ∀ added,
  Forall (fun d => new_user_id d = self_id) added →
  db_preserving (Forall (fun d => new_user_id d = self_id))
    (bulk_loop lib env self_id c names added).
Proof.
  induction names as [|name names IH]; intros added Hadded; cbn [bulk_loop]; [db_leaf|].
  db_bind; [apply db_preserving_lift|].
  case_bool_decide; [by apply IH|].
  db_bind; [apply one_certificate_db|].
  apply IH. apply Forall_app. split; [done|]. by constructor.
Qed.

Lemma certificate_body_transactional env self_id user is_bulk c :
  transactional (fun rows => truthy is_bulk = false → length rows = 1%nat)
    env self_id user (certificate_body lib env self_id user is_bulk c).
Proof.
  unfold certificate_body.
  eapply (transactional_bind
            (fun added => Forall (fun d => new_user_id d = self_id) added
                          ∧ (truthy is_bulk = false → length added = 1%nat))).
  - destruct (truthy is_bulk) eqn:Hbulk; cbn [andb].
    + destruct (negb (bool_decide (bulk_names c = []))).
      * eapply db_preserving_weaken; [|by apply bulk_loop_db]. by intros added ?.
      * db_bind; [apply one_certificate_db|]. apply db_preserving_ret.
        split; [by repeat constructor|done].
    + db_bind; [apply one_certificate_db|]. apply db_preserving_ret.
      split; [by repeat constructor|done].
  - intros added [Hadded Hone]. apply commit_transactional; [done|].
    intros Hbulk. rewrite length_imap. by apply Hone.
Qed.

Lemma try_or_rollback_outcome P env self_id user body w resp w' :
  transactional P env self_id user body →
  try_or_rollback body w = (resp, w') →
  (∃ rows, resp = Success rows ∧ committed env self_id user w w' rows ∧ P rows)
  ∨ (is_success resp = false ∧ same_db w w').
Proof.
  intros Hbody. unfold try_or_rollback.
  destruct (body w) as [[rows|e] w1] eqn:Hrun; specialize (Hbody _ _ _ Hrun);
    intros [= <- <-].
  - left. destruct Hbody. eauto.
  - right. done.
Qed.

(** What the rest of a handler does to the tables, for the session that
    loaded [user]: a commit for a user who is not premium has exactly one
    row. *)
Lemma act_outcome c user w resp w' :
  act lib c user w = (resp, w') →
  (∃ rows, resp = Success rows
           ∧ committed (call_env c) (call_user c) user w w' rows
           ∧ (is_premium user (now (call_env c)) = false → length rows = 1%nat))
  ∨ (is_success resp = false ∧ same_db w w').
Proof.
  unfold act. destruct (call_request c) as [d|data|d|is_bulk form].
  - intros Hrun.
    eapply try_or_rollback_outcome in Hrun as [(rows & ? & ? & ?)|?];
      [left|by right|apply invoice_body_transactional]. eauto.
  - unfold qrcode_act. destruct (qr_extract lib data) as [qr_data|e].
    + intros Hrun.
      eapply try_or_rollback_outcome in Hrun as [(rows & ? & ? & ?)|?];
        [left|by right|apply qrcode_body_transactional]. eauto.
    + intros [= <- <-]. by right.
  - intros Hrun.
    eapply try_or_rollback_outcome in Hrun as [(rows & ? & ? & ?)|?];
      [left|by right|apply resume_body_transactional]. eauto.
  - unfold certificate_act.
    destruct (truthy is_bulk && negb (is_premium user (now (call_env c)))) eqn:Hgate.
    + intros [= <- <-]. by right.
    + intros Hrun.
      eapply try_or_rollback_outcome in Hrun as [(rows & ? & ? & Hone)|?];
        [left|by right|apply certificate_body_transactional].
      exists rows. split; [done|]. split; [done|]. intros Hprem. apply Hone.
      rewrite Hprem in Hgate. by destruct (truthy is_bulk).
Qed.

Lemma handle_gate_act c w :
  handle lib c w =
  match quota_gate (call_env c) (call_user c) w with
  | inl r => (r, w)
  | inr user => act lib c user w
  end.
Proof. unfold handle, act. by destruct (call_request c). Qed.

End Handlers.

Lemma handle_settled lib c w :
  settled (call_env c) (call_user c) w (snd (handle lib c w)) (fst (handle lib c w)).
Proof.
  rewrite handle_gate_act.
  destruct (quota_gate (call_env c) (call_user c) w) as [r|user] eqn:Hgate.
  - right. split; [by eapply quota_gate_inl|done].
  - apply quota_gate_inr in Hgate as [Huser _].
    destruct (act lib c user w) as [resp w'] eqn:Hact.
    apply act_outcome in Hact as [(rows & -> & Hc & Hone)|?]; [left|by right].
    exists user, rows. done.
Qed.

(** ** The lifetime counter and the ledger *)

Lemma owned_by_app self_id l1 l2 :
  owned_by self_id (l1 ++ l2) = owned_by self_id l1 ++ owned_by self_id l2.
Proof. apply filter_app. Qed.

Lemma owned_by_all self_id rows :
  Forall (fun d => user_id d = self_id) rows → owned_by self_id rows = rows.
Proof.
  induction 1 as [|d rows Hd _ IH]; [done|].
  unfold owned_by in *. rewrite filter_cons, decide_True by done. by rewrite IH.
Qed.

Lemma owned_by_none self_id other rows :
  other ≠ self_id →
  Forall (fun d => user_id d = self_id) rows → owned_by other rows = [].
Proof.
  intros Hne. induction 1 as [|d rows Hd _ IH]; [done|].
  unfold owned_by in *. rewrite filter_cons, decide_False by congruence. done.
Qed.

Lemma owned_by_fresh self_id docs :
  Forall (fun d => user_id d ≠ self_id) docs → owned_by self_id docs = [].
Proof.
  induction 1 as [|d docs Hd _ IH]; [done|].
  unfold owned_by in *. by rewrite filter_cons, decide_False.
Qed.

Lemma owned_by_alter self_id f docs : ∀ i,
  (∀ d, user_id (f d) = user_id d) →
  length (owned_by self_id (alter f i docs)) = length (owned_by self_id docs).
Proof.
  unfold owned_by. induction docs as [|d docs IH]; intros i Hf; [done|].
  destruct i as [|i]; cbn [alter list_alter].
  - rewrite !filter_cons, Hf. by case_decide.
  - rewrite !filter_cons. case_decide; cbn [length]; by rewrite (IH i Hf).
Qed.

Lemma counter_lookup self_id w user :
  users w !! self_id = Some user → counter self_id w = documents_created user.
Proof. unfold counter. by intros ->. Qed.

Lemma same_db_consistent w w' :
  same_db w w' → ledger_consistent w →
  ledger_consistent w' ∧ ∀ self_id, counter self_id w ≤ counter self_id w'.
Proof.
  unfold ledger_consistent, counter. intros [-> ->] H. split; [done|]. intros. lia.
Qed.

Lemma committed_consistent env self_id user w w' rows :
  users w !! self_id = Some user → committed env self_id user w w' rows →
  ledger_consistent w →
  ledger_consistent w' ∧ ∀ other, counter other w ≤ counter other w'.
Proof.
  intros Huser [Hdocs Hown _ Husers _] [Hcount Hfk].
  case_bool_decide as Hzero.
  { assert (rows = []) as -> by (destruct rows; [done|cbn in Hzero; lia]).
    rewrite app_nil_r in Hdocs. by apply same_db_consistent. }
  assert (users w' !! self_id
          = Some (set_documents_created
                    (documents_created user + Z.of_nat (length rows)) user)) as Hself.
  { by rewrite Husers, lookup_alter_eq, Huser. }
  assert (∀ other, other ≠ self_id → users w' !! other = users w !! other) as Hother.
  { intros other Hne. rewrite Husers. by apply lookup_alter_ne. }
  split; [split|].
  - intros other u Hu. rewrite Hdocs, owned_by_app, length_app.
    destruct (decide (other = self_id)) as [->|Hne].
    + rewrite Hself in Hu. inversion Hu; subst; cbn.
      rewrite (owned_by_all _ _ Hown), (Hcount _ _ Huser). lia.
    + rewrite (Hother _ Hne) in Hu.
      rewrite (owned_by_none _ _ _ Hne Hown), (Hcount _ _ Hu). cbn. lia.
  - rewrite Hdocs. apply Forall_app. split.
    + eapply Forall_impl; [exact Hfk|]. intros d Hd. cbn in *.
      rewrite Husers. by apply lookup_alter_is_Some.
    + eapply Forall_impl; [exact Hown|]. intros d ->. by rewrite Hself.
  - intros other. destruct (decide (other = self_id)) as [->|Hne].
    + rewrite (counter_lookup _ _ _ Huser), (counter_lookup _ _ _ Hself). cbn. lia.
    + unfold counter. rewrite (Hother _ Hne). lia.
Qed.

Lemma handle_consistent lib c w :
  ledger_consistent w →
  ledger_consistent (snd (handle lib c w))
  ∧ ∀ self_id, counter self_id w ≤ counter self_id (snd (handle lib c w)).
Proof.
  intros Hw.
  destruct (handle_settled lib c w) as [(user & rows & _ & Hu & Hc & _)|[_ Hdb]].
  - by eapply committed_consistent.
  - by apply same_db_consistent.
Qed.

Lemma signup_consistent new_id w :
  ledger_consistent w →
  ledger_consistent (signup new_id w)
  ∧ ∀ self_id, counter self_id w ≤ counter self_id (signup new_id w).
Proof.
  intros [Hcount Hfk]. unfold signup.
  destruct (users w !! new_id) as [u|] eqn:Hnew.
  { split; [done|]. intros. lia. }
  split; [split|]; cbn [users documents].
  - intros self_id u Hu. destruct (decide (self_id = new_id)) as [->|Hne].
    + rewrite lookup_insert_eq in Hu. inversion Hu; subst; cbn [documents_created].
      rewrite owned_by_fresh; [done|].
      eapply Forall_impl; [exact Hfk|]. cbn.
      intros d [u' Hd] Heq. congruence.
    + rewrite lookup_insert_ne in Hu by done. by apply Hcount.
  - eapply Forall_impl; [exact Hfk|]. intros d Hd. cbn in *.
    apply lookup_insert_is_Some'. by right.
  - intros self_id. unfold counter; cbn. destruct (decide (self_id = new_id)) as [->|Hne].
    + by rewrite lookup_insert_eq, Hnew.
    + rewrite lookup_insert_ne by done. lia.
Qed.

Lemma download_consistent self_id document_uuid w :
  ledger_consistent w →
  ledger_consistent (snd (download_document self_id document_uuid w))
  ∧ ∀ other, counter other w
             ≤ counter other (snd (download_document self_id document_uuid w)).
Proof.
  intros Hw. pose proof Hw as [Hcount Hfk]. unfold download_document.
  destruct (get_current_user self_id w); [|split; [done|intros; cbn; lia]].
  destruct (find_document _ _ _) as [[i d]|]; [|split; [done|intros; cbn; lia]].
  assert (ledger_consistent
            {| users := users w; documents := alter count_download i (documents w);
               files := files w; qr_log := qr_log w |}) as Hw'.
  { split; cbn [users documents].
    - intros other u' Hu. rewrite owned_by_alter by done. by apply Hcount.
    - apply Forall_lookup. intros j d' Hj. rewrite list_lookup_alter in Hj.
      case_decide; subst.
      + destruct (documents w !! j) as [d0|] eqn:Hd0; [|discriminate].
        inversion Hj; subst; cbn. by eapply (Forall_lookup_1 _ _ _ _ Hfk).
      + by eapply (Forall_lookup_1 _ _ _ _ Hfk). }
  case_bool_decide; (split; [done|intros; unfold counter; cbn; lia]).
Qed.

Lemma perform_consistent lib op w :
  ledger_consistent w →
  ledger_consistent (perform lib op w)
  ∧ ∀ self_id, counter self_id w ≤ counter self_id (perform lib op w).
Proof.
  destruct op as [new_id|c|self_id document_uuid]; cbn [perform].
  - apply signup_consistent.
  - apply handle_consistent.
  - apply download_consistent.
Qed.

(** C7, for operations served one at a time: from a store in which every
    user's [documents_created] is the number of ledger rows the user owns,
    any sequence of operations, each performed to its end before the next
    begins (sign-ups, the four generation handlers whether they commit or
    fail, downloads), leads to a store with the same property, and no user's
    counter is smaller than before. *)
Theorem ledger_counter_invariant (lib : Library) (ops : list operation) (w : world) :
  ledger_consistent w →
  ledger_consistent (perform_all lib ops w)
  ∧ ∀ self_id, counter self_id w ≤ counter self_id (perform_all lib ops w).
Proof.
  revert w. induction ops as [|op ops IH]; intros w Hw; cbn.
  - split; [done|]. intros. lia.
  - destruct (perform_consistent lib op w Hw) as [Hw1 Hle1].
    destruct (IH _ Hw1) as [Hw2 Hle2]. split; [done|].
    intros self_id. specialize (Hle1 self_id). specialize (Hle2 self_id).
    unfold perform_all in Hle2. lia.
Qed.

(** C7 as stated fails when requests interleave.  User 1 has four ledger
    rows and a counter of 4.  Two invoice requests that both pass the quota
    check before either commits both succeed, and the store settles with six
    rows of the user and a counter of 5.  For a new user and three invoice
    requests, the first of which loads the user before the other two are
    served and commits after them, the counter is 2 after the second commit
    and 1 after the third, with three rows. *)
Lemma ledger_counter_interleaved :
  ledger_consistent four_in_may
  ∧ (fmap is_success <$>
       (reply_of <$> fst (run working_library [0; 1; 0; 1]%nat two_invoice_workers
                            four_in_may)))
    = [Some true; Some true]
  ∧ length (owned_by 1 (documents (snd (run working_library [0; 1; 0; 1]%nat
                                          two_invoice_workers four_in_may)))) = 6%nat
  ∧ counter 1 (snd (run working_library [0; 1; 0; 1]%nat two_invoice_workers four_in_may)) = 5
  ∧ ledger_consistent new_user_world
  ∧ (fmap is_success <$>
       (reply_of <$> fst (run working_library [0; 1; 1; 2; 2]%nat three_invoice_workers
                            new_user_world)))
    = [None; Some true; Some true]
  ∧ counter 1 (snd (run working_library [0; 1; 1; 2; 2]%nat three_invoice_workers
                      new_user_world)) = 2
  ∧ (fmap is_success <$>
       (reply_of <$> fst (run working_library [0; 1; 1; 2; 2; 0]%nat three_invoice_workers
                            new_user_world)))
    = [Some true; Some true; Some true]
  ∧ counter 1 (snd (run working_library [0; 1; 1; 2; 2; 0]%nat three_invoice_workers
                      new_user_world)) = 1
  ∧ length (owned_by 1 (documents (snd (run working_library [0; 1; 1; 2; 2; 0]%nat
                                          three_invoice_workers new_user_world)))) = 3%nat.
Proof.
  assert (∀ n docs, Forall (fun d => user_id d = 1) docs →
            Z.of_nat (length (owned_by 1 docs)) = n →
            ledger_consistent {| users := {[ 1 := free_user n ]}; documents := docs;
                                 files := ∅; qr_log := [] |}) as Hone.
  { intros n docs Hown Hlen. split; cbn [users documents].
    - intros self_id user [<- <-]%lookup_singleton_Some. by rewrite Hlen.
    - eapply Forall_impl; [exact Hown|]. intros d ->. by rewrite lookup_singleton_eq. }
  split; [apply Hone; [by repeat constructor|vm_compute; reflexivity]|].
  split; [vm_compute; reflexivity|]. split; [vm_compute; reflexivity|].
  split; [vm_compute; reflexivity|].
  split; [apply (Hone 0 []); [constructor|reflexivity]|].
  repeat split; vm_compute; reflexivity.
Qed.

(** ** QR codes *)

Section QrCode.
Context (lib : Library).

(** The [try] block of the second [generate_qr_code] raises on its first
    statement, whatever its arguments, and changes nothing. *)
Lemma generate_qr_code_2_try_raises data size format w :
  generate_qr_code_2_try lib data size format w = (Raise UnboundLocalError, w).
Proof. reflexivity. Qed.


(** Every call that binds its parameters returns None and changes nothing. *)
Lemma generate_qr_code_2_None args w :
  args ≠ [] → (length args ≤ 6)%nat →
  generate_qr_code_2 lib args w = (Ok VNone, w).
Proof.
  intros Hargs Hlen. destruct args as [|data rest]; [done|].
  unfold generate_qr_code_2. rewrite bool_decide_eq_false_2 by (cbn in Hlen; lia).
  unfold try_except. by rewrite generate_qr_code_2_try_raises.
Qed.

Lemma generate_qr_code_2_from_tools content path n fmt w :
  generate_qr_code_2 lib [content; VStr path; VInt n; fmt] w = (Ok VNone, w).
Proof. apply generate_qr_code_2_None; [done|cbn; lia]. Qed.


Lemma qrcode_body_run env self_id user data qr_data type_name w :
  qr_type qr_data = VStr type_name →
  ∃ document,
    new_user_id document = self_id
    ∧ new_file_path document
      = path_join GENERATED_FILES_FOLDER
          ("qrcode_" +:+ token env 0 +:+ "." +:+ py_str lib (qr_format qr_data))
    ∧ new_file_type document = qr_format qr_data
    ∧ new_data_json document = JQr (with_content qr_data (qr_content_of lib data qr_data))
    ∧ qrcode_body lib env self_id user data qr_data w
      = commit env self_id user [document] 1 w.
Proof.
  intros Htype. eexists. split; [|split; [|split; [|split]]]; cycle 4.
  - unfold qrcode_body. rewrite call_generate_qr_code.
    unfold mbind at 1, effect_bind at 1. rewrite generate_qr_code_2_from_tools.
    rewrite Htype. reflexivity.
  - reflexivity.
  - reflexivity.
  - reflexivity.
  - reflexivity.
Qed.

(** No QR request constructs a QRCode. *)
Lemma qrcode_generator_log env self_id data w :
  qr_log (snd (qrcode_generator lib env self_id data w)) = qr_log w.
Proof.
  unfold qrcode_generator.
  destruct (quota_gate env self_id w) as [r|user]; [done|].
  unfold qrcode_act. destruct (qr_extract lib data) as [qr_data|e]; [|done].
  unfold try_or_rollback, qrcode_body. rewrite call_generate_qr_code.
  unfold mbind at 1, effect_bind at 1. rewrite generate_qr_code_2_from_tools.
  unfold mbind, effect_bind, lift.
  destruct (Py.title (qr_type qr_data)); [|done].
  unfold commit. by destruct (_ && _).
Qed.

(** Every QRCode the first [generate_qr_code] constructs has level M. *)
Lemma generate_qr_code_1_log args w :
  ∃ new, qr_log (snd (generate_qr_code_1 lib args w)) = qr_log w ++ new
         ∧ Forall (fun entry => fst entry = ERROR_CORRECT_M) new.
Proof.
  assert (∀ r w1, qr_log w1 = qr_log w ++ [(ERROR_CORRECT_M, r)] →
            ∃ new, qr_log w1 = qr_log w ++ new
                   ∧ Forall (fun entry => fst entry = ERROR_CORRECT_M) new) as Hone.
  { intros r w1 ->. eexists. split; [done|]. by repeat constructor. }
  assert (∀ path w1, qr_log (snd (save lib path w1)) = qr_log w1) as Hsave.
  { intros path w1. unfold save. destruct path; try done.
    by destruct (image_save lib s). }
  unfold generate_qr_code_1.
  destruct args as [|content [|file_path rest]];
    [exists []; by rewrite app_nil_r..|].
  case_bool_decide; [exists []; by rewrite app_nil_r|].
  unfold QRCode, mbind, effect_bind, log_QRCode, lift, raise, lift, mret, effect_ret.
  destruct (qr_make lib ERROR_CORRECT_M content); cbn [snd]; [|by eapply Hone].
  destruct (lower (nth 1 rest (VStr "png"))) as [fmt|]; cbn [snd]; [|by eapply Hone].
  case_bool_decide.
  - match goal with |- context [save lib ?p ?w1] =>
      pose proof (Hsave p w1) as Hs; destruct (save lib p w1) as [[[]|e] w2] end;
      cbn [snd] in *; eapply Hone; by rewrite Hs.
  - destruct (resize lib (nth 0 rest (VInt 300))) as [n|]; cbn [snd]; [|by eapply Hone].
    match goal with |- context [save lib ?p ?w1] =>
      pose proof (Hsave p w1) as Hs; destruct (save lib p w1) as [[[]|e] w2] end;
      cbn [snd] in *; eapply Hone; by rewrite Hs.
Qed.

End QrCode.


(** A QR request whose format is null is refused by the NOT NULL constraint
    of [Document.file_type] and rolled back. *)
Lemma qrcode_null_format_rolled_back lib env self_id data w user qr_data type_name :
  quota_gate env self_id w = inr user →
  qr_extract lib data = Ok qr_data →
  qr_type qr_data = VStr type_name →
  qr_format qr_data = VNone →
  qrcode_generator lib env self_id data w = (Failed IntegrityError, w).
Proof.
  intros Hgate Hextract Htype Hformat.
  destruct (qrcode_body_run lib env self_id user data qr_data type_name w Htype)
    as (document & Hid & Hpath & Hft & Hjson & Hrun).
  unfold qrcode_generator, qrcode_act. rewrite Hgate, Hextract.
  unfold try_or_rollback. rewrite Hrun. unfold commit.
  assert (forallb not_null [document] = false) as ->
    by (cbn [forallb]; unfold not_null; by rewrite Hft, Hformat).
  rewrite andb_false_r. unfold rollback. by destruct w.
Qed.


Lemma qrcode_generator_success lib env self_id data w rows w' :
  qrcode_generator lib env self_id data w = (Success rows, w') →
  ∃ qr_data row,
    qr_extract lib data = Ok qr_data ∧ rows = [row]
    ∧ data_json row = JQr {| qr_type := qr_type qr_data;
                             qr_content := qr_content_of lib data qr_data;
                             qr_size := qr_size qr_data;
                             qr_format := qr_format qr_data;
                             qr_error_correction := qr_error_correction qr_data |}.
Proof.
  unfold qrcode_generator.
  destruct (quota_gate env self_id w) as [r|user] eqn:Hgate.
  { intros [= -> <-]. by apply quota_gate_inl in Hgate. }
  unfold qrcode_act. destruct (qr_extract lib data) as [qr_data|e]; [|discriminate].
  unfold try_or_rollback, qrcode_body. rewrite call_generate_qr_code.
  unfold mbind at 1, effect_bind at 1. rewrite generate_qr_code_2_from_tools.
  unfold mbind, effect_bind, lift.
  destruct (Py.title (qr_type qr_data)) as [t|]; [|discriminate].
  unfold commit. destruct (_ && _); [|discriminate].
  intros [= <- <-]. eexists _, _. split; [done|]. split; reflexivity.
Qed.

Lemma qr_extract_fields lib data qr_data :
  qr_extract lib data = Ok qr_data →
  qr_type qr_data = get_or data "type" (VStr "text")
  ∧ qr_content qr_data = get data "content"
  ∧ qr_error_correction qr_data = get_or data "error_correction" (VStr "M").
Proof.
  unfold qr_extract. destruct (py_int lib _) as [n|]; [|discriminate].
  intros [= <-]. done.
Qed.

(** C8: the content string of a QR request.  For type [wifi] with string
    fields it is exactly [WIFI:T:<security>;S:<ssid>;P:<password>;;]
    (WPA, Home, secret give [WIFI:T:WPA;S:Home;P:secret;;]); for type [text],
    when no type is given, and for every other type that is not wifi, vcard
    or upi, it is the [content] field as submitted.  A request that succeeds
    stores its row with this string as content, next to the other fields as
    extracted; the wifi example stores [WIFI:T:WPA;S:Home;P:secret;;]. *)
Theorem qr_content_derivation (lib : Library) (data : dict) :
  (∀ qr_data security ssid password,
     qr_extract lib data = Ok qr_data →
     data !! "type" = Some (VStr "wifi") →
     data !! "wifi_security" = Some (VStr security) →
     data !! "wifi_ssid" = Some (VStr ssid) →
     data !! "wifi_password" = Some (VStr password) →
     qr_content_of lib data qr_data
     = VStr ("WIFI:T:" +:+ security +:+ ";S:" +:+ ssid +:+ ";P:" +:+ password +:+ ";;"))
  ∧ (∀ qr_data,
       qr_extract lib data = Ok qr_data →
       data !! "type" = None ∨ data !! "type" = Some (VStr "text") →
       qr_content_of lib data qr_data = get data "content")
  ∧ (∀ qr_data,
       qr_extract lib data = Ok qr_data →
       (∀ type_name, data !! "type" = Some (VStr type_name) →
                     type_name ≠ "wifi" ∧ type_name ≠ "vcard" ∧ type_name ≠ "upi") →
       qr_content_of lib data qr_data = get data "content")
  ∧ (∃ qr_data, qr_extract lib qr_wifi_home = Ok qr_data
                ∧ qr_content_of lib qr_wifi_home qr_data = VStr "WIFI:T:WPA;S:Home;P:secret;;")
  ∧ (∀ env self_id w rows w',
       qrcode_generator lib env self_id data w = (Success rows, w') →
       ∃ qr_data row,
         qr_extract lib data = Ok qr_data ∧ rows = [row]
         ∧ data_json row = JQr {| qr_type := qr_type qr_data;
                                  qr_content := qr_content_of lib data qr_data;
                                  qr_size := qr_size qr_data;
                                  qr_format := qr_format qr_data;
                                  qr_error_correction := qr_error_correction qr_data |})
  ∧ (data_json <$> documents
       (snd (qrcode_generator working_library (may_20 "a") 1 qr_wifi_home new_user_world)))
    = [JQr {| qr_type := VStr "wifi"; qr_content := VStr "WIFI:T:WPA;S:Home;P:secret;;";
              qr_size := 300; qr_format := VStr "png";
              qr_error_correction := VStr "M" |}].
Proof.
  split; [|split; [|split; [|split; [|split]]]].
  - intros qr_data security ssid password Hx Htype Hsec Hssid Hpw.
    apply qr_extract_fields in Hx as (Ht & _ & _).
    unfold qr_content_of, get, get_or in *. rewrite Ht, Htype, Hsec, Hssid, Hpw. done.
  - intros qr_data Hx Htype.
    apply qr_extract_fields in Hx as (Ht & Hc & _).
    unfold qr_content_of, get_or in *. rewrite Ht, Hc.
    destruct Htype as [-> | ->]; done.
  - intros qr_data Hx Hother.
    apply qr_extract_fields in Hx as (Ht & Hc & _).
    unfold qr_content_of, get_or in *. rewrite Ht, Hc.
    destruct (data !! "type") as [[| | | |type_name|]|]; try done. cbn.
    destruct (Hother type_name eq_refl) as (? & ? & ?).
    by rewrite !bool_decide_eq_false_2.
  - eexists. split; [vm_compute; reflexivity|]. vm_compute. reflexivity.
  - intros env self_id w rows w'. apply qrcode_generator_success.
  - vm_compute. reflexivity.
Qed.

(** C9 (the code departs from the specification): the level a QR request
    asks for is read and stored, and used nowhere.  No request constructs a
    QRCode at all, since the function the handler calls raises before it
    does; the first definition of that function, which has no parameter for
    the level, constructs every QRCode with ERROR_CORRECT_M.  A request for
    level H is stored with [error_correction = "H"], and no code is encoded
    for it. *)
Theorem qr_error_correction_not_used (lib : Library) (env : Env) (self_id : Z)
    (data : dict) (w : world) :
  qr_log (snd (qrcode_generator lib env self_id data w)) = qr_log w
  ∧ (∀ args w0,
       ∃ new, qr_log (snd (generate_qr_code_1 lib args w0)) = qr_log w0 ++ new
              ∧ Forall (fun entry => fst entry = ERROR_CORRECT_M) new)
  ∧ (qr_error_correction <$> qr_extract working_library qr_text_H) = Ok (VStr "H")
  ∧ qr_log (snd (qrcode_generator working_library (may_20 "a") 1 qr_text_H new_user_world))
    = []
  ∧ (data_json <$> documents
       (snd (qrcode_generator working_library (may_20 "a") 1 qr_text_H new_user_world)))
    = [JQr {| qr_type := VStr "text"; qr_content := VStr "hello"; qr_size := 300;
              qr_format := VStr "png"; qr_error_correction := VStr "H" |}]
  ∧ qr_log (snd (generate_qr_code_1 working_library
                   [VStr "hello"; VStr "generated_files/qrcode_a0.png"; VInt 300;
                    VStr "png"] new_user_world))
    = [(ERROR_CORRECT_M, VStr "hello")].
Proof.
  split; [apply qrcode_generator_log|].
  split; [intros args w0; apply generate_qr_code_1_log|].
  split; [vm_compute; reflexivity|]. split; [vm_compute; reflexivity|].
  split; vm_compute; reflexivity.
Qed.

(** C2 (the code departs from the specification): a text QR request of a new
    user.  The composition fails: the [try] block of the [generate_qr_code]
    that tools.py imports raises UnboundLocalError on its first statement,
    the function swallows it and returns None, and no file is written, where
    the first definition of the function would have written the file.  Yet
    the request succeeds, one ledger row pointing to the missing file
    persists and the counter is 1. *)
Theorem qrcode_failed_render_commits :
  generate_qr_code_2_try working_library (VStr "hello")
      (VStr "generated_files/qrcode_a0.png") (VInt 300) new_user_world
    = (Raise UnboundLocalError, new_user_world)
  ∧ call_utils working_library "generate_qr_code"
      [VStr "hello"; VStr "generated_files/qrcode_a0.png"; VInt 300; VStr "png"]
      new_user_world
    = (Ok VNone, new_user_world)
  ∧ files (snd (generate_qr_code_1 working_library
                  [VStr "hello"; VStr "generated_files/qrcode_a0.png"; VInt 300; VStr "png"]
                  new_user_world))
    = {[ "generated_files/qrcode_a0.png" ]}
  ∧ is_success (fst (qrcode_generator working_library (may_20 "a") 1 qr_text_H new_user_world))
    = true
  ∧ (file_path <$> documents
       (snd (qrcode_generator working_library (may_20 "a") 1 qr_text_H new_user_world)))
    = ["generated_files/qrcode_a0.png"]
  ∧ files (snd (qrcode_generator working_library (may_20 "a") 1 qr_text_H new_user_world)) = ∅
  ∧ counter 1 new_user_world = 0
  ∧ counter 1 (snd (qrcode_generator working_library (may_20 "a") 1 qr_text_H new_user_world))
    = 1.
Proof. repeat split; vm_compute; reflexivity. Qed.

(** ** Ownership-scoped lookup *)

Lemma NoDup_fmap_elem_eq {A B} (f : A → B) (l : list A) x y :
  NoDup (f <$> l) → x ∈ l → y ∈ l → f x = f y → x = y.
Proof.
  induction l as [|a l IH]; intros Hnd Hx Hy Hf; [by apply elem_of_nil in Hx|].
  rewrite fmap_cons in Hnd. apply NoDup_cons in Hnd as [Ha Hnd].
  apply elem_of_cons in Hx as [->|Hx]; apply elem_of_cons in Hy as [->|Hy].
  - done.
  - exfalso. apply Ha. rewrite Hf. by apply list_elem_of_fmap_2.
  - exfalso. apply Ha. rewrite <- Hf. by apply list_elem_of_fmap_2.
  - by apply IH.
Qed.

Lemma get_by_public_id_Some document_uuid owner w d :
  get_by_public_id document_uuid owner w = Some d →
  d ∈ documents w ∧ uuid d = document_uuid ∧ user_id d = owner.
Proof.
  unfold get_by_public_id, find_document.
  destruct (list_find _ _) as [[i x]|] eqn:Hfind; [|discriminate].
  intros [= <-]. apply list_find_Some in Hfind as (Hi & [Hu Ho] & _).
  split; [by eapply list_elem_of_lookup_2|done].
Qed.

(** C6: with public identifiers unique in the ledger (the UNIQUE
    constraint on [uuid]), the lookup by public identifier and owner returns
    a record only if it is the record with that identifier and it belongs to
    the claimed owner; for an identifier of another user's record the lookup
    finds nothing and the download handler answers NotFound, leaving the
    store as it was; for the owner's own record the lookup returns it. *)
Theorem ownership_scoped_lookup (w : world) (document_uuid : string) (owner : Z) :
  NoDup (uuid <$> documents w) →
  (∀ d, get_by_public_id document_uuid owner w = Some d →
        d ∈ documents w ∧ uuid d = document_uuid ∧ user_id d = owner)
  ∧ (∀ d, d ∈ documents w → uuid d = document_uuid → user_id d ≠ owner →
          get_by_public_id document_uuid owner w = None
          ∧ ∀ user, users w !! owner = Some user →
                    download_document owner document_uuid w = (NotFound, w))
  ∧ (∀ d, d ∈ documents w → uuid d = document_uuid → user_id d = owner →
          get_by_public_id document_uuid owner w = Some d).
Proof.
  intros Hnd. split; [|split].
  - intros d. apply get_by_public_id_Some.
  - intros d Hd Hu Ho.
    assert (find_document document_uuid owner (documents w) = None) as Hnone.
    { apply list_find_None, Forall_forall. intros x Hx [Hxu Hxo].
      assert (x = d) as -> by (eapply (NoDup_fmap_elem_eq uuid); eauto; congruence).
      done. }
    split; [unfold get_by_public_id; by rewrite Hnone|].
    intros user Huser. unfold download_document, get_current_user.
    by rewrite Huser, Hnone.
  - intros d Hd Hu Ho.
    destruct (get_by_public_id document_uuid owner w) as [x|] eqn:Hget.
    + apply get_by_public_id_Some in Hget as (Hx & Hxu & _).
      f_equal. eapply (NoDup_fmap_elem_eq uuid); eauto; congruence.
    + unfold get_by_public_id, find_document in Hget.
      destruct (list_find _ _) as [[i x]|] eqn:Hfind; [discriminate|].
      apply list_find_None in Hfind.
      eapply Forall_forall in Hfind; [|exact Hd]. by destruct Hfind.
Qed.

(** ** Concurrent requests *)

(** C1 (the code departs from the specification): user 1 is on the free plan with
    four artifacts this month.  When two workers each pass the quota check
    before either commits, both invoice requests succeed: the month ends up
    with six artifacts, and the counter, written twice from the same loaded
    value, with 5.  Served one after the other, the same two requests give
    one success and one QuotaExceeded. *)
Theorem quota_double_spend :
  monthly_count 1 (documents four_in_may) (at_noon 2024 5 20) = 4%nat
  ∧ is_premium (free_user 4) (at_noon 2024 5 20) = false
  ∧ (fmap is_success <$>
       (reply_of <$> fst (run working_library [0; 1; 0; 1]%nat two_invoice_workers
                            four_in_may)))
    = [Some true; Some true]
  ∧ monthly_count 1
      (documents (snd (run working_library [0; 1; 0; 1]%nat two_invoice_workers four_in_may)))
      (at_noon 2024 5 20) = 6%nat
  ∧ counter 1 (snd (run working_library [0; 1; 0; 1]%nat two_invoice_workers four_in_may)) = 5
  ∧ fst (serve working_library [invoice_call "a"; invoice_call "b"] four_in_may)
      !! 1%nat = Some QuotaExceeded
  ∧ (is_success <$> fst (serve working_library [invoice_call "a"; invoice_call "b"]
                           four_in_may))
    = [true; false].
Proof. repeat split; vm_compute; reflexivity. Qed.

(** ** Bulk certificates *)

Section Certificates.
Context (lib : Library).

Lemma with_bulk_names_same form : with_bulk_names form (bulk_names form) = form.
Proof. by destruct form. Qed.

(** One certificate for a name that is a string: the PDF is rendered, then
    the download URL of the pending document cannot be built. *)
Lemma one_certificate_run env self_id i form cert_data name w :
  one_certificate lib env self_id i form cert_data (VStr name) w
  = if save_certificate lib cert_data (new_file_path (bulk_document env self_id form i name))
    then (Raise (LibraryError "url_for"),
          snd (write_file (new_file_path (bulk_document env self_id form i name)) w))
    else (Raise (LibraryError "reportlab"), w).
Proof.
  unfold one_certificate, generate_certificate_pdf, url_for_download_pending,
    mbind, effect_bind, lift, raise, lift. cbn.
  by destruct (save_certificate lib cert_data _).
Qed.

(** The loop over a list with a non-blank name raises at the first one. *)
Lemma bulk_loop_fails env self_id form names :
  non_blank names ≠ [] →
  ∀ added w,
    ∃ e w1,
      bulk_loop lib env self_id form (VStr <$> names) added w = (Raise e, w1)
      ∧ same_db w w1
      ∧ files w ⊆ files w1
      ∧ (e = LibraryError "url_for" ∨ e = LibraryError "reportlab").
Proof.
  induction names as [|name names IH]; intros Hne added w; [done|].
  rewrite fmap_cons. cbn [bulk_loop].
  unfold mbind at 1, effect_bind at 1, lift at 1. cbn [strip].
  unfold non_blank in Hne. rewrite filter_cons in Hne. fold (non_blank names) in Hne.
  case_bool_decide as Hblank.
  - rewrite decide_False in Hne by (by intros ?). by apply IH.
  - unfold mbind at 1, effect_bind at 1. rewrite one_certificate_run.
    destruct (save_certificate lib _ _) eqn:Hsave.
    + eexists _, _. split; [reflexivity|]. split; [done|]. split; [|by left].
      cbn. apply union_subseteq_r.
    + eexists _, _. split; [reflexivity|]. split; [done|]. split; [done|by right].
Qed.

End Certificates.

Lemma bulk_rows_length env self_id form names :
  length (bulk_rows env self_id form names) = length (non_blank names).
Proof. unfold bulk_rows. by rewrite !length_imap. Qed.

Lemma bulk_request_premium lib env self_id user w is_bulk form names :
  users w !! self_id = Some user →
  truthy is_bulk = true →
  is_premium user (now env) = true →
  bulk_names form = VStr <$> names →
  non_blank names ≠ [] →
  ∃ e w', certificate_creator lib env self_id is_bulk form w = (Failed e, w')
          ∧ users w' = users w
          ∧ documents w' = documents w
          ∧ (e = LibraryError "url_for" ∨ e = LibraryError "reportlab").
Proof.
  intros Huser Hbulk Hprem Hnames Hne.
  unfold certificate_creator, quota_gate, get_current_user, can_create_document.
  rewrite Huser, Hprem. unfold certificate_act. rewrite Hbulk, Hprem. cbn [andb negb].
  rewrite with_bulk_names_same.
  unfold try_or_rollback, certificate_body. rewrite Hbulk, Hnames.
  rewrite bool_decide_eq_false_2 by (by destruct names). cbn [andb negb].
  unfold mbind at 1, effect_bind at 1.
  destruct (bulk_loop_fails lib env self_id form names Hne [] w)
    as (e & w1 & Hrun & _ & _ & He).
  rewrite Hrun. by eexists _, _.
Qed.

Lemma bulk_request_not_premium lib env self_id user w is_bulk form :
  users w !! self_id = Some user →
  truthy is_bulk = true →
  is_premium user (now env) = false →
  certificate_creator lib env self_id is_bulk form w
  = (if can_create_document self_id user (documents w) (now env)
     then PremiumRequired else QuotaExceeded, w).
Proof.
  intros Huser Hbulk Hprem.
  unfold certificate_creator, quota_gate, get_current_user. rewrite Huser.
  destruct (can_create_document self_id user (documents w) (now env)); [|done].
  unfold certificate_act. by rewrite Hbulk, Hprem.
Qed.

(** C5 (the code departs from the specification): a bulk certificate request
    (bulk mode on) of a logged-in user.  For a premium user and a list of
    names with at least one non-blank name, the specification asks for one
    certificate per non-blank name; the code renders the first one, then
    asks for the download URL of a document that is not committed yet, and
    the request fails: the answer is the 500 error, with the error of
    [url_for] or, if that first certificate does not render, of the
    renderer; no row is committed and the counter is what it was.  A user who is not premium is rejected with the
    store untouched: PremiumRequired when the monthly quota still allows a
    document, QuotaExceeded when it does not, the quota being checked first.
    For a premium user and the names Alice, "", " ", Bob, two certificates
    were to be produced; the request fails with the ledger and the counter
    unchanged and the PDF of Alice alone on disk. *)
Theorem bulk_certificates (lib : Library) (env : Env) (self_id : Z) (user : User)
    (w : world) (is_bulk : pyval) (form : CertificateData) :
  users w !! self_id = Some user →
  truthy is_bulk = true →
  (is_premium user (now env) = true →
   ∀ names,
     bulk_names form = VStr <$> names →
     non_blank names ≠ [] →
     ∃ e w', certificate_creator lib env self_id is_bulk form w = (Failed e, w')
             ∧ documents w' = documents w
             ∧ counter self_id w' = documents_created user
             ∧ (e = LibraryError "url_for" ∨ e = LibraryError "reportlab"))
  ∧ (is_premium user (now env) = false →
     certificate_creator lib env self_id is_bulk form w
     = (if can_create_document self_id user (documents w) (now env)
        then PremiumRequired else QuotaExceeded, w))
  ∧ non_blank ["Alice"; ""; " "; "Bob"] = ["Alice"; "Bob"]
  ∧ (title <$> bulk_rows (may_20 "c") 2
                 (certificate_form VNone (VStr <$> ["Alice"; ""; " "; "Bob"]))
                 ["Alice"; ""; " "; "Bob"])
    = ["Certificate - Alice"; "Certificate - Bob"]
  ∧ fst (certificate_creator working_library (may_20 "c") 2 (VBool true)
           (certificate_form VNone (VStr <$> ["Alice"; ""; " "; "Bob"])) certificate_world)
    = Failed (LibraryError "url_for")
  ∧ documents (snd (certificate_creator working_library (may_20 "c") 2 (VBool true)
                      (certificate_form VNone (VStr <$> ["Alice"; ""; " "; "Bob"]))
                      certificate_world))
    = documents certificate_world
  ∧ counter 2 (snd (certificate_creator working_library (may_20 "c") 2 (VBool true)
                      (certificate_form VNone (VStr <$> ["Alice"; ""; " "; "Bob"]))
                      certificate_world))
    = counter 2 certificate_world
  ∧ elements (files (snd (certificate_creator working_library (may_20 "c") 2 (VBool true)
                            (certificate_form VNone (VStr <$> ["Alice"; ""; " "; "Bob"]))
                            certificate_world)))
    = ["generated_files/certificate_Alice_c0.pdf"].
Proof.
  intros Huser Hbulk. split; [|split].
  - intros Hprem names Hnames Hne.
    destruct (bulk_request_premium lib env self_id user w is_bulk form names)
      as (e & w' & Hrun & Hu & Hd & He); try done.
    exists e, w'. split; [done|]. split; [done|]. split; [|done].
    unfold counter. by rewrite Hu, Huser.
  - by apply bulk_request_not_premium.
  - repeat split; vm_compute; reflexivity.
Qed.

(** A premium bulk request with an empty list takes the branch of the single
    certificate, which fails in the same way; a free user who has used up
    the monthly quota is rejected with QuotaExceeded. *)
Example bulk_request_empty_list_and_quota :
  fst (certificate_creator working_library (may_20 "c") 2 (VBool true)
         (certificate_form (VStr "Alice") []) certificate_world)
    = Failed (LibraryError "url_for")
  ∧ elements (files (snd (certificate_creator working_library (may_20 "c") 2 (VBool true)
                            (certificate_form (VStr "Alice") []) certificate_world)))
    = ["generated_files/certificate_Alice_c0.pdf"]
  ∧ fst (certificate_creator working_library (may_20 "c") 3 (VBool true)
           (certificate_form VNone [VStr "Alice"]) certificate_world)
    = QuotaExceeded.
Proof. repeat split; vm_compute; reflexivity. Qed.

(** ** The theorems at concrete inputs *)

Lemma ledger_counter_invariant_witness :
  ledger_consistent empty_world
  ∧ ledger_consistent (perform_all working_library example_operations empty_world)
  ∧ ∀ self_id, counter self_id empty_world
               ≤ counter self_id (perform_all working_library example_operations empty_world).
Proof.
  assert (ledger_consistent empty_world) as Hempty.
  { split; [|constructor]. intros self_id user Hu. vm_compute in Hu. discriminate. }
  split; [exact Hempty|].
  exact (ledger_counter_invariant working_library example_operations empty_world Hempty).
Defined.

Example example_operations_counter :
  counter 1 (perform_all working_library example_operations empty_world) = 2
  ∧ length (documents (perform_all working_library example_operations empty_world)) = 2%nat
  ∧ (downloaded_count <$> documents
       (perform_all working_library example_operations empty_world)) = [1; 0].
Proof. repeat split; vm_compute; reflexivity. Qed.

Lemma ownership_scoped_lookup_witness :
  NoDup (uuid <$> documents four_in_may)
  ∧ (∀ d, get_by_public_id "d1" 2 four_in_may = Some d →
          d ∈ documents four_in_may ∧ uuid d = "d1" ∧ user_id d = 2)
  ∧ (∀ d, d ∈ documents four_in_may → uuid d = "d1" → user_id d ≠ 2 →
          get_by_public_id "d1" 2 four_in_may = None
          ∧ ∀ user, users four_in_may !! 2 = Some user →
                    download_document 2 "d1" four_in_may = (NotFound, four_in_may))
  ∧ (∀ d, d ∈ documents four_in_may → uuid d = "d1" → user_id d = 2 →
          get_by_public_id "d1" 2 four_in_may = Some d).
Proof.
  assert (NoDup (uuid <$> documents four_in_may)) as Hnd.
  { apply (bool_decide_unpack _). vm_compute. exact I. }
  split; [exact Hnd|].
  exact (ownership_scoped_lookup four_in_may "d1" 2 Hnd).
Defined.

Example lookup_by_owner_and_stranger :
  (uuid <$> get_by_public_id "d1" 1 four_in_may) = Some "d1"
  ∧ get_by_public_id "d1" 2 four_in_may = None.
Proof. split; vm_compute; reflexivity. Qed.


Lemma bulk_certificates_witness :
  users certificate_world !! 2 = Some (premium_user 0 (at_noon 2025 1 1))
  ∧ truthy (VBool true) = true
  ∧ is_premium (premium_user 0 (at_noon 2025 1 1)) (now (may_20 "c")) = true
  ∧ non_blank ["Alice"; ""; " "; "Bob"] ≠ []
  ∧ ∃ e w', certificate_creator working_library (may_20 "c") 2 (VBool true)
              (certificate_form VNone (VStr <$> ["Alice"; ""; " "; "Bob"])) certificate_world
            = (Failed e, w')
            ∧ documents w' = documents certificate_world
            ∧ counter 2 w' = documents_created (premium_user 0 (at_noon 2025 1 1))
            ∧ (e = LibraryError "url_for" ∨ e = LibraryError "reportlab").
Proof.
  assert (users certificate_world !! 2 = Some (premium_user 0 (at_noon 2025 1 1))) as Huser
    by (vm_compute; reflexivity).
  assert (is_premium (premium_user 0 (at_noon 2025 1 1)) (now (may_20 "c")) = true) as Hprem
    by (vm_compute; reflexivity).
  assert (non_blank ["Alice"; ""; " "; "Bob"] ≠ []) as Hne
    by (vm_compute; discriminate).
  split; [exact Huser|]. split; [reflexivity|]. split; [exact Hprem|]. split; [exact Hne|].
  exact (proj1 (bulk_certificates working_library (may_20 "c") 2
                  (premium_user 0 (at_noon 2025 1 1)) certificate_world (VBool true)
                  (certificate_form VNone (VStr <$> ["Alice"; ""; " "; "Bob"]))
                  Huser eq_refl)
           Hprem ["Alice"; ""; " "; "Bob"] eq_refl Hne).
Defined.

(** ** Requests served one after the other *)

Lemma dt_ge_month_start t : valid_datetime t → dt_ge t (month_start t) = true.
Proof.
  intros (Hd & Hh & Hm & Hs & Hu).
  unfold dt_ge, dt_compare, dt_fields, month_start.
  cbn [lex_compare year month day hour minute second microsecond].
  rewrite !Z.compare_refl.
  destruct (Z.compare_spec (day t) 1); [|lia|done].
  destruct (Z.compare_spec (hour t) 0); [|lia|done].
  destruct (Z.compare_spec (minute t) 0); [|lia|done].
  destruct (Z.compare_spec (second t) 0); [|lia|done].
  destruct (Z.compare_spec (microsecond t) 0); [done|lia|done].
Qed.

Lemma month_start_same t1 t2 :
  year t1 = year t2 → month t1 = month t2 → month_start t1 = month_start t2.
Proof. unfold month_start. by intros -> ->. Qed.

Lemma monthly_count_app self_id l1 l2 clock :
  monthly_count self_id (l1 ++ l2) clock
  = (monthly_count self_id l1 clock + monthly_count self_id l2 clock)%nat.
Proof. unfold monthly_count. by rewrite filter_app, length_app. Qed.

Lemma monthly_count_all self_id rows clock :
  Forall (fun d => in_month_of self_id (month_start clock) d = true) rows →
  monthly_count self_id rows clock = length rows.
Proof.
  unfold monthly_count. induction 1 as [|d rows Hd _ IH]; [done|].
  rewrite filter_cons, decide_True by done. cbn. by rewrite IH.
Qed.

Lemma is_premium_counter user n clock :
  is_premium (set_documents_created n user) clock = is_premium user clock.
Proof. done. Qed.

(** X1: served one after the other, two generation requests of the same month
    by a user who is not premium and has four artifacts in that month never
    both succeed: when the first succeeds, the second is answered
    QuotaExceeded and changes nothing. *)
Theorem serial_requests_one_slot (lib : Library) (c1 c2 : call) (w : world) (user : User) :
  call_user c2 = call_user c1 →
  users w !! call_user c1 = Some user →
  is_premium user (now (call_env c1)) = false →
  is_premium user (now (call_env c2)) = false →
  valid_datetime (now (call_env c1)) →
  year (now (call_env c2)) = year (now (call_env c1)) →
  month (now (call_env c2)) = month (now (call_env c1)) →
  monthly_count (call_user c1) (documents w) (now (call_env c1)) = 4%nat →
  is_success (fst (handle lib c1 w)) = true →
  handle lib c2 (snd (handle lib c1 w)) = (QuotaExceeded, snd (handle lib c1 w)).
Proof.
  intros Hsame Huser Hp1 Hp2 Hvalid Hyear Hmonth Hfour Hok.
  destruct (handle_settled lib c1 w)
    as [(user' & rows & Hresp & Huser' & [Hdocs Hown Hcreated Husers _] & Hone)|[Hfail _]];
    [|congruence].
  rewrite Huser in Huser'. inversion Huser'; subst user'; clear Huser'.
  specialize (Hone Hp1). rewrite Hone in Husers.
  rewrite bool_decide_eq_false_2 in Husers by (cbn; lia).
  rewrite handle_gate_act, Hsame. unfold quota_gate, get_current_user.
  rewrite Husers, lookup_alter_eq, Huser. cbn [fmap option_fmap option_map].
  unfold can_create_document. rewrite is_premium_counter, Hp2.
  rewrite (month_start_same _ _ Hyear Hmonth), Hdocs.
  fold (monthly_count (call_user c1) (documents w ++ rows) (now (call_env c1))).
  rewrite monthly_count_app, Hfour, monthly_count_all, Hone; [done|].
  apply Forall_forall. intros d Hd. unfold in_month_of.
  rewrite (proj1 (Forall_forall _ _) Hown d Hd), (proj1 (Forall_forall _ _) Hcreated d Hd).
  rewrite bool_decide_eq_true_2 by done. by rewrite dt_ge_month_start.
Qed.

Lemma serial_requests_one_slot_witness :
  is_success (fst (handle working_library (invoice_call "a") four_in_may)) = true
  ∧ handle working_library (invoice_call "b")
      (snd (handle working_library (invoice_call "a") four_in_may))
    = (QuotaExceeded, snd (handle working_library (invoice_call "a") four_in_may)).
Proof.
  assert (is_success (fst (handle working_library (invoice_call "a") four_in_may)) = true)
    as Hok by (vm_compute; reflexivity).
  split; [exact Hok|].
  refine (serial_requests_one_slot working_library (invoice_call "a") (invoice_call "b")
            four_in_may (free_user 4) eq_refl _ eq_refl eq_refl _ eq_refl eq_refl _ Hok).
  - vm_compute. reflexivity.
  - unfold valid_datetime. cbn. lia.
  - vm_compute. reflexivity.
Defined.

(** ** Public identifiers stay unique *)

Lemma fmap_uuid_count_download (docs : list Document) : ∀ i : nat,
  uuid <$> alter count_download i docs = uuid <$> docs.
Proof.
  induction docs as [|d docs IH]; intros i; [done|].
  destruct i as [|i]; cbn; [done|]. f_equal. apply IH.
Qed.

(** X2: every operation keeps the public identifiers of the ledger pairwise
    different: a commit that would repeat one is refused. *)
Theorem uuid_unique_invariant (lib : Library) (ops : list operation) (w : world) :
  NoDup (uuid <$> documents w) →
  NoDup (uuid <$> documents (perform_all lib ops w)).
Proof.
  revert w. induction ops as [|op ops IH]; intros w Hw; [done|].
  cbn. apply IH. destruct op as [new_id|c|self_id document_uuid]; cbn [perform].
  - unfold signup. by destruct (users w !! new_id).
  - destruct (handle_settled lib c w)
      as [(user & rows & _ & _ & [Hdocs _ _ _ [Hnd Hfresh]] & _)|[_ [_ Hdb]]].
    + rewrite Hdocs, fmap_app. apply NoDup_app. split; [done|]. split; [|done].
      intros x Hx Hrow. apply list_elem_of_fmap in Hrow as (row & -> & Hrow).
      by apply (proj1 (Forall_forall _ _) Hfresh row Hrow).
    + by rewrite Hdb.
  - unfold download_document. destruct (get_current_user self_id w); [|done].
    destruct (find_document _ _ _) as [[i d]|]; [|done].
    case_bool_decide; cbn; by rewrite fmap_uuid_count_download.
Qed.

Lemma uuid_unique_invariant_witness :
  NoDup (uuid <$> documents empty_world)
  ∧ NoDup (uuid <$> documents (perform_all working_library example_operations empty_world)).
Proof.
  assert (NoDup (uuid <$> documents empty_world)) as Hnd by constructor.
  split; [exact Hnd|].
  exact (uuid_unique_invariant working_library example_operations empty_world Hnd).
Defined.

(** ** Certificates when no URL can be built before the commit *)

Section PendingLinks.
Context (lib : Library).

Lemma one_certificate_never env self_id i c cd name :
  db_preserving (fun _ => False) (one_certificate lib env self_id i c cd name).
Proof.
  unfold one_certificate. db_bind; [apply db_preserving_lift|].
  db_bind; [apply generate_certificate_pdf_db|].
  db_bind; [apply url_for_download_pending_db|]. cbn in *. contradiction.
Qed.

Lemma bulk_loop_adds_nothing env self_id c names added :
  db_preserving (fun added' => added' = added) (bulk_loop lib env self_id c names added).
Proof.
  induction names as [|name names IH]; cbn [bulk_loop]; [db_leaf|].
  db_bind; [apply db_preserving_lift|].
  case_bool_decide; [apply IH|].
  db_bind; [apply one_certificate_never|]. done.
Qed.

Lemma certificate_body_commits_nothing env self_id user is_bulk c :
  transactional (fun rows => rows = []) env self_id user
    (certificate_body lib env self_id user is_bulk c).
Proof.
  unfold certificate_body. eapply (transactional_bind (fun added => added = [])).
  - destruct (truthy is_bulk && negb (bool_decide (bulk_names c = []))).
    + apply bulk_loop_adds_nothing.
    + db_bind; [apply one_certificate_never|]. done.
  - intros added ->. by apply (commit_transactional _ env self_id user []).
Qed.

Lemma certificate_creator_commits_nothing env self_id is_bulk form w rows w' :
  certificate_creator lib env self_id is_bulk form w = (Success rows, w') →
  rows = [] ∧ same_db w w'.
Proof.
  unfold certificate_creator.
  destruct (quota_gate env self_id w) as [r|user] eqn:Hgate.
  { intros [= -> <-]. by apply quota_gate_inl in Hgate. }
  unfold certificate_act. destruct (truthy is_bulk && negb (is_premium user (now env))).
  { discriminate. }
  intros Hrun.
  eapply try_or_rollback_outcome in Hrun as [(rows' & Heq & Hc & HP)|[? ?]];
    [|done|apply certificate_body_commits_nothing].
  cbn in HP. subst rows'. inversion Heq; subst rows.
  destruct Hc as [Hdocs _ _ Husers _]. cbn in Husers.
  split; [done|]. split; [done|]. by rewrite Hdocs, app_nil_r.
Qed.

End PendingLinks.

(** X3: certificate_creator builds the download URL of each new document
    inside its [try], before the commit (the other handlers build it after
    the commit).  No URL can be built for a document that is not committed
    yet, so no certificate request ever commits a row or changes a counter;
    a single certificate that renders is answered with the 500 error while
    its PDF stays on disk. *)
Theorem certificate_links_before_commit (lib : Library) (env : Env) (self_id : Z)
    (is_bulk : pyval) (form : CertificateData) (w : world) :
  (∀ rows w', certificate_creator lib env self_id is_bulk form w = (Success rows, w') →
              rows = [] ∧ same_db w w')
  ∧ fst (certificate_creator working_library (may_20 "c") 2 (VBool false)
           (certificate_form (VStr "Alice") []) certificate_world)
    = Failed (LibraryError "url_for")
  ∧ documents (snd (certificate_creator working_library (may_20 "c") 2 (VBool false)
                      (certificate_form (VStr "Alice") []) certificate_world))
    = documents certificate_world
  ∧ elements (files (snd (certificate_creator working_library (may_20 "c") 2 (VBool false)
                            (certificate_form (VStr "Alice") []) certificate_world)))
    = ["generated_files/certificate_Alice_c0.pdf"]
  ∧ is_success (fst (certificate_creator working_library (may_20 "c") 2 (VBool true)
                       (certificate_form VNone (VStr <$> ["Alice"; ""; " "; "Bob"]))
                       certificate_world))
    = false.
Proof.
  split.
  { intros rows w'. by apply certificate_creator_commits_nothing. }
  repeat split; vm_compute; reflexivity.
Qed.

Example all_blank_bulk_list_succeeds_empty :
  fst (certificate_creator working_library (may_20 "c") 2 (VBool true)
         (certificate_form VNone [VStr " "]) certificate_world) = Success [].
Proof. vm_compute. reflexivity. Qed.

(** ** The file system only grows *)

Lemma files_grow_ret {A} (a : A) : files_grow (mret a : effect A).
Proof. intros w r w' [= <- <-]. done. Qed.

Lemma files_grow_lift {A} (r : result A) : files_grow (lift r).
Proof. intros w r' w' [= <- <-]. done. Qed.

Lemma files_grow_raise {A} e : files_grow (raise e : effect A).
Proof. intros w r' w' [= <- <-]. done. Qed.

Lemma files_grow_write_file path : files_grow (write_file path).
Proof. intros w r w' [= <- <-]. cbn. set_solver. Qed.

Lemma files_grow_log_QRCode level data : files_grow (log_QRCode level data).
Proof. intros w r w' [= <- <-]. done. Qed.

Lemma files_grow_bind {A B} (m : effect A) (k : A → effect B) :
  files_grow m → (∀ a, files_grow (k a)) → files_grow (m ≫= k).
Proof.
  intros Hm Hk w r w' Hrun. unfold mbind, effect_bind in Hrun.
  destruct (m w) as [[a|e] w1] eqn:Hmw; specialize (Hm _ _ _ Hmw).
  - specialize (Hk a _ _ _ Hrun). set_solver.
  - by inversion Hrun; subst.
Qed.

Lemma files_grow_try_except {A} (body : effect A) handler :
  files_grow body → (∀ e, files_grow (handler e)) → files_grow (try_except body handler).
Proof.
  intros Hb Hh w r w' Hrun. unfold try_except in Hrun.
  destruct (body w) as [[a|e] w1] eqn:Hbw; specialize (Hb _ _ _ Hbw).
  - by inversion Hrun; subst.
  - specialize (Hh e _ _ _ Hrun). set_solver.
Qed.

Lemma files_grow_commit env self_id user added created :
  files_grow (commit env self_id user added created).
Proof. intros w r w' Hrun. unfold commit in Hrun. destruct (_ && _); by inversion Hrun. Qed.

Ltac files_leaf :=
  first [ apply files_grow_ret | apply files_grow_lift | apply files_grow_raise
        | apply files_grow_write_file | apply files_grow_log_QRCode
        | apply files_grow_commit ].

Ltac files_bind := apply files_grow_bind; [|intros ?].

Section FilesGrow.
Context (lib : Library).

Lemma files_grow_generate_invoice_pdf d path : files_grow (generate_invoice_pdf lib d path).
Proof.
  unfold generate_invoice_pdf. files_bind; [files_leaf|].
  destruct (build_invoice lib d a path); files_leaf.
Qed.

Lemma files_grow_generate_resume_pdf d path : files_grow (generate_resume_pdf lib d path).
Proof. unfold generate_resume_pdf. destruct (build_resume lib d path); files_leaf. Qed.

Lemma files_grow_generate_certificate_pdf d path :
  files_grow (generate_certificate_pdf lib d path).
Proof.
  unfold generate_certificate_pdf. destruct (save_certificate lib d path); files_leaf.
Qed.

Lemma files_grow_generate_qr_code_2 args : files_grow (generate_qr_code_2 lib args).
Proof.
  unfold generate_qr_code_2. destruct args as [|data rest]; [files_leaf|].
  case_bool_decide; [files_leaf|].
  apply files_grow_try_except; [|intros e; files_leaf].
  unfold generate_qr_code_2_try, local_qrcode. files_bind; [files_leaf|].
  unfold QRCode. files_bind.
  { files_bind; [files_leaf|]. destruct (qr_make lib ERROR_CORRECT_M data); files_leaf. }
  files_bind; [files_leaf|]. case_bool_decide; [files_leaf|].
  files_bind; files_leaf.
Qed.

Lemma files_grow_one_certificate env self_id i c cd name :
  files_grow (one_certificate lib env self_id i c cd name).
Proof.
  unfold one_certificate, url_for_download_pending. files_bind; [files_leaf|].
  files_bind; [apply files_grow_generate_certificate_pdf|].
  files_bind; files_leaf.
Qed.

Lemma files_grow_bulk_loop env self_id c names : ∀ added,
  files_grow (bulk_loop lib env self_id c names added).
Proof.
  induction names as [|name names IH]; intros added; cbn [bulk_loop]; [files_leaf|].
  files_bind; [files_leaf|]. case_bool_decide; [apply IH|].
  files_bind; [apply files_grow_one_certificate|]. apply IH.
Qed.

Lemma files_grow_invoice_body env self_id user d :
  files_grow (invoice_body lib env self_id user d).
Proof.
  unfold invoice_body. files_bind; [apply files_grow_generate_invoice_pdf|]. files_leaf.
Qed.

Lemma files_grow_qrcode_body env self_id user data qr_data :
  files_grow (qrcode_body lib env self_id user data qr_data).
Proof.
  unfold qrcode_body. rewrite call_generate_qr_code.
  files_bind; [apply files_grow_generate_qr_code_2|].
  files_bind; files_leaf.
Qed.

Lemma files_grow_resume_body env self_id user d :
  files_grow (resume_body lib env self_id user d).
Proof.
  unfold resume_body. files_bind; [files_leaf|].
  files_bind; [apply files_grow_generate_resume_pdf|]. files_leaf.
Qed.

Lemma files_grow_certificate_body env self_id user is_bulk c :
  files_grow (certificate_body lib env self_id user is_bulk c).
Proof.
  unfold certificate_body. files_bind; [|files_leaf].
  destruct (truthy is_bulk && negb (bool_decide (bulk_names c = []))).
  - apply files_grow_bulk_loop.
  - files_bind; [apply files_grow_one_certificate|]. files_leaf.
Qed.

Lemma try_or_rollback_files body w :
  files_grow body → files w ⊆ files (snd (try_or_rollback body w)).
Proof.
  intros Hbody. unfold try_or_rollback.
  destruct (body w) as [[rows|e] w1] eqn:Hrun; specialize (Hbody _ _ _ Hrun); done.
Qed.

Lemma handle_files c w : files w ⊆ files (snd (handle lib c w)).
Proof.
  rewrite handle_gate_act.
  destruct (quota_gate (call_env c) (call_user c) w) as [r|user]; [done|].
  unfold act. destruct (call_request c) as [d|data|d|is_bulk form].
  - apply try_or_rollback_files, files_grow_invoice_body.
  - unfold qrcode_act. destruct (qr_extract lib data); [|done].
    apply try_or_rollback_files, files_grow_qrcode_body.
  - apply try_or_rollback_files, files_grow_resume_body.
  - unfold certificate_act.
    destruct (truthy is_bulk && negb (is_premium user (now (call_env c)))); [done|].
    apply try_or_rollback_files, files_grow_certificate_body.
Qed.

End FilesGrow.

(** ** What a generation request changes *)

(** X4: whatever a generation request does, the ledger is only appended to,
    by the rows the reply reports, all owned by the requesting user and
    created at the request's time; no other user's row of [User] changes; the
    requesting user's plan and expiry stay and the counter grows by the
    number of those rows; no user appears or disappears; no file is removed;
    and a request that does not succeed leaves both tables as they were. *)
Theorem generation_frame (lib : Library) (c : call) (w : world) :
  documents (snd (handle lib c w)) = documents w ++ rows_of (fst (handle lib c w))
  ∧ Forall (fun d => user_id d = call_user c ∧ created_at d = Some (now (call_env c)))
      (rows_of (fst (handle lib c w)))
  ∧ (∀ other, other ≠ call_user c →
       users (snd (handle lib c w)) !! other = users w !! other)
  ∧ (∀ u, users w !! call_user c = Some u →
       ∃ u', users (snd (handle lib c w)) !! call_user c = Some u'
             ∧ subscription_plan u' = subscription_plan u
             ∧ subscription_expires u' = subscription_expires u
             ∧ documents_created u'
               = documents_created u + Z.of_nat (length (rows_of (fst (handle lib c w)))))
  ∧ dom (users (snd (handle lib c w))) = dom (users w)
  ∧ files w ⊆ files (snd (handle lib c w))
  ∧ (is_success (fst (handle lib c w)) = false →
       users (snd (handle lib c w)) = users w
       ∧ documents (snd (handle lib c w)) = documents w).
Proof.
  assert (files w ⊆ files (snd (handle lib c w))) as Hfiles by apply handle_files.
  destruct (handle_settled lib c w)
    as [(user & rows & Hresp & Huser & [Hdocs Hown Hcreated Husers _] & _)|[Hfail [Hu Hd]]].
  - rewrite Hresp. cbn [rows_of is_success].
    assert (users (snd (handle lib c w)) !! call_user c
            = Some (set_documents_created
                      (documents_created user + Z.of_nat (length rows)) user)) as Hself.
    { rewrite Husers. case_bool_decide as Hz.
      - rewrite Huser, Hz, Z.add_0_r. by destruct user.
      - by rewrite lookup_alter_eq, Huser. }
    split; [done|]. split.
    { apply Forall_forall. intros d Hd. split.
      - by apply (proj1 (Forall_forall _ _) Hown).
      - by apply (proj1 (Forall_forall _ _) Hcreated). }
    split.
    { intros other Hne. rewrite Husers. case_bool_decide; [done|].
      by apply lookup_alter_ne. }
    split.
    { intros u Hu. rewrite Huser in Hu. inversion Hu; subst u. eexists. split; [exact Hself|].
      done. }
    split; [|split; [done|discriminate]].
    rewrite Husers. case_bool_decide; [done|]. apply dom_alter_L.
  - assert (rows_of (fst (handle lib c w)) = []) as ->.
    { by destruct (fst (handle lib c w)). }
    rewrite Hu, Hd, app_nil_r. split; [done|]. split; [constructor|].
    split; [done|]. split; [|done].
    intros u Hu'. exists u. rewrite Hu'. split; [done|]. split; [done|]. split; [done|].
    cbn. lia.
Qed.

(** ** Downloads *)





(** ** Generated files and their download *)

Section Artifacts.
Context (lib : Library).

Lemma commit_Ok env self_id user added created w rows w' :
  commit env self_id user added created w = (Ok rows, w') →
  rows = imap (insert_row env) added ∧ files w' = files w
  ∧ documents w' = documents w ++ rows ∧ uuids_unique (documents w) rows.
Proof.
  unfold commit. destruct (bool_decide _ && _) eqn:Hok; [|discriminate].
  apply andb_prop in Hok as [Huniq%bool_decide_eq_true _]. by intros [= <- <-].
Qed.

Lemma imap_insert_row_files env added (fs : gset string) :
  Forall (fun d => new_file_path d ∈ fs) added →
  Forall (fun row => file_path row ∈ fs) (imap (insert_row env) added).
Proof.
  intros H. apply Forall_forall. intros row Hrow.
  apply list_elem_of_lookup in Hrow as [i Hi]. rewrite list_lookup_imap in Hi.
  destruct (added !! i) as [d|] eqn:Hd; [|discriminate].
  inversion Hi; subst; cbn. by eapply (Forall_lookup_1 _ _ _ _ H).
Qed.

Lemma invoice_body_files env self_id user d w rows w' :
  invoice_body lib env self_id user d w = (Ok rows, w') →
  Forall (fun row => file_path row ∈ files w') rows.
Proof.
  unfold invoice_body, generate_invoice_pdf, mbind, effect_bind, lift.
  destruct (invoice_figures lib d) as [f|]; [|discriminate].
  destruct (build_invoice lib d f _); [|discriminate]. cbn.
  intros (-> & -> & _)%commit_Ok. apply imap_insert_row_files.
  constructor; [|done]. cbn. set_solver.
Qed.

Lemma resume_body_files env self_id user d w rows w' :
  resume_body lib env self_id user d w = (Ok rows, w') →
  Forall (fun row => file_path row ∈ files w') rows.
Proof.
  unfold resume_body, generate_resume_pdf, mbind, effect_bind, lift.
  destruct (replace_space (full_name d)) as [n|]; [|discriminate].
  destruct (build_resume lib d _); [|discriminate]. cbn.
  intros (-> & -> & _)%commit_Ok. apply imap_insert_row_files.
  constructor; [|done]. cbn. set_solver.
Qed.

Lemma one_certificate_file env self_id i c cd name w document w' :
  one_certificate lib env self_id i c cd name w = (Ok document, w') →
  new_file_path document ∈ files w'.
Proof.
  unfold one_certificate, generate_certificate_pdf, url_for_download_pending,
    mbind, effect_bind, lift.
  destruct (replace_space name) as [n|]; [|discriminate].
  destruct (save_certificate lib cd _); discriminate.
Qed.

Lemma bulk_loop_files env self_id c names : ∀ added w added' w',
  bulk_loop lib env self_id c names added w = (Ok added', w') →
  Forall (fun d => new_file_path d ∈ files w) added →
  Forall (fun d => new_file_path d ∈ files w') added'.
Proof.
  induction names as [|name names IH]; intros added w added' w'; cbn [bulk_loop].
  { by intros [= <- <-]. }
  unfold mbind at 1, effect_bind at 1, lift at 1.
  destruct (strip name) as [stripped|]; [|discriminate].
  case_bool_decide; [apply IH|].
  unfold mbind at 1, effect_bind at 1.
  destruct (one_certificate lib env self_id (length added) c _ name w)
    as [[document|e] w1] eqn:Hone; [|discriminate].
  intros Hrun Hadded. eapply IH; [exact Hrun|].
  pose proof (files_grow_one_certificate lib _ _ _ _ _ _ _ _ _ Hone) as Hgrow.
  apply Forall_app. split.
  - eapply Forall_impl; [exact Hadded|]. cbn. set_solver.
  - constructor; [|done]. by eapply one_certificate_file.
Qed.

Lemma certificate_body_files env self_id user is_bulk c w rows w' :
  certificate_body lib env self_id user is_bulk c w = (Ok rows, w') →
  Forall (fun row => file_path row ∈ files w') rows.
Proof.
  unfold certificate_body. unfold mbind at 1, effect_bind at 1.
  destruct (truthy is_bulk && negb (bool_decide (bulk_names c = []))).
  - destruct (bulk_loop lib env self_id c (bulk_names c) [] w) as [[added|e] w1] eqn:Hloop;
      [|discriminate].
    intros (-> & -> & _)%commit_Ok. apply imap_insert_row_files.
    eapply bulk_loop_files; [exact Hloop|done].
  - unfold mbind at 1, effect_bind at 1.
    destruct (one_certificate lib env self_id 0 c c (recipient_name c) w)
      as [[document|e] w1] eqn:Hone; [|discriminate].
    cbn. intros (-> & -> & _)%commit_Ok. apply imap_insert_row_files.
    constructor; [|done]. by eapply one_certificate_file.
Qed.

Lemma try_or_rollback_Success body w rows w' :
  try_or_rollback body w = (Success rows, w') → body w = (Ok rows, w').
Proof.
  unfold try_or_rollback. destruct (body w) as [[rows'|e] w1]; [|discriminate].
  by intros [= <- <-].
Qed.

Lemma handle_files_exist c w rows w' :
  handle lib c w = (Success rows, w') →
  is_qrcode (call_request c) = false →
  Forall (fun row => file_path row ∈ files w') rows.
Proof.
  rewrite handle_gate_act.
  destruct (quota_gate (call_env c) (call_user c) w) as [r|user] eqn:Hgate.
  { intros [= -> <-]. by apply quota_gate_inl in Hgate. }
  unfold act. destruct (call_request c) as [d|data|d|is_bulk form]; [|done| |].
  - intros Hrun%try_or_rollback_Success _. by eapply invoice_body_files.
  - intros Hrun%try_or_rollback_Success _. by eapply resume_body_files.
  - unfold certificate_act.
    destruct (truthy is_bulk && negb (is_premium user (now (call_env c)))); [discriminate|].
    intros Hrun%try_or_rollback_Success _. by eapply certificate_body_files.
Qed.

End Artifacts.

(** X6: when an invoice, resume or certificate request succeeds, the file
    of every row it committed is on disk under the row's [file_path]. *)
Theorem generated_files_exist (lib : Library) (c : call) (w : world) :
  is_qrcode (call_request c) = false →
  Forall (fun row => file_path row ∈ files (snd (handle lib c w)))
    (rows_of (fst (handle lib c w))).
Proof.
  intros Hkind. destruct (handle lib c w) as [resp w'] eqn:Hrun.
  destruct resp as [rows| | |]; try constructor.
  cbn [fst snd rows_of]. by eapply handle_files_exist.
Qed.

Lemma generated_files_exist_witness :
  is_qrcode (call_request (invoice_call "a")) = false
  ∧ Forall (fun row => file_path row
                       ∈ files (snd (handle working_library (invoice_call "a") four_in_may)))
      (rows_of (fst (handle working_library (invoice_call "a") four_in_may))).
Proof.
  split; [reflexivity|].
  exact (generated_files_exist working_library (invoice_call "a") four_in_may eq_refl).
Defined.

Lemma handle_Success lib c w rows w' :
  handle lib c w = (Success rows, w') →
  ∃ user, users w !! call_user c = Some user
          ∧ committed (call_env c) (call_user c) user w w' rows.
Proof.
  intros Hrun. pose proof (handle_settled lib c w) as Hs. rewrite Hrun in Hs.
  destruct Hs as [(user & rows' & [= <-] & Hu & Hc & _)|[? _]]; [eauto|done].
Qed.

Lemma committed_user_exists env self_id user w w' rows :
  users w !! self_id = Some user → committed env self_id user w w' rows →
  is_Some (users w' !! self_id).
Proof.
  intros Hu [_ _ _ Husers _]. rewrite Husers. case_bool_decide; [by rewrite Hu|].
  rewrite lookup_alter_eq, Hu. by eexists.
Qed.

Lemma find_document_appended docs rows row self_id :
  row ∈ rows → user_id row = self_id → uuids_unique docs rows →
  ∃ i, find_document (uuid row) self_id (docs ++ rows) = Some (i, row).
Proof.
  intros [k Hk]%list_elem_of_lookup Hown [Hnd Hfresh].
  exists (length docs + k)%nat. apply list_find_Some. split; [|split; [done|]].
  { rewrite lookup_app_r by lia. by replace (length docs + k - length docs)%nat with k by lia. }
  intros j y Hj Hlt [Hu _].
  destruct (decide (j < length docs)%nat) as [Hin|Hout].
  - rewrite lookup_app_l in Hj by done.
    apply (proj1 (Forall_forall _ _) Hfresh row); [by eapply list_elem_of_lookup_2|].
    rewrite <- Hu. apply list_elem_of_fmap_2. by eapply list_elem_of_lookup_2.
  - rewrite lookup_app_r in Hj by lia.
    assert ((uuid <$> rows) !! (j - length docs)%nat = Some (uuid row)) as H1.
    { by rewrite list_lookup_fmap, Hj, <- Hu. }
    assert ((uuid <$> rows) !! k = Some (uuid row)) as H2.
    { by rewrite list_lookup_fmap, Hk. }
    pose proof (NoDup_lookup _ _ _ _ Hnd H1 H2). lia.
Qed.

Lemma find_document_stranger docs rows row self_id other :
  other ≠ self_id → Forall (fun d => user_id d = self_id) rows →
  row ∈ rows → uuids_unique docs rows →
  find_document (uuid row) other (docs ++ rows) = None.
Proof.
  intros Hne Hown Hrow [_ Hfresh]. apply list_find_None, Forall_forall.
  intros y [Hy|Hy]%elem_of_app [Hu Ho].
  - apply (proj1 (Forall_forall _ _) Hfresh row Hrow).
    rewrite <- Hu. by apply list_elem_of_fmap_2.
  - apply Hne. rewrite <- Ho. by apply (proj1 (Forall_forall _ _) Hown).
Qed.

(** X7: every document an invoice, resume or certificate request has
    committed can be downloaded at once by its owner under the identifier of
    the row, and the file is sent; the same identifier presented by any other
    user is answered NotFound (or fails, when that user does not exist) and
    never sends the file. *)
Theorem generated_documents_downloadable (lib : Library) (c : call) (w : world) :
  is_qrcode (call_request c) = false →
  Forall (fun row =>
            fst (download_document (call_user c) (uuid row) (snd (handle lib c w)))
            = Sent (count_download row)
            ∧ ∀ other, other ≠ call_user c →
                fst (download_document other (uuid row) (snd (handle lib c w))) = NotFound
                ∨ fst (download_document other (uuid row) (snd (handle lib c w)))
                  = DownloadUnhandled AttributeError)
    (rows_of (fst (handle lib c w))).
Proof.
  intros Hkind. destruct (handle lib c w) as [resp w'] eqn:Hrun.
  destruct resp as [rows| | |]; try constructor. cbn [fst snd rows_of].
  pose proof (handle_files_exist lib c w rows w' Hrun Hkind) as Hfiles.
  apply handle_Success in Hrun as (user & Huser & Hc).
  pose proof (committed_user_exists _ _ _ _ _ _ Huser Hc) as [user' Huser'].
  destruct Hc as [Hdocs Hown _ _ Huniq].
  apply Forall_forall. intros row Hrow. split.
  - destruct (find_document_appended (documents w) rows row (call_user c) Hrow) as [i Hfind];
      [by apply (proj1 (Forall_forall _ _) Hown)|done|].
    unfold download_document, get_current_user. rewrite Huser', Hdocs, Hfind.
    rewrite bool_decide_eq_true_2; [done|].
    by apply (proj1 (Forall_forall _ _) Hfiles).
  - intros other Hne. unfold download_document, get_current_user.
    destruct (users w' !! other); [|by right].
    rewrite Hdocs, (find_document_stranger _ _ _ (call_user c)) by done. by left.
Qed.

Lemma generated_documents_downloadable_witness :
  is_qrcode (call_request (invoice_call "a")) = false
  ∧ Forall (fun row =>
              fst (download_document 1 (uuid row)
                     (snd (handle working_library (invoice_call "a") four_in_may)))
              = Sent (count_download row)
              ∧ ∀ other, other ≠ 1 →
                  fst (download_document other (uuid row)
                         (snd (handle working_library (invoice_call "a") four_in_may)))
                  = NotFound
                  ∨ fst (download_document other (uuid row)
                           (snd (handle working_library (invoice_call "a") four_in_may)))
                    = DownloadUnhandled AttributeError)
      (rows_of (fst (handle working_library (invoice_call "a") four_in_may))).
Proof.
  split; [reflexivity|].
  exact (generated_documents_downloadable working_library (invoice_call "a") four_in_may
           eq_refl).
Defined.

Lemma qrcode_generator_files lib env self_id data w :
  files (snd (qrcode_generator lib env self_id data w)) = files w.
Proof.
  unfold qrcode_generator.
  destruct (quota_gate env self_id w) as [r|user]; [done|].
  unfold qrcode_act. destruct (qr_extract lib data) as [qr_data|e]; [|done].
  unfold try_or_rollback, qrcode_body. rewrite call_generate_qr_code.
  unfold mbind at 1, effect_bind at 1. rewrite generate_qr_code_2_from_tools.
  unfold mbind, effect_bind, lift.
  destruct (Py.title (qr_type qr_data)); [|done].
  unfold commit. by destruct (_ && _).
Qed.

(** X8: no QR code request ever writes a file, so the row a successful QR
    request commits cannot be downloaded: unless a file already lay at the
    row's path, the owner's download of it at once is answered 'File not
    found on server'. *)
Theorem qrcode_never_downloadable (lib : Library) (env : Env) (self_id : Z)
    (data : dict) (w : world) :
  files (snd (qrcode_generator lib env self_id data w)) = files w
  ∧ Forall (fun row =>
              file_path row ∉ files w →
              fst (download_document self_id (uuid row)
                     (snd (qrcode_generator lib env self_id data w)))
              = FileNotFound)
      (rows_of (fst (qrcode_generator lib env self_id data w))).
Proof.
  split; [apply qrcode_generator_files|].
  pose proof (qrcode_generator_files lib env self_id data w) as Hfiles.
  change (qrcode_generator lib env self_id data w)
    with (handle lib {| call_env := env; call_user := self_id;
                        call_request := PostQrcode data |} w) in *.
  destruct (handle lib _ w) as [resp w'] eqn:Hrun.
  destruct resp as [rows| | |]; try constructor. cbn [fst snd rows_of] in *.
  apply handle_Success in Hrun as (user & Huser & Hc). cbn [call_user call_env] in *.
  pose proof (committed_user_exists _ _ _ _ _ _ Huser Hc) as [user' Huser'].
  destruct Hc as [Hdocs Hown _ _ Huniq].
  apply Forall_forall. intros row Hrow Hmissing.
  destruct (find_document_appended (documents w) rows row self_id Hrow) as [i Hfind];
    [by apply (proj1 (Forall_forall _ _) Hown)|done|].
  unfold download_document, get_current_user. rewrite Huser', Hdocs, Hfind, Hfiles.
  by rewrite bool_decide_eq_false_2.
Qed.

Example qrcode_then_download :
  fst (download_document 1 "uuid-a-0"
         (snd (qrcode_generator working_library (may_20 "a") 1 qr_text_H new_user_world)))
  = FileNotFound
  ∧ (downloaded_count <$> documents
       (snd (download_document 1 "uuid-a-0"
               (snd (qrcode_generator working_library (may_20 "a") 1 qr_text_H
                       new_user_world)))))
    = [1].
Proof. split; vm_compute; reflexivity. Qed.

(** ** A certificate request leaves its first PDF behind *)

Lemma bulk_loop_skips_blanks lib env self_id form blanks rest added w :
  non_blank blanks = [] →
  bulk_loop lib env self_id form ((VStr <$> blanks) ++ rest) added w
  = bulk_loop lib env self_id form rest added w.
Proof.
  induction blanks as [|name blanks IH]; [done|].
  unfold non_blank. rewrite filter_cons. fold (non_blank blanks).
  destruct (decide (str_strip name ≠ "")) as [|Hblank]; [done|]. intros Hrest.
  rewrite fmap_cons. cbn [app bulk_loop].
  unfold mbind at 1, effect_bind at 1, lift at 1. cbn [strip].
  rewrite bool_decide_eq_true_2 by (by destruct (decide (str_strip name = ""))).
  by apply IH.
Qed.

(** X9: a certificate request is all or nothing in the database and not on
    disk.  Once the quota check is passed, a bulk request of a premium user
    whose first non-blank name gives a certificate that renders, and a
    single request whose certificate renders, are answered with the 500
    error of [url_for], whatever follows in the list: no row is committed
    and no counter changes, while the PDF just rendered stays in the
    generated files folder, with no Document row that names it. *)
Theorem bulk_failure_keeps_files (lib : Library) (env : Env) (self_id : Z) (user : User)
    (w : world) (is_bulk : pyval) (form : CertificateData) :
  quota_gate env self_id w = inr user →
  (∀ blanks name post,
     truthy is_bulk = true →
     is_premium user (now env) = true →
     bulk_names form = (VStr <$> blanks) ++ VStr name :: post →
     non_blank blanks = [] →
     str_strip name ≠ "" →
     save_certificate lib (with_recipient form (VStr (str_strip name)))
       (new_file_path (bulk_document env self_id form 0 name)) = true →
     ∃ w', certificate_creator lib env self_id is_bulk form w
           = (Failed (LibraryError "url_for"), w')
           ∧ users w' = users w
           ∧ documents w' = documents w
           ∧ files w' = {[ new_file_path (bulk_document env self_id form 0 name) ]} ∪ files w)
  ∧ (∀ name,
       truthy is_bulk = false →
       recipient_name form = VStr name →
       save_certificate lib (with_bulk_names form [])
         (new_file_path (bulk_document env self_id form 0 name)) = true →
       ∃ w', certificate_creator lib env self_id is_bulk form w
             = (Failed (LibraryError "url_for"), w')
             ∧ users w' = users w
             ∧ documents w' = documents w
             ∧ files w' = {[ new_file_path (bulk_document env self_id form 0 name) ]} ∪ files w).
Proof.
  intros Hgate. split.
  - intros blanks name post Hbulk Hprem Hnames Hblanks Hname Hrenders.
    unfold certificate_creator. rewrite Hgate.
    unfold certificate_act. rewrite Hbulk, Hprem. cbn [andb negb].
    rewrite with_bulk_names_same.
    unfold try_or_rollback, certificate_body. rewrite Hbulk, Hnames.
    rewrite bool_decide_eq_false_2 by (by destruct blanks). cbn [andb negb].
    unfold mbind at 1, effect_bind at 1.
    rewrite bulk_loop_skips_blanks by done. cbn [bulk_loop].
    unfold mbind at 1, effect_bind at 1, lift at 1. cbn [strip].
    rewrite bool_decide_eq_false_2 by done.
    unfold mbind at 1, effect_bind at 1. cbn [length].
    rewrite one_certificate_run, Hrenders. by eexists.
  - intros name Hsingle Hrecipient Hrenders.
    unfold certificate_creator. rewrite Hgate.
    unfold certificate_act. rewrite Hsingle. cbn [andb].
    unfold try_or_rollback, certificate_body. rewrite Hsingle. cbn [andb].
    unfold mbind at 1, effect_bind at 1. unfold mbind at 1, effect_bind at 1.
    cbn [recipient_name with_bulk_names]. rewrite Hrecipient.
    rewrite one_certificate_run.
    change (new_file_path (bulk_document env self_id (with_bulk_names form []) 0 name))
      with (new_file_path (bulk_document env self_id form 0 name)).
    rewrite Hrenders. by eexists.
Qed.

Lemma bulk_failure_keeps_files_witness :
  quota_gate (may_20 "c") 2 certificate_world = inr (premium_user 0 (at_noon 2025 1 1))
  ∧ non_blank [" "; ""] = []
  ∧ str_strip "Alice" ≠ ""
  ∧ ∃ w', certificate_creator working_library (may_20 "c") 2 (VBool true)
            (certificate_form VNone
               ((VStr <$> [" "; ""]) ++ VStr "Alice" :: [VNone; VStr "Bob"]))
            certificate_world
          = (Failed (LibraryError "url_for"), w')
          ∧ users w' = users certificate_world
          ∧ documents w' = documents certificate_world
          ∧ files w'
            = {[ new_file_path
                   (bulk_document (may_20 "c") 2
                      (certificate_form VNone
                         ((VStr <$> [" "; ""]) ++ VStr "Alice" :: [VNone; VStr "Bob"]))
                      0 "Alice") ]}
              ∪ files certificate_world.
Proof.
  assert (quota_gate (may_20 "c") 2 certificate_world
          = inr (premium_user 0 (at_noon 2025 1 1))) as Hgate
    by (vm_compute; reflexivity).
  assert (non_blank [" "; ""] = []) as Hblanks by (vm_compute; reflexivity).
  assert (str_strip "Alice" ≠ "") as Hname by (vm_compute; discriminate).
  split; [exact Hgate|]. split; [exact Hblanks|]. split; [exact Hname|].
  refine (proj1 (bulk_failure_keeps_files working_library (may_20 "c") 2
                   (premium_user 0 (at_noon 2025 1 1)) certificate_world (VBool true)
                   (certificate_form VNone
                      ((VStr <$> [" "; ""]) ++ VStr "Alice" :: [VNone; VStr "Bob"]))
                   Hgate)
            [" "; ""] "Alice" [VNone; VStr "Bob"] eq_refl _ eq_refl Hblanks Hname eq_refl).
  vm_compute. reflexivity.
Defined.

(** ** File names *)

Lemma append_length (a b : string) :
  String.length (a +:+ b) = (String.length a + String.length b)%nat.
Proof.
  induction a as [|c a IH]; [done|].
  change (String c a +:+ b) with (String c (a +:+ b)). cbn. by rewrite IH.
Qed.

Lemma append_inj_prefix (a b x y : string) :
  String.length a = String.length b → a +:+ x = b +:+ y → a = b ∧ x = y.
Proof.
  revert b. induction a as [|c a IH]; intros [|d b] Hlen Heq; try discriminate.
  - done.
  - change (String c (a +:+ x) = String d (b +:+ y)) in Heq.
    cbn in Hlen. injection Heq as -> Heq.
    destruct (IH b) as [-> ->]; [lia|done|done].
Qed.

Lemma append_inj_suffix (a b x y : string) :
  String.length x = String.length y → a +:+ x = b +:+ y → a = b ∧ x = y.
Proof.
  intros Hlen Heq. apply append_inj_prefix; [|done].
  apply (f_equal String.length) in Heq. rewrite !append_length in Heq. lia.
Qed.

Lemma token_named_inj env1 env2 path :
  token_named env1 path → token_named env2 path →
  (∀ i j, String.length (token env1 i) = String.length (token env2 j)) →
  ∃ i j, token env1 i = token env2 j.
Proof.
  intros (b1 & i & ->) (b2 & j & Heq) Hlen. exists i, j.
  unfold path_join in Heq. do 2 apply String.app_inj in Heq.
  apply append_inj_suffix in Heq as [_ Heq].
  - apply (String.app_inj "_") in Heq. by apply append_inj_suffix in Heq as [? _].
  - by rewrite !append_length, (Hlen i j).
Qed.

Section Names.
Context (lib : Library).

Lemma imap_insert_row_named env (P : string → Prop) added :
  Forall (fun d => P (new_file_path d)) added →
  Forall (fun row => P (file_path row)) (imap (insert_row env) added).
Proof.
  intros H. apply Forall_forall. intros row Hrow.
  apply list_elem_of_lookup in Hrow as [i Hi]. rewrite list_lookup_imap in Hi.
  destruct (added !! i) as [d|] eqn:Hd; [|discriminate].
  inversion Hi; subst; cbn. by eapply (Forall_lookup_1 _ _ _ _ H).
Qed.

Lemma invoice_body_named env self_id user d w rows w' :
  invoice_body lib env self_id user d w = (Ok rows, w') →
  Forall (fun row => token_named env (file_path row)) rows.
Proof.
  unfold invoice_body, generate_invoice_pdf, mbind, effect_bind, lift.
  destruct (invoice_figures lib d) as [f|]; [|discriminate].
  destruct (build_invoice lib d f _); [|discriminate]. cbn.
  intros (-> & _)%commit_Ok. apply imap_insert_row_named.
  constructor; [|done]. cbn.
  exists ("invoice_" +:+ py_str lib (invoice_number d)), 0%nat. done.
Qed.

Lemma one_certificate_named env self_id i c cd name w document w' :
  one_certificate lib env self_id i c cd name w = (Ok document, w') →
  token_named env (new_file_path document).
Proof.
  unfold one_certificate, generate_certificate_pdf, url_for_download_pending,
    mbind, effect_bind, lift.
  destruct (replace_space name) as [n|]; [|discriminate].
  destruct (save_certificate lib cd _); discriminate.
Qed.

Lemma bulk_loop_named env self_id c names : ∀ added w added' w',
  bulk_loop lib env self_id c names added w = (Ok added', w') →
  Forall (fun d => token_named env (new_file_path d)) added →
  Forall (fun d => token_named env (new_file_path d)) added'.
Proof.
  induction names as [|name names IH]; intros added w added' w'; cbn [bulk_loop].
  { by intros [= <- <-]. }
  unfold mbind at 1, effect_bind at 1, lift at 1.
  destruct (strip name) as [stripped|]; [|discriminate].
  case_bool_decide; [apply IH|].
  unfold mbind at 1, effect_bind at 1.
  destruct (one_certificate lib env self_id (length added) c _ name w)
    as [[document|e] w1] eqn:Hone; [|discriminate].
  intros Hrun Hadded. eapply IH; [exact Hrun|].
  apply Forall_app. split; [done|]. constructor; [|done]. by eapply one_certificate_named.
Qed.

Lemma certificate_body_named env self_id user is_bulk c w rows w' :
  certificate_body lib env self_id user is_bulk c w = (Ok rows, w') →
  Forall (fun row => token_named env (file_path row)) rows.
Proof.
  unfold certificate_body. unfold mbind at 1, effect_bind at 1.
  destruct (truthy is_bulk && negb (bool_decide (bulk_names c = []))).
  - destruct (bulk_loop lib env self_id c (bulk_names c) [] w) as [[added|e] w1] eqn:Hloop;
      [|discriminate].
    intros (-> & _)%commit_Ok. apply imap_insert_row_named.
    eapply bulk_loop_named; [exact Hloop|done].
  - unfold mbind at 1, effect_bind at 1.
    destruct (one_certificate lib env self_id 0 c c (recipient_name c) w)
      as [[document|e] w1] eqn:Hone; [|discriminate].
    cbn. intros (-> & _)%commit_Ok. apply imap_insert_row_named.
    constructor; [|done]. by eapply one_certificate_named.
Qed.

Lemma handle_named c w :
  is_token_pdf (call_request c) = true →
  Forall (fun row => token_named (call_env c) (file_path row))
    (rows_of (fst (handle lib c w))).
Proof.
  intros Hkind. destruct (handle lib c w) as [resp w'] eqn:Hrun.
  destruct resp as [rows| | |]; try constructor. cbn [fst rows_of].
  revert Hrun. rewrite handle_gate_act.
  destruct (quota_gate (call_env c) (call_user c) w) as [r|user] eqn:Hgate.
  { intros [= -> <-]. by apply quota_gate_inl in Hgate. }
  unfold act. destruct (call_request c) as [d|data|d|is_bulk form]; try done.
  - intros Hrun%try_or_rollback_Success. by eapply invoice_body_named.
  - unfold certificate_act.
    destruct (truthy is_bulk && negb (is_premium user (now (call_env c)))); [discriminate|].
    intros Hrun%try_or_rollback_Success. by eapply certificate_body_named.
Qed.

End Names.

(** X10: the files of invoice and certificate requests never collide.
    When the tokens (uuid4().hex[:8]) two requests draw have the same length
    and no token of one is a token of the other, no row committed by one
    request has the file path of a row committed by the other, whatever
    invoice number or recipient names the callers put into the file names:
    a later request cannot overwrite the PDF of an earlier one. *)
Theorem pdf_paths_distinct (lib : Library) (c1 c2 : call) (w1 w2 : world)
    (r1 r2 : Document) :
  is_token_pdf (call_request c1) = true →
  is_token_pdf (call_request c2) = true →
  (∀ i j, String.length (token (call_env c1) i) = String.length (token (call_env c2) j)) →
  (∀ i j, token (call_env c1) i ≠ token (call_env c2) j) →
  r1 ∈ rows_of (fst (handle lib c1 w1)) →
  r2 ∈ rows_of (fst (handle lib c2 w2)) →
  file_path r1 ≠ file_path r2.
Proof.
  intros Hk1 Hk2 Hlen Hne Hr1 Hr2 Heq.
  pose proof (proj1 (Forall_forall _ _) (handle_named lib c1 w1 Hk1) r1 Hr1) as Hn1.
  pose proof (proj1 (Forall_forall _ _) (handle_named lib c2 w2 Hk2) r2 Hr2) as Hn2.
  cbn in Hn1, Hn2. rewrite <- Heq in Hn2.
  destruct (token_named_inj _ _ _ Hn1 Hn2 Hlen) as (i & j & Htok). by apply (Hne i j).
Qed.

Lemma pdf_paths_distinct_witness :
  is_token_pdf (call_request (invoice_call_with "0a1b2c3d")) = true
  ∧ is_token_pdf (call_request (invoice_call_with "4e5f6a7b")) = true
  ∧ ∃ r1 r2,
      r1 ∈ rows_of (fst (handle working_library (invoice_call_with "0a1b2c3d") new_user_world))
      ∧ r2 ∈ rows_of (fst (handle working_library (invoice_call_with "4e5f6a7b")
                             new_user_world))
      ∧ file_path r1 ≠ file_path r2.
Proof.
  split; [reflexivity|]. split; [reflexivity|].
  destruct (rows_of (fst (handle working_library (invoice_call_with "0a1b2c3d")
                            new_user_world))) as [|r1 ?] eqn:H1; [by vm_compute in H1|].
  destruct (rows_of (fst (handle working_library (invoice_call_with "4e5f6a7b")
                            new_user_world))) as [|r2 ?] eqn:H2; [by vm_compute in H2|].
  exists r1, r2. split; [left|]. split; [left|].
  apply (pdf_paths_distinct working_library (invoice_call_with "0a1b2c3d")
           (invoice_call_with "4e5f6a7b") new_user_world new_user_world r1 r2
           eq_refl eq_refl).
  - intros i j. reflexivity.
  - intros i j. discriminate.
  - rewrite H1. left.
  - rewrite H2. left.
Defined.

Lemma append_assoc (a b c : string) : (a +:+ b) +:+ c = a +:+ (b +:+ c).
Proof.
  induction a as [|x a IH]; [done|].
  change (String x ((a +:+ b) +:+ c) = String x (a +:+ (b +:+ c))). by rewrite IH.
Qed.

Lemma str_map_append f (a b : string) :
  Py.str_map f (a +:+ b) = Py.str_map f a +:+ Py.str_map f b.
Proof.
  induction a as [|x a IH]; [done|].
  change (String (f x) (Py.str_map f (a +:+ b))
          = String (f x) (Py.str_map f a +:+ Py.str_map f b)). by rewrite IH.
Qed.

Lemma resume_body_path lib env self_id user d w rows w' :
  resume_body lib env self_id user d w = (Ok rows, w') →
  ∃ name, Py.replace_space (full_name d) = Ok name
          ∧ Forall (fun row =>
                      file_path row
                      = path_join GENERATED_FILES_FOLDER
                          ("resume_" +:+ name +:+ "_" +:+ token env 0
                           +:+ "." +:+ py_str lib (resume_format d))) rows.
Proof.
  unfold resume_body, generate_resume_pdf, mbind, effect_bind, lift.
  destruct (Py.replace_space (full_name d)) as [n|]; [|discriminate].
  destruct (build_resume lib d _); [|discriminate]. cbn.
  intros (-> & _)%commit_Ok. exists n. split; [done|]. by repeat constructor.
Qed.

Lemma resume_builder_path lib env self_id d w :
  ∀ row, row ∈ rows_of (fst (resume_builder lib env self_id d w)) →
  ∃ name, Py.replace_space (full_name d) = Ok name
          ∧ file_path row
            = path_join GENERATED_FILES_FOLDER
                ("resume_" +:+ name +:+ "_" +:+ token env 0
                 +:+ "." +:+ py_str lib (resume_format d)).
Proof.
  intros row. unfold resume_builder.
  destruct (quota_gate env self_id w) as [r|user] eqn:Hgate.
  { apply quota_gate_inl in Hgate. destruct r; [done|by intros ?%elem_of_nil..]. }
  destruct (try_or_rollback _ w) as [resp w'] eqn:Hrun.
  destruct resp as [rows| | |]; cbn [fst rows_of]; try by intros ?%elem_of_nil.
  apply try_or_rollback_Success, resume_body_path in Hrun as (name & Hname & Hall).
  intros Hrow. exists name. split; [done|]. by apply (proj1 (Forall_forall _ _) Hall).
Qed.

(** X11: the files of resume requests can collide although the tokens
    differ.  The file name of a resume is
    resume_<name>_<token>.<format> with name and format both taken from the
    request, so for any two requests whose first token has no space, and
    whatever the other fields of the two forms are, there are a name and a
    format for each that give both requests the same file path: the request
    served later overwrites the resume of the earlier one, whose Document row
    keeps pointing at the path. *)
Theorem resume_paths_collide (lib : Library) (base1 base2 : ResumeData)
    (env1 env2 : Env) (self1 self2 : Z) (w1 w2 : world) (r1 r2 : Document) :
  Py.str_replace_space (token env1 0) = token env1 0 →
  r1 ∈ rows_of (fst (resume_builder lib env1 self1
                       (fst (colliding_resumes base1 base2 env1 env2)) w1)) →
  r2 ∈ rows_of (fst (resume_builder lib env2 self2
                       (snd (colliding_resumes base1 base2 env1 env2)) w2)) →
  file_path r1 = file_path r2.
Proof.
  intros Htok (n1 & Hn1 & ->)%resume_builder_path (n2 & Hn2 & ->)%resume_builder_path.
  cbn in Hn1, Hn2. injection Hn1 as <-. injection Hn2 as <-.
  unfold Py.str_replace_space in *. rewrite !str_map_append, Htok.
  cbn [py_str resume_format colliding_resumes fst snd resume_form].
  f_equal. by rewrite !append_assoc.
Qed.

Lemma resume_paths_collide_witness :
  Py.str_replace_space (token (one_token_env "0a1b2c3d" (at_noon 2024 5 20)) 0)
  = token (one_token_env "0a1b2c3d" (at_noon 2024 5 20)) 0
  ∧ ∃ r1 r2,
      r1 ∈ rows_of (fst (resume_builder working_library
                           (one_token_env "0a1b2c3d" (at_noon 2024 5 20)) 1
                           (fst (colliding_resumes example_resume example_resume
                                   (one_token_env "0a1b2c3d" (at_noon 2024 5 20))
                                   (one_token_env "4e5f6a7b" (at_noon 2024 5 20))))
                           new_user_world))
      ∧ r2 ∈ rows_of (fst (resume_builder working_library
                             (one_token_env "4e5f6a7b" (at_noon 2024 5 20)) 2
                             (snd (colliding_resumes example_resume example_resume
                                     (one_token_env "0a1b2c3d" (at_noon 2024 5 20))
                                     (one_token_env "4e5f6a7b" (at_noon 2024 5 20))))
                             certificate_world))
      ∧ file_path r1 = file_path r2
      ∧ file_path r1 = "generated_files/resume_x_0a1b2c3d.y_4e5f6a7b.pdf".
Proof.
  split; [reflexivity|].
  destruct (rows_of (fst (resume_builder working_library
                            (one_token_env "0a1b2c3d" (at_noon 2024 5 20)) 1
                            (fst (colliding_resumes example_resume example_resume
                                    (one_token_env "0a1b2c3d" (at_noon 2024 5 20))
                                    (one_token_env "4e5f6a7b" (at_noon 2024 5 20))))
                            new_user_world))) as [|r1 ?] eqn:H1; [by vm_compute in H1|].
  destruct (rows_of (fst (resume_builder working_library
                            (one_token_env "4e5f6a7b" (at_noon 2024 5 20)) 2
                            (snd (colliding_resumes example_resume example_resume
                                    (one_token_env "0a1b2c3d" (at_noon 2024 5 20))
                                    (one_token_env "4e5f6a7b" (at_noon 2024 5 20))))
                            certificate_world))) as [|r2 ?] eqn:H2; [by vm_compute in H2|].
  exists r1, r2. split; [left|]. split; [left|]. split.
  - apply (resume_paths_collide working_library example_resume example_resume
             (one_token_env "0a1b2c3d" (at_noon 2024 5 20))
             (one_token_env "4e5f6a7b" (at_noon 2024 5 20)) 1 2
             new_user_world certificate_world r1 r2 eq_refl).
    + rewrite H1. left.
    + rewrite H2. left.
  - vm_compute in H1. by injection H1 as <- _.
Defined.

(** With no address in the form the renderer fails and nothing is
    committed. *)
Example resume_without_address :
  resume_builder working_library (may_20 "a") 1
    {| full_name := VStr "Ada"; resume_sections := ∅;
       resume_template_id := VNone; resume_format := VStr "pdf" |} new_user_world
  = (Failed (LibraryError "reportlab"), new_user_world).
Proof. vm_compute. reflexivity. Qed.

(** ** The stats endpoint and the quota check *)

Lemma try_or_rollback_not_forbidden body w error :
  fst (try_or_rollback body w) ≠ Forbidden error.
Proof. unfold try_or_rollback. by destruct (body w) as [[rows|e] w1]. Qed.

Lemma act_not_quota lib c user w : fst (act lib c user w) ≠ QuotaExceeded.
Proof.
  unfold act. destruct (call_request c) as [d|data|d|is_bulk form];
    try apply try_or_rollback_not_forbidden.
  - unfold qrcode_act. destruct (qr_extract lib data); [|done].
    apply try_or_rollback_not_forbidden.
  - unfold certificate_act. destruct (_ && _); [done|].
    apply try_or_rollback_not_forbidden.
Qed.

Lemma filter_length_le {A} (P Q : A → Prop) `{∀ x, Decision (P x)} `{∀ x, Decision (Q x)}
    (l : list A) :
  (∀ x, P x → Q x) → (length (filter P l) ≤ length (filter Q l))%nat.
Proof.
  intros HPQ. induction l as [|x l IH]; [done|]. rewrite !filter_cons.
  destruct (decide (P x)) as [HP|HP].
  - rewrite decide_True by auto. cbn. lia.
  - destruct (decide (Q x)); cbn; lia.
Qed.

(** X12: what /api/user/stats reports is what the generation handlers
    do, for a reading and a request at the same clock.  If the reported
    can_create_document is false, every generation request is answered with
    the quota error and changes nothing; if it is true, no request is
    answered with the quota error.  The reported flag is is_premium or
    documents_this_month < 5, a reported is_premium implies the plan
    premium, and in a consistent ledger documents_this_month never exceeds
    documents_created. *)
Theorem stats_predict_gate (lib : Library) (c : call) (w : world) (stats : UserStats) :
  api_user_stats (now (call_env c)) (call_user c) w = Ok stats →
  (stats_can_create_document stats = false → handle lib c w = (QuotaExceeded, w))
  ∧ (stats_can_create_document stats = true → fst (handle lib c w) ≠ QuotaExceeded)
  ∧ stats_can_create_document stats
    = stats_is_premium stats || bool_decide (stats_documents_this_month stats < 5)%nat
  ∧ (stats_is_premium stats = true → stats_subscription_plan stats = "premium")
  ∧ (ledger_consistent w →
     Z.of_nat (stats_documents_this_month stats) ≤ stats_documents_created stats).
Proof.
  unfold api_user_stats, get_current_user.
  destruct (users w !! call_user c) as [user|] eqn:Huser; [|discriminate].
  intros [= <-]. cbn [stats_can_create_document stats_is_premium
                      stats_documents_this_month stats_subscription_plan
                      stats_documents_created].
  rewrite handle_gate_act. unfold quota_gate, get_current_user. rewrite Huser.
  split; [by intros ->|]. split.
  { intros ->. apply act_not_quota. }
  split.
  { unfold can_create_document. by destruct (is_premium user _). }
  split.
  { unfold is_premium. by case_bool_decide. }
  intros [Hcount _]. rewrite (Hcount _ _ Huser). apply inj_le. unfold owned_by.
  apply filter_length_le. unfold in_month_of. intros d Hd.
  apply andb_prop in Hd as [Hown _]. by apply bool_decide_eq_true in Hown.
Qed.

Lemma stats_predict_gate_witness :
  ∃ stats,
    api_user_stats (now (call_env (invoice_call "a"))) (call_user (invoice_call "a"))
      four_in_may = Ok stats
    ∧ stats_documents_this_month stats = 4%nat
    ∧ stats_can_create_document stats = true
    ∧ fst (handle working_library (invoice_call "a") four_in_may) ≠ QuotaExceeded.
Proof.
  assert (api_user_stats (now (call_env (invoice_call "a"))) (call_user (invoice_call "a"))
            four_in_may
          = Ok {| stats_documents_created := 4; stats_subscription_plan := "free";
                  stats_is_premium := false; stats_can_create_document := true;
                  stats_documents_this_month := 4 |}) as Hstats
    by (vm_compute; reflexivity).
  eexists. split; [exact Hstats|]. split; [reflexivity|]. split; [reflexivity|].
  exact (proj1 (proj2 (stats_predict_gate working_library (invoice_call "a") four_in_may
                         _ Hstats)) eq_refl).
Defined.

(** ** The dashboard's table of counts *)

Lemma count_document_insert (m : gmap string Z) (d : Document) :
  count_document m d
  = <[document_type d := default 0 (m !! document_type d) + 1]> m.
Proof.
  unfold count_document. apply map_eq. intros ty.
  destruct (m !! document_type d) as [n|] eqn:Hm; cbn;
    destruct (decide (ty = document_type d)) as [->|Hne].
  - by rewrite lookup_alter_eq, lookup_insert_eq, Hm.
  - by rewrite lookup_alter_ne, lookup_insert_ne.
  - by rewrite lookup_alter_eq, !lookup_insert_eq.
  - by rewrite lookup_alter_ne, !lookup_insert_ne.
Qed.

Lemma doc_stats_snoc (docs : list Document) (d : Document) :
  doc_stats (docs ++ [d]) = count_document (doc_stats docs) d.
Proof. unfold doc_stats. by rewrite fold_left_app. Qed.

Lemma doc_stats_lookup (docs : list Document) (ty : string) :
  doc_stats docs !! ty
  = if decide (length (filter (fun d => document_type d = ty) docs) = 0)%nat then None
    else Some (Z.of_nat (length (filter (fun d => document_type d = ty) docs))).
Proof.
  induction docs as [|d docs IH] using rev_ind; [done|].
  rewrite doc_stats_snoc, count_document_insert, filter_app, length_app, filter_cons,
    filter_nil.
  destruct (decide (document_type d = ty)) as [<-|Hne].
  - rewrite lookup_insert_eq, IH. cbn [length].
    repeat case_decide; try lia; cbn; f_equal; lia.
  - rewrite lookup_insert_ne, IH by done. cbn [length]. by rewrite Nat.add_0_r.
Qed.

Lemma counts_sum_insert (m : gmap string Z) (k : string) (v : Z) :
  counts_sum (<[k := v]> m) = v + counts_sum (delete k m).
Proof.
  unfold counts_sum. rewrite <- insert_delete_eq.
  rewrite map_fold_insert_L; [done| |apply lookup_delete_eq]. intros; lia.
Qed.

Lemma counts_sum_delete (m : gmap string Z) (k : string) :
  counts_sum m = default 0 (m !! k) + counts_sum (delete k m).
Proof.
  destruct (m !! k) as [x|] eqn:Hk; cbn.
  - rewrite <- counts_sum_insert. by rewrite insert_id.
  - by rewrite delete_id.
Qed.

Lemma counts_sum_doc_stats (docs : list Document) :
  counts_sum (doc_stats docs) = Z.of_nat (length docs).
Proof.
  induction docs as [|d docs IH] using rev_ind; [done|].
  rewrite doc_stats_snoc, count_document_insert, counts_sum_insert, length_app.
  pose proof (counts_sum_delete (doc_stats docs) (document_type d)). cbn. lia.
Qed.

(** X13: the table of counts of the dashboard.  For every document type
    the table holds the number of the user's documents of that type, and no
    entry for a type the user has no document of; the entries add up to the
    number of documents the user owns, which in a consistent ledger is the
    user's documents_created; and the table does not depend on the order in
    which the query returns the documents. *)
Theorem dashboard_counts (self_id : Z) (w : world) :
  (∀ ty,
     dashboard_stats self_id w !! ty
     = if decide (length (filter (fun d => document_type d = ty)
                            (owned_by self_id (documents w))) = 0)%nat
       then None
       else Some (Z.of_nat (length (filter (fun d => document_type d = ty)
                                      (owned_by self_id (documents w))))))
  ∧ counts_sum (dashboard_stats self_id w)
    = Z.of_nat (length (owned_by self_id (documents w)))
  ∧ (∀ docs', docs' ≡ₚ owned_by self_id (documents w) →
       doc_stats docs' = dashboard_stats self_id w)
  ∧ (ledger_consistent w →
     ∀ user, users w !! self_id = Some user →
       counts_sum (dashboard_stats self_id w) = documents_created user).
Proof.
  unfold dashboard_stats. split; [|split; [|split]].
  - intros ty. apply doc_stats_lookup.
  - apply counts_sum_doc_stats.
  - intros docs' Hperm. apply map_eq. intros ty. rewrite !doc_stats_lookup.
    assert (length (filter (fun d => document_type d = ty) docs')
            = length (filter (fun d => document_type d = ty)
                        (owned_by self_id (documents w)))) as Hlen by (by rewrite Hperm).
    unfold owned_by in Hlen. by rewrite Hlen.
  - intros [Hcount _] user Huser. rewrite (Hcount _ _ Huser). apply counts_sum_doc_stats.
Qed.

Example dashboard_counts_example :
  dashboard_stats 1 (perform_all working_library example_operations empty_world)
  = {[ "invoice" := 1; "qrcode" := 1 ]}.
Proof. vm_compute. reflexivity. Qed.

(** ** validate_email *)

Lemma append_nil_r (s : string) : s +:+ "" = s.
Proof.
  induction s as [|c s IH]; [done|].
  change (String c (s +:+ "") = String c s). by rewrite IH.
Qed.

Lemma append_eq_nil (a b : string) : a +:+ b = "" → a = "" ∧ b = "".
Proof. destruct a; [done|discriminate]. Qed.

Lemma append_eq_cons (a b : string) c s :
  a +:+ b = String c s →
  (a = "" ∧ b = String c s) ∨ (∃ a', a = String c a' ∧ s = a' +:+ b).
Proof.
  destruct a as [|x a]; [by left|]. intros Heq.
  change (String x (a +:+ b) = String c s) in Heq. injection Heq as -> <-.
  right. by exists a.
Qed.

Lemma re_nullable_spec r : Re.nullable r = true ↔ Re.matches r "".
Proof.
  induction r as [| |p|r1 IH1 r2 IH2|r1 IH1 r2 IH2|r IH]; cbn.
  - split; [done|]. inversion 1.
  - split; [constructor|done].
  - split; [done|]. inversion 1.
  - rewrite andb_true_iff, IH1, IH2. split.
    + intros [H1 H2]. by apply (Re.matches_Cat r1 r2 "" "").
    + inversion 1 as [| |? ? s1 s2 H1 H2 [E1 E2] E3| | | |]; subst.
      by apply append_eq_nil in E3 as [-> ->].
  - rewrite orb_true_iff, IH1, IH2. split.
    + intros [?|?]; [by apply Re.matches_Alt_l|by apply Re.matches_Alt_r].
    + inversion 1; subst; auto.
  - split; [constructor|done].
Qed.

Lemma re_star_cons r c s :
  Re.matches (Re.Star r) (String c s) →
  ∃ s1 s2, s = s1 +:+ s2 ∧ Re.matches r (String c s1) ∧ Re.matches (Re.Star r) s2.
Proof.
  intros H. remember (Re.Star r) as r' eqn:Hr. remember (String c s) as t eqn:Ht.
  revert s Ht.
  induction H as [| | | | | |r0 s1 s2 H1 _ H2 IH2]; intros rest Ht; try discriminate.
  injection Hr as ->.
  apply append_eq_cons in Ht as [[-> ->]|(a' & -> & ->)].
  - by apply IH2.
  - by exists a', s2.
Qed.

Lemma re_deriv_spec r : ∀ c s, Re.matches (Re.deriv c r) s ↔ Re.matches r (String c s).
Proof.
  induction r as [| |p|r1 IH1 r2 IH2|r1 IH1 r2 IH2|r IH]; intros c s; cbn.
  - split; inversion 1.
  - split; inversion 1.
  - destruct (p c) eqn:Hp; split.
    + inversion 1. by constructor.
    + inversion 1; subst. constructor.
    + inversion 1.
    + inversion 1; subst. congruence.
  - assert (Re.matches (Re.Cat (Re.deriv c r1) r2) s
            ↔ ∃ a b, s = a +:+ b ∧ Re.matches r1 (String c a) ∧ Re.matches r2 b) as Hcat.
    { split.
      - inversion 1 as [| |? ? s1 s2 H1 H2| | | |]; subst.
        exists s1, s2. by rewrite <- IH1.
      - intros (a & b & -> & H1 & H2). constructor; [by apply IH1|done]. }
    split.
    + intros H.
      assert (Re.matches (Re.Cat (Re.deriv c r1) r2) s
              ∨ (Re.nullable r1 = true ∧ Re.matches (Re.deriv c r2) s)) as [Hl|[Hn Hr]].
      { destruct (Re.nullable r1); [|by left].
        inversion H; subst; [by left|by right]. }
      * apply Hcat in Hl as (a & b & -> & H1 & H2).
        by apply (Re.matches_Cat r1 r2 (String c a) b).
      * apply (Re.matches_Cat r1 r2 "" (String c s)); [by apply re_nullable_spec|].
        by apply IH2.
    + inversion 1 as [| |? ? s1 s2 H1 H2 [E1 E2] E3| | | |]; subst.
      apply append_eq_cons in E3 as [[-> ->]|(a' & -> & ->)].
      * apply re_nullable_spec in H1. rewrite H1. apply Re.matches_Alt_r. by apply IH2.
      * assert (Re.matches (Re.Cat (Re.deriv c r1) r2) (a' +:+ s2)) as Hl
          by (apply Hcat; eauto).
        destruct (Re.nullable r1); [by apply Re.matches_Alt_l|done].
  - split.
    + inversion 1; subst; [apply Re.matches_Alt_l|apply Re.matches_Alt_r];
        first [by apply IH1|by apply IH2].
    + inversion 1; subst; [apply Re.matches_Alt_l|apply Re.matches_Alt_r];
        first [by apply IH1|by apply IH2].
  - split.
    + inversion 1 as [| |? ? s1 s2 H1 H2| | | |]; subst.
      apply (Re.matches_Star_cons r (String c s1) s2); [by apply IH|done].
    + intros (s1 & s2 & -> & H1 & H2)%re_star_cons. constructor; [by apply IH|done].
Qed.

Lemma re_matched_spec s : ∀ r, Re.matched r s = true ↔ Re.matches r s.
Proof.
  induction s as [|c s IH]; intros r; cbn.
  - apply re_nullable_spec.
  - by rewrite IH, re_deriv_spec.
Qed.

Lemma str_all_append p (a b : string) : str_all p (a +:+ b) = str_all p a && str_all p b.
Proof.
  induction a as [|c a IH]; [done|].
  change (str_all p (String c (a +:+ b)) = str_all p (String c a) && str_all p b).
  cbn. by rewrite IH, andb_assoc.
Qed.

Lemma re_class_spec p s :
  Re.matches (Re.Class p) s ↔ ∃ c, s = String c "" ∧ p c = true.
Proof.
  split.
  - inversion 1; subst. eauto.
  - intros (c & -> & Hp). by constructor.
Qed.

Lemma re_star_class_spec p s :
  Re.matches (Re.Star (Re.Class p)) s ↔ str_all p s = true.
Proof.
  split.
  - intros H. remember (Re.Star (Re.Class p)) as r eqn:Hr.
    induction H as [| | | | | |r0 s1 s2 H1 _ H2 IH2]; try discriminate; [done|].
    injection Hr as ->. apply re_class_spec in H1 as (c & -> & Hp).
    rewrite str_all_append. cbn. rewrite Hp. by apply IH2.
  - induction s as [|c s IH]; [constructor|]. cbn. intros [Hp Hs]%andb_prop.
    apply (Re.matches_Star_cons _ (String c "") s); [by constructor|by apply IH].
Qed.

Lemma re_cat_spec r1 r2 s :
  Re.matches (Re.Cat r1 r2) s
  ↔ ∃ s1 s2, s = s1 +:+ s2 ∧ Re.matches r1 s1 ∧ Re.matches r2 s2.
Proof.
  split.
  - inversion 1; subst. eauto.
  - intros (s1 & s2 & -> & H1 & H2). by constructor.
Qed.

Lemma re_plus_class_spec p s :
  Re.matches (Re.Plus (Re.Class p)) s ↔ s ≠ "" ∧ str_all p s = true.
Proof.
  unfold Re.Plus. rewrite re_cat_spec. split.
  - intros (s1 & s2 & -> & (c & -> & Hp)%re_class_spec & H2%re_star_class_spec).
    change (String c "" +:+ s2) with (String c s2).
    split; [done|]. cbn. by rewrite Hp.
  - intros [Hne Hall]. destruct s as [|c s]; [done|].
    cbn in Hall. apply andb_prop in Hall as [Hp Hs].
    exists (String c ""), s. split; [done|].
    split; [by constructor|by apply re_star_class_spec].
Qed.

Lemma re_atleast2_class_spec p s :
  Re.matches (Re.AtLeast2 (Re.Class p)) s ↔ (2 ≤ String.length s)%nat ∧ str_all p s = true.
Proof.
  unfold Re.AtLeast2. rewrite re_cat_spec. split.
  - intros (s1 & s2 & -> & (c & -> & Hp)%re_class_spec & H2).
    fold (Re.Plus (Re.Class p)) in H2. apply re_plus_class_spec in H2 as [Hne Hall].
    change (String c "" +:+ s2) with (String c s2).
    destruct s2; [done|]. split; [cbn; lia|]. cbn in *. by rewrite Hp.
  - intros [Hlen Hall]. destruct s as [|c s]; [cbn in Hlen; lia|].
    cbn in Hall. apply andb_prop in Hall as [Hp Hs].
    exists (String c ""), s. split; [done|]. split; [by constructor|].
    fold (Re.Plus (Re.Class p)). apply re_plus_class_spec. split; [|done].
    destruct s; [cbn in Hlen; lia|done].
Qed.

Lemma re_chr_spec c s : Re.matches (Re.Chr c) s ↔ s = String c "".
Proof.
  unfold Re.Chr. rewrite re_class_spec. split.
  - by intros (c' & -> & ->%Ascii.eqb_eq).
  - intros ->. exists c. by rewrite Ascii.eqb_refl.
Qed.

Lemma re_dollar_spec s : Re.matches Re.Dollar s ↔ s = "" ∨ s = newline.
Proof.
  unfold Re.Dollar. split.
  - inversion 1 as [| | |? ? ? H1|? ? ? H1| |]; subst.
    + inversion H1. by left.
    + apply re_chr_spec in H1. by right.
  - intros [->| ->]; [apply Re.matches_Alt_l; constructor|].
    apply Re.matches_Alt_r. by apply re_chr_spec.
Qed.

(** X14: the strings [validate_email] accepts are exactly those of the
    form local@domain.tld, optionally followed by one newline: a non-empty
    local part of letters, digits and . _ %% + -, a non-empty domain of
    letters, digits, dots and hyphens, and a last label of at least two
    letters.  (Dots and hyphens may stand anywhere in the domain, also next
    to each other, and the newline is the one the [$] of the pattern lets
    through.) *)
Theorem validate_email_spec (email : string) :
  Auth.validate_email email = true
  ↔ ∃ local domain tld nl,
      email = local +:+ "@" +:+ domain +:+ "." +:+ tld +:+ nl
      ∧ local ≠ "" ∧ str_all is_local_char local = true
      ∧ domain ≠ "" ∧ str_all is_domain_char domain = true
      ∧ (2 ≤ String.length tld)%nat ∧ str_all is_letter tld = true
      ∧ (nl = "" ∨ nl = newline).
Proof.
  unfold Auth.validate_email, Auth.pattern. rewrite re_matched_spec. split.
  - intros (local & s1 & -> & [? ?]%re_plus_class_spec & H1)%re_cat_spec.
    apply re_cat_spec in H1 as (at_ & s2 & -> & ->%re_chr_spec & H2).
    apply re_cat_spec in H2 as (domain & s3 & -> & [? ?]%re_plus_class_spec & H3).
    apply re_cat_spec in H3 as (dot & s4 & -> & ->%re_chr_spec & H4).
    apply re_cat_spec in H4 as (tld & nl & -> & [? ?]%re_atleast2_class_spec
                                  & ?%re_dollar_spec).
    by exists local, domain, tld, nl.
  - intros (local & domain & tld & nl & -> & ? & ? & ? & ? & ? & ? & ?).
    repeat (apply Re.matches_Cat).
    + by apply re_plus_class_spec.
    + by apply re_chr_spec.
    + by apply re_plus_class_spec.
    + by apply re_chr_spec.
    + by apply re_atleast2_class_spec.
    + by apply re_dollar_spec.
Qed.

Example validate_email_examples :
  Auth.validate_email "ada@example.org" = true
  ∧ Auth.validate_email "ada@example.o" = false
  ∧ Auth.validate_email "ada.example.org" = false
  ∧ Auth.validate_email "a da@example.org" = false
  ∧ Auth.validate_email "ada@-..-.org" = true
  ∧ Auth.validate_email ("ada@example.org" +:+ newline) = true
  ∧ Auth.validate_email ("ada@example.org" +:+ newline +:+ newline) = false.
Proof. repeat split; vm_compute; reflexivity. Qed.

(** ** Signing up and logging in *)

Section Accounts.
Context (wz : Auth.Werkzeug).

Lemma find_by_email_is_Some email_ table :
  is_Some (Auth.find_by_email email_ table) ↔ email_ ∈ Auth.email <$> table.
Proof.
  unfold Auth.find_by_email. split.
  - intros [[i u] (Hi & Hu & _)%list_find_Some]. rewrite <- Hu.
    apply list_elem_of_fmap_2. by eapply list_elem_of_lookup_2.
  - intros (u & -> & Hu)%list_elem_of_fmap.
    destruct (list_find (fun u0 => Auth.email u0 = Auth.email u) table) eqn:Hfind; [done|].
    apply list_find_None in Hfind. by destruct (proj1 (Forall_forall _ _) Hfind u Hu).
Qed.

Lemma find_by_email_fresh email_ table user :
  email_ ∉ Auth.email <$> table → Auth.email user = email_ →
  Auth.find_by_email email_ (table ++ [user]) = Some (length table, user).
Proof.
  intros Hfresh Hemail. apply list_find_Some. split; [|split; [done|]].
  - by rewrite lookup_app_r, Nat.sub_diag by lia.
  - intros j y Hj Hlt Hy. apply Hfresh. rewrite <- Hy.
    rewrite lookup_app_l in Hj by done.
    apply list_elem_of_fmap_2. by eapply list_elem_of_lookup_2.
Qed.

Lemma find_by_email_unique email_ table i user :
  NoDup (Auth.email <$> table) → table !! i = Some user → Auth.email user = email_ →
  Auth.find_by_email email_ table = Some (i, user).
Proof.
  intros Hnd Hi Hemail. apply list_find_Some. split; [done|]. split; [done|].
  intros j y Hj Hlt Hy.
  assert ((Auth.email <$> table) !! j = Some email_) as H1
    by (by rewrite list_lookup_fmap, Hj, <- Hy).
  assert ((Auth.email <$> table) !! i = Some email_) as H2
    by (by rewrite list_lookup_fmap, Hi, <- Hemail).
  pose proof (NoDup_lookup _ _ _ _ Hnd H1 H2). lia.
Qed.

Lemma validate_email_nonempty email_ : Auth.validate_email email_ = true → email_ ≠ "".
Proof. intros H ->. vm_compute in H. discriminate. Qed.

Lemma validate_password_nonempty password :
  Auth.validate_password password = true → password ≠ "".
Proof.
  unfold Auth.validate_password. intros H ->.
  apply bool_decide_eq_true in H. cbn in H. lia.
Qed.

(** The verdict of the four checks of [signup]. *)
Lemma signup_run salt e p n st :
  Auth.validate_email (Py.str_lower (Py.str_strip e))
  && Auth.validate_password p
  && bool_decide (2 ≤ String.length (Py.str_strip n))%nat
  && bool_decide (Py.str_lower (Py.str_strip e) ∉ Auth.email <$> Auth.users st) = true →
  Auth.signup wz salt e p n st
  = (Auth.Done "Account created successfully!",
     {| Auth.users :=
          Auth.users st
          ++ [Auth.set_password wz salt p
                {| Auth.email := Py.str_lower (Py.str_strip e);
                   Auth.password_hash := "";
                   Auth.full_name := Py.str_strip n;
                   Auth.subscription_plan := "free";
                   Auth.is_active := true;
                   Auth.last_login := None |}];
        Auth.session := Some (length (Auth.users st)) |}).
Proof.
  Local Opaque Auth.validate_email.
  unfold Auth.signup.
  destruct (Auth.validate_email _) eqn:Hemail; cbn [andb]; [|done].
  destruct (Auth.validate_password p) eqn:Hpass; cbn [andb]; [|done].
  case_bool_decide as Hname; cbn [andb]; [|done].
  case_bool_decide as Hfresh; cbn [andb]; [|done]. intros _.
  unfold Auth.is_empty.
  rewrite (bool_decide_eq_false_2 (Py.str_lower (Py.str_strip e) = ""))
    by (by apply validate_email_nonempty).
  rewrite (bool_decide_eq_false_2 (p = "")) by (by apply validate_password_nonempty).
  rewrite (bool_decide_eq_false_2 (Py.str_strip n = ""))
    by (intros Heq; rewrite Heq in Hname; cbn in Hname; lia).
  rewrite (bool_decide_eq_false_2 (_ < 2)%nat) by lia.
  rewrite (bool_decide_eq_false_2 (is_Some _)) by (by rewrite find_by_email_is_Some).
  cbn [orb negb Auth.append_if]. rewrite bool_decide_eq_true_2 by done. cbn [negb].
  by rewrite bool_decide_eq_false_2.
Qed.

Lemma append_if_nil test message errors :
  Auth.append_if test message errors = [] → test = false ∧ errors = [].
Proof. destruct test; cbn; [by destruct errors|done]. Qed.

Lemma signup_refused salt e p n st :
  Auth.validate_email (Py.str_lower (Py.str_strip e))
  && Auth.validate_password p
  && bool_decide (2 ≤ String.length (Py.str_strip n))%nat
  && bool_decide (Py.str_lower (Py.str_strip e) ∉ Auth.email <$> Auth.users st) = false →
  ∃ errors, errors ≠ []
            ∧ Auth.signup wz salt e p n st = (Auth.Errors 400 errors, st).
Proof.
  intros Hno. unfold Auth.signup.
  match goal with |- context [bool_decide (?l = [])] => set (errors := l) end.
  destruct (decide (errors = [])) as [Hnil|Hne];
    [|exists errors; split; [done|]; by rewrite bool_decide_eq_false_2].
  exfalso. subst errors.
  apply append_if_nil in Hnil as [H4 Hnil]. apply append_if_nil in Hnil as [H3 Hnil].
  apply append_if_nil in Hnil as [H2 Hnil]. apply append_if_nil in Hnil as [H1 _].
  apply orb_false_elim in H1 as [_ H1%negb_false_iff].
  apply orb_false_elim in H2 as [_ H2%negb_false_iff].
  apply orb_false_elim in H3 as [_ H3%bool_decide_eq_false].
  apply bool_decide_eq_false in H4. rewrite find_by_email_is_Some in H4.
  rewrite H1, H2 in Hno. cbn [andb] in Hno.
  rewrite bool_decide_eq_true_2 in Hno by lia.
  by rewrite bool_decide_eq_true_2 in Hno.
Qed.

End Accounts.

Lemma to_lower_idemp c : Py.to_lower (Py.to_lower c) = Py.to_lower c.
Proof. destruct c as [[] [] [] [] [] [] [] []]; reflexivity. Qed.

Lemma str_lower_idemp s : Py.str_lower (Py.str_lower s) = Py.str_lower s.
Proof.
  unfold Py.str_lower. induction s as [|c s IH]; [done|].
  cbn. by rewrite to_lower_idemp, IH.
Qed.

Section WellFormed.
Context (wz : Auth.Werkzeug).

Lemma fmap_email_alter (f : Auth.User → Auth.User) (table : list Auth.User) :
  (∀ u, Auth.email (f u) = Auth.email u) →
  ∀ i : nat, Auth.email <$> alter f i table = Auth.email <$> table.
Proof.
  intros Hf. induction table as [|u table IH]; intros i; [done|].
  destruct i as [|i]; cbn; [by rewrite Hf|]. f_equal. apply IH.
Qed.

Lemma well_formed_alter (f : Auth.User → Auth.User) (i : nat) st session' :
  (∀ u, Auth.email (f u) = Auth.email u) →
  (∀ u, Auth.users st !! i = Some u → (2 ≤ String.length (Auth.full_name (f u)))%nat) →
  (∀ j, session' = Some j → (j < length (Auth.users st))%nat) →
  Auth.well_formed st →
  Auth.well_formed {| Auth.users := alter f i (Auth.users st); Auth.session := session' |}.
Proof.
  intros Hemail Hname Hsession (Hnd & Hall & _). split; [|split]; cbn.
  - by rewrite fmap_email_alter.
  - apply Forall_lookup. intros j u Hj.
    destruct (decide (j = i)) as [->|Hne].
    + rewrite list_lookup_alter_eq in Hj.
      destruct (Auth.users st !! i) as [u0|] eqn:Hi; [|discriminate].
      injection Hj as <-. rewrite Hemail.
      pose proof (Forall_lookup_1 _ _ _ _ Hall Hi) as (? & ? & ?). eauto.
    + rewrite list_lookup_alter_ne in Hj by done. by eapply (Forall_lookup_1 _ _ _ _ Hall).
  - intros j Hj. rewrite length_alter. by apply Hsession.
Qed.

Lemma well_formed_signup salt e p n st :
  Auth.well_formed st → Auth.well_formed (snd (Auth.signup wz salt e p n st)).
Proof.
  intros Hwf.
  destruct (Auth.validate_email (Py.str_lower (Py.str_strip e))
            && Auth.validate_password p
            && bool_decide (2 ≤ String.length (Py.str_strip n))%nat
            && bool_decide (Py.str_lower (Py.str_strip e) ∉ Auth.email <$> Auth.users st))
    eqn:Hok.
  - rewrite (signup_run wz _ _ _ _ _ Hok). cbn [snd].
    apply andb_prop in Hok as [Hok Hfresh%bool_decide_eq_true].
    apply andb_prop in Hok as [Hok Hname%bool_decide_eq_true].
    apply andb_prop in Hok as [Hemail _].
    destruct Hwf as (Hnd & Hall & Hsession). split; [|split]; cbn.
    + rewrite fmap_app. apply NoDup_app. split; [done|]. split; [|apply NoDup_singleton].
      cbn. intros x Hx ->%list_elem_of_singleton. done.
    + apply Forall_app. split; [done|]. constructor; [|done]. cbn.
      by rewrite str_lower_idemp.
    + intros i [= <-]. rewrite length_app. cbn. lia.
  - by destruct (signup_refused wz salt e p n st Hok) as (errors & _ & ->).
Qed.

Lemma well_formed_login t e p st :
  Auth.well_formed st → Auth.well_formed (snd (Auth.login wz t e p st)).
Proof.
  intros Hwf. unfold Auth.login.
  destruct (_ || _); [done|].
  destruct (Auth.find_by_email _ _) as [[i user]|] eqn:Hfind; [|done].
  destruct (negb (Auth.check_password wz user p)); [done|].
  destruct (negb (Auth.is_active user)); [done|]. cbn [snd].
  apply list_find_Some in Hfind as (Hi & _ & _).
  apply well_formed_alter; try done.
  - intros u Hu. cbn. destruct Hwf as (_ & Hall & _).
    by pose proof (Forall_lookup_1 _ _ _ _ Hall Hu) as (? & ? & ?).
  - intros j [= <-]. by eapply lookup_lt_Some.
Qed.

Lemma well_formed_logout st : Auth.well_formed st → Auth.well_formed (Auth.logout st).
Proof. intros (? & ? & ?). by split. Qed.

Lemma update_profile_name_checked user name current_password new_password :
  Auth.password_errors wz user current_password new_password
    (Auth.append_if (Auth.is_empty name || bool_decide (String.length name < 2)%nat)
       "Please enter your full name" []) = [] →
  (2 ≤ String.length name)%nat.
Proof.
  unfold Auth.password_errors, Auth.append_if.
  destruct (_ || bool_decide _) eqn:Hname.
  - repeat case_match; done.
  - intros _. apply orb_false_elim in Hname as [_ Hlen%bool_decide_eq_false]. lia.
Qed.

Lemma well_formed_update salt n c p st :
  Auth.well_formed st → Auth.well_formed (snd (Auth.update_profile wz salt n c p st)).
Proof.
  intros Hwf. unfold Auth.update_profile.
  destruct (Auth.session st) as [i|] eqn:Hsession; [|done].
  destruct (Auth.users st !! i) as [user|] eqn:Hi.
  - case_bool_decide as Herrors; cbn [negb snd]; [|done].
    apply update_profile_name_checked in Herrors.
    apply well_formed_alter; try done.
    + intros u. by destruct (negb _).
    + intros u _. by destruct (negb _).
    + intros j [= <-]. by eapply lookup_lt_Some.
  - cbn. destruct Hwf as (? & ? & ?). by split.
Qed.

Lemma well_formed_toggle i st :
  Auth.well_formed st → Auth.well_formed (default st (Auth.toggle_user_status i st)).
Proof.
  intros Hwf. unfold Auth.toggle_user_status.
  destruct (Auth.users st !! i) as [user|] eqn:Hi; [|done]. cbn.
  apply well_formed_alter; try done.
  - intros u Hu. cbn. destruct Hwf as (_ & Hall & _).
    by pose proof (Forall_lookup_1 _ _ _ _ Hall Hu) as (? & ? & ?).
  - by destruct Hwf as (_ & _ & ?).
Qed.

Lemma well_formed_perform op st :
  Auth.well_formed st → Auth.well_formed (Auth.perform wz op st).
Proof.
  destruct op; cbn;
    [apply well_formed_signup|apply well_formed_login|apply well_formed_logout
    |apply well_formed_update|apply well_formed_toggle].
Qed.

End WellFormed.

(** X15: the user table stays well formed under every sequence of
    sign-ups, logins, logouts, profile updates and status toggles served one
    after the other: no two accounts share an email address, every stored
    address is valid and in lower case, every stored name has at least two
    characters, and the session names an existing account. *)
Theorem accounts_well_formed (wz : Auth.Werkzeug) (ops : list Auth.operation)
    (st : Auth.state) :
  Auth.well_formed st → Auth.well_formed (Auth.perform_all wz ops st).
Proof.
  revert st. induction ops as [|op ops IH]; intros st Hwf; [done|].
  cbn. apply IH. by apply well_formed_perform.
Qed.

(** X16: [signup] creates an account exactly when the stripped,
    lower-cased email address is valid and not registered yet, the password
    has at least six characters and the stripped name at least two.  Then
    one row is appended, with that address, the name, the free plan, active,
    never logged in, the hash of the password, and the client is logged in as
    the new user.  In every other case the reply is the 400 with a non-empty
    list of errors and nothing changes; the 500 of the handler is never
    reached. *)
Theorem signup_spec (wz : Auth.Werkzeug) (salt e p n : string) (st : Auth.state) :
  (Auth.validate_email (Py.str_lower (Py.str_strip e)) = true
   ∧ (6 ≤ String.length p)%nat
   ∧ (2 ≤ String.length (Py.str_strip n))%nat
   ∧ Py.str_lower (Py.str_strip e) ∉ Auth.email <$> Auth.users st →
   Auth.signup wz salt e p n st
   = (Auth.Done "Account created successfully!",
      {| Auth.users :=
           Auth.users st
           ++ [{| Auth.email := Py.str_lower (Py.str_strip e);
                  Auth.password_hash := Auth.generate_password_hash wz salt p;
                  Auth.full_name := Py.str_strip n;
                  Auth.subscription_plan := "free";
                  Auth.is_active := true;
                  Auth.last_login := None |}];
         Auth.session := Some (length (Auth.users st)) |}))
  ∧ (¬ (Auth.validate_email (Py.str_lower (Py.str_strip e)) = true
        ∧ (6 ≤ String.length p)%nat
        ∧ (2 ≤ String.length (Py.str_strip n))%nat
        ∧ Py.str_lower (Py.str_strip e) ∉ Auth.email <$> Auth.users st) →
     ∃ errors, errors ≠ []
               ∧ Auth.signup wz salt e p n st = (Auth.Errors 400 errors, st)).
Proof.
  split.
  - intros (Hemail & Hpass & Hname & Hfresh). apply signup_run.
    rewrite Hemail. unfold Auth.validate_password.
    by rewrite !bool_decide_eq_true_2.
  - intros Hno. apply signup_refused. apply not_true_is_false. intros Hok. apply Hno.
    apply andb_prop in Hok as [Hok Hfresh%bool_decide_eq_true].
    apply andb_prop in Hok as [Hok Hname%bool_decide_eq_true].
    apply andb_prop in Hok as [Hemail Hpass%bool_decide_eq_true]. done.
Qed.

Lemma well_formed_empty : Auth.well_formed Auth.empty.
Proof. split; [constructor|]. split; [constructor|]. intros i. discriminate. Qed.

Lemma accounts_well_formed_witness :
  Auth.well_formed Auth.empty
  ∧ Auth.well_formed (Auth.perform_all Auth.plain_werkzeug ada_operations Auth.empty)
  ∧ (Auth.email <$> Auth.users (Auth.perform_all Auth.plain_werkzeug ada_operations
                                  Auth.empty))
    = ["ada@example.org"].
Proof.
  split; [apply well_formed_empty|]. split.
  - exact (accounts_well_formed Auth.plain_werkzeug ada_operations Auth.empty
             well_formed_empty).
  - vm_compute. reflexivity.
Defined.

Example signup_examples :
  Auth.signup Auth.plain_werkzeug "s1" "  Ada@Example.org " "secret1" " Ada Lovelace "
    Auth.empty
  = (Auth.Done "Account created successfully!",
     {| Auth.users := [ {| Auth.email := "ada@example.org";
                           Auth.password_hash := "plain$secret1";
                           Auth.full_name := "Ada Lovelace";
                           Auth.subscription_plan := "free";
                           Auth.is_active := true;
                           Auth.last_login := None |} ];
        Auth.session := Some 0%nat |})
  ∧ fst (Auth.signup Auth.plain_werkzeug "s1" "ada@example" "short" "A" Auth.empty)
    = Auth.Errors 400 [ "Please enter a valid email address";
                        "Password must be at least 6 characters long";
                        "Please enter your full name" ].
Proof. split; vm_compute; reflexivity. Qed.

(** ** Logging in *)

Section Login.
Context (wz : Auth.Werkzeug).

Lemma login_run t e p st i user :
  NoDup (Auth.email <$> Auth.users st) →
  Auth.users st !! i = Some user →
  Py.str_lower (Py.str_strip e) = Auth.email user →
  Auth.email user ≠ "" → p ≠ "" →
  Auth.login wz t e p st
  = if negb (Auth.check_password wz user p)
    then (Auth.Error 401 "Invalid email or password", st)
    else if negb (Auth.is_active user)
    then (Auth.Error 401 "Your account has been deactivated. Please contact support.", st)
    else (Auth.Done "Login successful!",
          {| Auth.users := alter (Auth.set_last_login t) i (Auth.users st);
             Auth.session := Some i |}).
Proof.
  intros Hnd Hi He Hemail Hp. unfold Auth.login, Auth.is_empty. rewrite He.
  rewrite !bool_decide_eq_false_2 by done. cbn [orb].
  by rewrite (find_by_email_unique _ _ i user).
Qed.

Lemma login_unknown t e p st :
  Py.str_lower (Py.str_strip e) ∉ Auth.email <$> Auth.users st →
  Auth.login wz t e p st = (Auth.Error 400 "Please enter both email and password", st)
  ∨ Auth.login wz t e p st = (Auth.Error 401 "Invalid email or password", st).
Proof.
  intros Hunknown. unfold Auth.login. destruct (_ || _); [by left|]. right.
  destruct (Auth.find_by_email _ _) as [[i user]|] eqn:Hfind; [|done].
  destruct Hunknown. apply find_by_email_is_Some. by rewrite Hfind.
Qed.

End Login.

(** X17: signing up and logging in again.  After a successful sign-up and
    a logout, a login with the same password and the same address, written
    in any letter case and with any surrounding blanks, succeeds, stamps
    last_login and opens the session of the new account, provided the hash
    library accepts the password a hash was made from; when the library
    accepts no other password, a login with any other password is answered
    'Invalid email or password' and changes nothing. *)
Theorem signup_then_login (wz : Auth.Werkzeug) (salt e p n e' : string) (t : datetime)
    (st : Auth.state) :
  Auth.accepts_own wz →
  fst (Auth.signup wz salt e p n st) = Auth.Done "Account created successfully!" →
  Py.str_lower (Py.str_strip e') = Py.str_lower (Py.str_strip e) →
  Auth.login wz t e' p (Auth.logout (snd (Auth.signup wz salt e p n st)))
  = (Auth.Done "Login successful!",
     {| Auth.users := alter (Auth.set_last_login t) (length (Auth.users st))
                        (Auth.users (snd (Auth.signup wz salt e p n st)));
        Auth.session := Some (length (Auth.users st)) |})
  ∧ Auth.login_required (snd (Auth.login wz t e' p
                                (Auth.logout (snd (Auth.signup wz salt e p n st))))) = true
  ∧ (Auth.rejects_other wz →
     ∀ q, q ≠ p →
       Auth.login wz t e' q (Auth.logout (snd (Auth.signup wz salt e p n st)))
       = (if bool_decide (q = "")
          then Auth.Error 400 "Please enter both email and password"
          else Auth.Error 401 "Invalid email or password",
          Auth.logout (snd (Auth.signup wz salt e p n st)))).
Proof.
  intros Haccepts Hdone He.
  destruct (Auth.validate_email (Py.str_lower (Py.str_strip e))
            && Auth.validate_password p
            && bool_decide (2 ≤ String.length (Py.str_strip n))%nat
            && bool_decide (Py.str_lower (Py.str_strip e) ∉ Auth.email <$> Auth.users st))
    eqn:Hok;
    [|destruct (signup_refused wz salt e p n st Hok) as (errors & _ & Hrun);
      by rewrite Hrun in Hdone].
  rewrite (signup_run wz _ _ _ _ _ Hok). cbn [snd Auth.logout Auth.users].
  apply andb_prop in Hok as [Hok Hfresh%bool_decide_eq_true].
  apply andb_prop in Hok as [Hok _].
  apply andb_prop in Hok as [Hemail%validate_email_nonempty Hpass%validate_password_nonempty].
  set (user := Auth.set_password wz salt p
                 {| Auth.email := Py.str_lower (Py.str_strip e);
                    Auth.password_hash := "";
                    Auth.full_name := Py.str_strip n;
                    Auth.subscription_plan := "free";
                    Auth.is_active := true;
                    Auth.last_login := None |}).
  set (st1 := {| Auth.users := Auth.users st ++ [user]; Auth.session := None |}).
  assert (∀ q, Auth.login wz t e' q st1
               = if bool_decide (q = "")
                 then (Auth.Error 400 "Please enter both email and password", st1)
                 else if negb (Auth.check_password_hash wz
                                 (Auth.generate_password_hash wz salt p) q)
                 then (Auth.Error 401 "Invalid email or password", st1)
                 else (Auth.Done "Login successful!",
                       {| Auth.users := alter (Auth.set_last_login t)
                                          (length (Auth.users st))
                                          (Auth.users st ++ [user]);
                          Auth.session := Some (length (Auth.users st)) |})) as Hlogin.
  { intros q. unfold Auth.login, Auth.is_empty. rewrite He.
    rewrite (bool_decide_eq_false_2 (_ = "")) by done. cbn [orb Auth.users st1].
    case_bool_decide; [done|].
    rewrite (find_by_email_fresh _ _ user Hfresh eq_refl).
    unfold Auth.check_password. cbn. by destruct (Auth.check_password_hash _ _ _). }
  split; [|split].
  - rewrite Hlogin, bool_decide_eq_false_2, Haccepts by done. done.
  - rewrite Hlogin, bool_decide_eq_false_2, Haccepts by done. done.
  - intros Hrejects q Hq. rewrite Hlogin. case_bool_decide; [done|].
    by rewrite Hrejects.
Qed.

Lemma signup_then_login_witness :
  Auth.accepts_own Auth.plain_werkzeug
  ∧ fst (Auth.signup Auth.plain_werkzeug "s1" "  Ada@Example.org " "secret1"
           " Ada Lovelace " Auth.empty)
    = Auth.Done "Account created successfully!"
  ∧ Py.str_lower (Py.str_strip "ADA@EXAMPLE.ORG")
    = Py.str_lower (Py.str_strip "  Ada@Example.org ")
  ∧ Auth.login_required
      (snd (Auth.login Auth.plain_werkzeug (at_noon 2024 5 20) "ADA@EXAMPLE.ORG" "secret1"
              (Auth.logout (snd (Auth.signup Auth.plain_werkzeug "s1" "  Ada@Example.org "
                                   "secret1" " Ada Lovelace " Auth.empty))))) = true.
Proof.
  assert (Auth.accepts_own Auth.plain_werkzeug) as Haccepts.
  { intros salt password. cbn. by rewrite bool_decide_eq_true_2. }
  split; [exact Haccepts|]. split; [vm_compute; reflexivity|].
  split; [vm_compute; reflexivity|].
  exact (proj1 (proj2 (signup_then_login Auth.plain_werkzeug "s1" "  Ada@Example.org "
                         "secret1" " Ada Lovelace " "ADA@EXAMPLE.ORG" (at_noon 2024 5 20)
                         Auth.empty Haccepts eq_refl eq_refl))).
Defined.

(** ** Deactivated accounts *)

Lemma flip_active_twice u : Auth.flip_active (Auth.flip_active u) = u.
Proof. destruct u. unfold Auth.flip_active. cbn. by rewrite negb_involutive. Qed.

Lemma well_formed_email_nonempty st i user :
  Auth.well_formed st → Auth.users st !! i = Some user → Auth.email user ≠ "".
Proof.
  intros (_ & Hall & _) Hi.
  pose proof (Forall_lookup_1 _ _ _ _ Hall Hi) as (Hvalid & _).
  by apply validate_email_nonempty.
Qed.

(** X18: deactivating an account.  When the admin toggles the status of
    an active account, a login with the right password is refused with the
    'deactivated' message and changes nothing, and /auth/check-auth answers
    401 for a session of that account; the session itself is not closed, so
    the test of login_required in tools.py still passes for it.  Toggling
    again restores the table exactly, and the login succeeds as before. *)
Theorem deactivated_account (wz : Auth.Werkzeug) (t : datetime) (e p : string) (i : nat)
    (user : Auth.User) (st : Auth.state) :
  Auth.well_formed st →
  Auth.users st !! i = Some user →
  Auth.is_active user = true →
  Auth.check_password wz user p = true →
  p ≠ "" →
  Py.str_lower (Py.str_strip e) = Auth.email user →
  ∃ st1,
    Auth.toggle_user_status i st = Some st1
    ∧ Auth.login wz t e p st1
      = (Auth.Error 401 "Your account has been deactivated. Please contact support.", st1)
    ∧ (Auth.session st = Some i →
       Auth.check_auth st1 = Auth.NotAuthenticated ∧ Auth.login_required st1 = true)
    ∧ Auth.toggle_user_status i st1 = Some st
    ∧ fst (Auth.login wz t e p st) = Auth.Done "Login successful!".
Proof.
  intros Hwf Hi Hactive Hcheck Hp He.
  pose proof (well_formed_email_nonempty _ _ _ Hwf Hi) as Hemail.
  destruct Hwf as (Hnd & Hall & Hsession).
  unfold Auth.toggle_user_status at 1. rewrite Hi. eexists. split; [reflexivity|].
  assert (alter Auth.flip_active i (Auth.users st) !! i = Some (Auth.flip_active user)) as Hi'
    by (by rewrite list_lookup_alter_eq, Hi).
  split; [|split; [|split]].
  - rewrite (login_run wz t e p _ i (Auth.flip_active user)); cbn; try done.
    + unfold Auth.check_password in *. cbn. by rewrite Hcheck, Hactive.
    + by rewrite fmap_email_alter.
  - intros Hs. unfold Auth.check_auth, Auth.login_required. cbn. rewrite Hs, Hi'. cbn.
    by rewrite Hactive.
  - unfold Auth.toggle_user_status. cbn. rewrite Hi'. f_equal.
    rewrite list_alter_alter_eq.
    rewrite list_alter_id by (intros u; apply flip_active_twice). by destruct st.
  - rewrite (login_run wz t e p _ i user) by done. by rewrite Hcheck, Hactive.
Qed.

(** ** Changing the password *)

(** X19: [update_profile] for a logged-in user and a name of at least two
    characters.  Without a new password only the name changes and no
    password is asked for.  With a new password the current one must be
    given and right and the new one have six characters, else the reply is a
    400 with one error and nothing changes.  After a change the new password
    logs in, and (when the hash library accepts no other password) the old
    one is answered 'Invalid email or password'. *)
Theorem password_change (wz : Auth.Werkzeug) (salt n cur new : string) (i : nat)
    (user : Auth.User) (st : Auth.state) :
  Auth.well_formed st →
  Auth.session st = Some i →
  Auth.users st !! i = Some user →
  (2 ≤ String.length (Py.str_strip n))%nat →
  (new = "" →
   Auth.update_profile wz salt n cur new st
   = (Auth.Done "Profile updated successfully!",
      {| Auth.users := alter (Auth.set_full_name (Py.str_strip n)) i (Auth.users st);
         Auth.session := Some i |}))
  ∧ (new ≠ "" →
     cur = "" ∨ Auth.check_password wz user cur = false ∨ (String.length new < 6)%nat →
     ∃ error, Auth.update_profile wz salt n cur new st = (Auth.Errors 400 [error], st))
  ∧ (new ≠ "" → cur ≠ "" → Auth.check_password wz user cur = true →
     (6 ≤ String.length new)%nat →
     ∃ st1,
       Auth.update_profile wz salt n cur new st
       = (Auth.Done "Profile updated successfully!", st1)
       ∧ Auth.session st1 = Some i
       ∧ Auth.users st1 !! i
         = Some (Auth.set_password wz salt new
                   (Auth.set_full_name (Py.str_strip n) user))
       ∧ (∀ t e, Py.str_lower (Py.str_strip e) = Auth.email user →
                 Auth.is_active user = true →
                 (Auth.accepts_own wz →
                  fst (Auth.login wz t e new (Auth.logout st1))
                  = Auth.Done "Login successful!")
                 ∧ (Auth.rejects_other wz → cur ≠ new →
                    Auth.login wz t e cur (Auth.logout st1)
                    = (Auth.Error 401 "Invalid email or password", Auth.logout st1)))).
Proof.
  intros Hwf Hs Hi Hname.
  pose proof (well_formed_email_nonempty _ _ _ Hwf Hi) as Hemail.
  assert (Auth.is_empty (Py.str_strip n)
          || bool_decide (String.length (Py.str_strip n) < 2)%nat = false) as Hn.
  { unfold Auth.is_empty. rewrite !bool_decide_eq_false_2; [done|lia|].
    intros Heq. rewrite Heq in Hname. cbn in Hname. lia. }
  split; [|split].
  - intros ->. unfold Auth.update_profile. rewrite Hs, Hi, Hn. reflexivity.
  - intros Hnew Hbad. unfold Auth.update_profile. rewrite Hs, Hi, Hn.
    unfold Auth.password_errors, Auth.is_empty, Auth.validate_password.
    cbn [Auth.append_if]. rewrite (bool_decide_eq_false_2 (new = "")) by done.
    cbn [negb]. destruct (decide (cur = "")) as [Hcur|Hcur].
    { rewrite (bool_decide_eq_true_2 (cur = "")) by done. eexists. reflexivity. }
    rewrite (bool_decide_eq_false_2 (cur = "")) by done.
    destruct (Auth.check_password wz user cur) eqn:Hcheck; cbn [negb];
      [|eexists; reflexivity].
    destruct Hbad as [?|[?|Hlen]]; [done..|].
    rewrite (bool_decide_eq_false_2 (6 ≤ _)%nat) by lia. eexists. reflexivity.
  - intros Hnew Hcur Hcheck Hlen. eexists. split; [|split; [|split]].
    + unfold Auth.update_profile. rewrite Hs, Hi, Hn.
      unfold Auth.password_errors, Auth.is_empty, Auth.validate_password.
      cbn [Auth.append_if].
      rewrite (bool_decide_eq_false_2 (new = "")), (bool_decide_eq_false_2 (cur = "")),
        Hcheck, (bool_decide_eq_true_2 (6 ≤ _)%nat) by done.
      cbn. reflexivity.
    + done.
    + cbn. by rewrite list_lookup_alter_eq, Hi.
    + intros t e He Hactive. destruct Hwf as (Hnd & _ & _). split.
      * intros Haccepts.
        rewrite (login_run wz t e new _ i
                   (Auth.set_password wz salt new
                      (Auth.set_full_name (Py.str_strip n) user))); cbn; try done.
        -- unfold Auth.check_password. cbn. by rewrite Haccepts, Hactive.
        -- rewrite fmap_email_alter; [done|]. intros u. done.
        -- by rewrite list_lookup_alter_eq, Hi.
      * intros Hrejects Hne.
        rewrite (login_run wz t e cur _ i
                   (Auth.set_password wz salt new
                      (Auth.set_full_name (Py.str_strip n) user))); cbn; try done.
        -- unfold Auth.check_password. cbn. by rewrite Hrejects.
        -- rewrite fmap_email_alter; [done|]. intros u. done.
        -- by rewrite list_lookup_alter_eq, Hi.
Qed.

Lemma well_formed_ada_state : Auth.well_formed ada_state.
Proof. apply well_formed_signup, well_formed_empty. Qed.

Lemma plain_werkzeug_accepts_own : Auth.accepts_own Auth.plain_werkzeug.
Proof. intros salt password. cbn. by rewrite bool_decide_eq_true_2. Qed.

Lemma plain_werkzeug_rejects_other : Auth.rejects_other Auth.plain_werkzeug.
Proof.
  intros salt password other Hne. cbn. apply bool_decide_eq_false_2.
  intros Heq. apply Hne. by apply (String.app_inj "plain$") in Heq.
Qed.

Lemma deactivated_account_witness :
  Auth.well_formed ada_state
  ∧ Auth.users ada_state !! 0%nat = Some ada
  ∧ ∃ st1,
      Auth.toggle_user_status 0 ada_state = Some st1
      ∧ Auth.login Auth.plain_werkzeug (at_noon 2024 5 20) "Ada@example.org" "secret1" st1
        = (Auth.Error 401 "Your account has been deactivated. Please contact support.",
           st1)
      ∧ (Auth.session ada_state = Some 0%nat →
         Auth.check_auth st1 = Auth.NotAuthenticated ∧ Auth.login_required st1 = true)
      ∧ Auth.toggle_user_status 0 st1 = Some ada_state
      ∧ fst (Auth.login Auth.plain_werkzeug (at_noon 2024 5 20) "Ada@example.org"
               "secret1" ada_state)
        = Auth.Done "Login successful!".
Proof.
  split; [apply well_formed_ada_state|]. split; [reflexivity|].
  apply (deactivated_account Auth.plain_werkzeug (at_noon 2024 5 20) "Ada@example.org"
           "secret1" 0 ada ada_state well_formed_ada_state eq_refl eq_refl eq_refl).
  - discriminate.
  - vm_compute. reflexivity.
Defined.

Lemma password_change_witness :
  Auth.well_formed ada_state
  ∧ Auth.session ada_state = Some 0%nat
  ∧ ∃ st1,
      Auth.update_profile Auth.plain_werkzeug "s2" "Ada King" "secret1" "secret2" ada_state
      = (Auth.Done "Profile updated successfully!", st1)
      ∧ fst (Auth.login Auth.plain_werkzeug (at_noon 2024 5 20) "ada@example.org" "secret2"
               (Auth.logout st1))
        = Auth.Done "Login successful!"
      ∧ Auth.login Auth.plain_werkzeug (at_noon 2024 5 20) "ada@example.org" "secret1"
          (Auth.logout st1)
        = (Auth.Error 401 "Invalid email or password", Auth.logout st1).
Proof.
  split; [apply well_formed_ada_state|]. split; [reflexivity|].
  assert (2 ≤ String.length (Py.str_strip "Ada King"))%nat as Hname by (vm_compute; lia).
  assert (6 ≤ String.length "secret2")%nat as Hlen by (vm_compute; lia).
  destruct (proj2 (proj2 (password_change Auth.plain_werkzeug "s2" "Ada King" "secret1"
                            "secret2" 0 ada ada_state well_formed_ada_state
                            eq_refl eq_refl Hname))
              ltac:(discriminate) ltac:(discriminate) eq_refl Hlen)
    as (st1 & Hrun & _ & _ & Hlogin).
  exists st1. split; [exact Hrun|].
  destruct (Hlogin (at_noon 2024 5 20) "ada@example.org" eq_refl eq_refl) as [Hnew Hold].
  split; [exact (Hnew plain_werkzeug_accepts_own)|].
  apply (Hold plain_werkzeug_rejects_other). discriminate.
Defined.

(** ** Requests that cannot be rendered *)

Lemma invoice_items_loop_well_formed lib its : ∀ s rows,
  is_ok (invoice_items_loop lib its s rows) = true → Forall (item_well_formed lib) its.
Proof.
  induction its as [|it its IH]; intros s rows H; [constructor|]. cbn in H.
  destruct (item it "quantity" ≫= py_float lib) as [q|] eqn:Hq; [|discriminate].
  destruct (item it "rate" ≫= py_float lib) as [r|] eqn:Hr; [|discriminate].
  cbn in H. destruct (item it "description") eqn:Hd; [|discriminate]. cbn in H.
  constructor; [|by eapply IH]. unfold item_well_formed. by rewrite Hq, Hr, Hd.
Qed.

Lemma rollback_same w : rollback w w = w.
Proof. by destruct w. Qed.

Lemma quota_gate_passes env self_id user w :
  users w !! self_id = Some user →
  can_create_document self_id user (documents w) (now env) = true →
  quota_gate env self_id w = inr user.
Proof. intros Hu Hc. unfold quota_gate, get_current_user. by rewrite Hu, Hc. Qed.

(** X20: a request that cannot be rendered changes nothing at all.  For
    a user who passes the quota check: an invoice with a line item that
    lacks quantity, rate or description or whose quantity or rate is no
    number, or whose PDF reportlab cannot build, a resume whose full_name is
    no string, and a single certificate whose recipient_name is no string
    are answered with the 500 of the handler; a QR code whose size is no
    integer raises before the handler's try block.  In each case no file is
    written, no row is added, and no counter changes. *)
Theorem unrenderable_requests (lib : Library) (env : Env) (self_id : Z) (user : User)
    (w : world) :
  users w !! self_id = Some user →
  can_create_document self_id user (documents w) (now env) = true →
  (∀ d, ¬ Forall (item_well_formed lib) (items d)
        ∨ (∀ f path, build_invoice lib d f path = false) →
        ∃ e, invoice_generator lib env self_id d w = (Failed e, w))
  ∧ (∀ d, Py.replace_space (full_name d) = Raise AttributeError →
          resume_builder lib env self_id d w = (Failed AttributeError, w))
  ∧ (∀ is_bulk form,
       truthy is_bulk = false →
       Py.replace_space (recipient_name form) = Raise AttributeError →
       certificate_creator lib env self_id is_bulk form w = (Failed AttributeError, w))
  ∧ (∀ data e, py_int lib (Py.get_or data "size" (VInt 300)) = Raise e →
               qrcode_generator lib env self_id data w = (Unhandled e, w)).
Proof.
  intros Hu Hc. pose proof (quota_gate_passes env _ _ _ Hu Hc) as Hgate.
  split; [|split; [|split]].
  - intros d Hbad. unfold invoice_generator. rewrite Hgate.
    unfold try_or_rollback, invoice_body, generate_invoice_pdf.
    unfold mbind at 1, effect_bind at 1. unfold mbind at 1, effect_bind at 1, lift.
    destruct (invoice_figures lib d) as [f|e] eqn:Hf.
    + destruct Hbad as [Hbad|Hbuild].
      * destruct Hbad. unfold invoice_figures in Hf.
        apply (invoice_items_loop_well_formed lib _ PrimFloat.zero []).
        by destruct (invoice_items_loop lib (items d) PrimFloat.zero []).
      * rewrite Hbuild. cbn. rewrite rollback_same. by eexists.
    + rewrite rollback_same. by eexists.
  - intros d Hname. unfold resume_builder. rewrite Hgate.
    unfold try_or_rollback, resume_body. unfold mbind at 1, effect_bind at 1, lift.
    by rewrite Hname, rollback_same.
  - intros is_bulk form Hsingle Hname. unfold certificate_creator. rewrite Hgate.
    unfold certificate_act. rewrite Hsingle. cbn [andb].
    unfold try_or_rollback, certificate_body. rewrite Hsingle. cbn [andb].
    unfold mbind at 1, effect_bind at 1. unfold mbind at 1, effect_bind at 1.
    unfold one_certificate. unfold mbind at 1, effect_bind at 1, lift.
    cbn [recipient_name with_bulk_names]. by rewrite Hname, rollback_same.
  - intros data e Hsize. unfold qrcode_generator. rewrite Hgate.
    unfold qrcode_act, qr_extract. by rewrite Hsize.
Qed.

Lemma unrenderable_requests_witness :
  users new_user_world !! 1 = Some (free_user 0)
  ∧ (∃ e, invoice_generator working_library (may_20 "a") 1
            {| company_name := VNone; company_address := VNone; company_email := VNone;
               company_phone := VNone; client_name := VNone; client_address := VNone;
               client_email := VNone; invoice_number := VStr "INV-2";
               invoice_date := VNone; due_date := VNone;
               items := [ {[ "description" := VStr "design"; "quantity" := VInt 2 ]} ];
               tax_rate := 0%float; discount := 0%float; notes := VStr "";
               invoice_template_id := VNone |} new_user_world
          = (Failed e, new_user_world))
  ∧ resume_builder working_library (may_20 "a") 1
      {| full_name := VNone; resume_sections := ∅; resume_template_id := VNone;
         resume_format := VStr "pdf" |} new_user_world
    = (Failed AttributeError, new_user_world).
Proof.
  assert (users new_user_world !! 1 = Some (free_user 0)) as Hu by (vm_compute; reflexivity).
  split; [exact Hu|].
  pose proof (unrenderable_requests working_library (may_20 "a") 1 (free_user 0)
                new_user_world Hu eq_refl) as (Hinvoice & Hresume & _).
  split.
  - apply Hinvoice. left. intros Hall. inversion Hall as [|? ? (_ & Hrate & _) _]; subst.
    vm_compute in Hrate. discriminate.
  - by apply Hresume.
Defined.

(** ** File names of uploads *)

Lemma str_contains_append c (a b : string) :
  str_contains c (a +:+ b) = str_contains c a || str_contains c b.
Proof.
  induction a as [|x a IH]; [done|].
  change (str_contains c (String x (a +:+ b))
          = str_contains c (String x a) || str_contains c b).
  cbn. by rewrite IH, orb_assoc.
Qed.

Lemma rsplit_dot_None s : rsplit_dot s = None ↔ str_contains "." s = false.
Proof.
  induction s as [|c s IH]; [done|]. cbn.
  destruct (rsplit_dot s) as [[name ext]|].
  - split; [done|]. intros [_ H]%orb_false_elim. by apply IH in H.
  - destruct (Ascii.eqb c "."); [done|]. cbn. split; [intros _; by apply IH|done].
Qed.

Lemma rsplit_dot_Some s name ext :
  rsplit_dot s = Some (name, ext)
  ↔ s = name +:+ "." +:+ ext ∧ str_contains "." ext = false.
Proof.
  revert name. induction s as [|c s IH]; intros name; cbn.
  - split; [done|]. intros [H _]. by destruct name.
  - destruct (rsplit_dot s) as [[name' ext']|] eqn:Hs.
    + split.
      * intros [= <- <-]. destruct (proj1 (IH name') eq_refl) as [-> Hext]. done.
      * intros [Heq Hext]. destruct name as [|x name].
        -- change (String c s = String "." ext) in Heq. injection Heq as -> ->.
           apply rsplit_dot_None in Hext. congruence.
        -- change (String c s = String x (name +:+ "." +:+ ext)) in Heq.
           injection Heq as -> Heq.
           pose proof (proj2 (IH name) (conj Heq Hext)) as [= -> ->]. done.
    + apply rsplit_dot_None in Hs. destruct (Ascii.eqb c ".") eqn:Hc.
      * apply Ascii.eqb_eq in Hc as ->. split.
        -- by intros [= <- <-].
        -- intros [Heq Hext]. destruct name as [|x name].
           ++ change (String "." s = String "." ext) in Heq. by injection Heq as ->.
           ++ change (String "." s = String x (name +:+ "." +:+ ext)) in Heq.
              injection Heq as _ ->. rewrite str_contains_append in Hs.
              apply orb_false_elim in Hs as [_ Hs]. discriminate.
      * split; [done|]. intros [Heq Hext]. destruct name as [|x name].
        -- change (String c s = String "." ext) in Heq. injection Heq as -> _.
           by rewrite Ascii.eqb_refl in Hc.
        -- change (String c s = String x (name +:+ "." +:+ ext)) in Heq.
           injection Heq as _ ->. rewrite str_contains_append in Hs.
           apply orb_false_elim in Hs as [_ Hs]. discriminate.
Qed.

(** X21: [allowed_file] never raises, and it accepts a file name exactly
    when the name has a dot and what follows its last dot, in lower case, is
    one of the allowed extensions.  Only the last extension counts, the
    comparison ignores the case of the file's extension (not of the allowed
    ones: an upper-case entry of the allowed set can never match), and a name
    that is only an extension, like .pdf, is accepted. *)
Theorem allowed_file_spec (filename : string) (allowed_extensions : gset string) :
  (∃ b, allowed_file filename allowed_extensions = Ok b)
  ∧ (allowed_file filename allowed_extensions = Ok true
     ↔ ∃ name ext, filename = name +:+ "." +:+ ext
                   ∧ str_contains "." ext = false
                   ∧ Py.str_lower ext ∈ allowed_extensions)
  ∧ (∀ ext, Py.str_lower ext ≠ ext →
            allowed_file filename {[ ext ]} = Ok false).
Proof.
  unfold allowed_file. split; [|split].
  - destruct (str_contains "." filename) eqn:Hdot; [|by eexists].
    destruct (rsplit_dot filename) as [[name ext]|] eqn:Hsplit; [by eexists|].
    apply rsplit_dot_None in Hsplit. congruence.
  - destruct (str_contains "." filename) eqn:Hdot.
    + destruct (rsplit_dot filename) as [[name ext]|] eqn:Hsplit.
      * apply rsplit_dot_Some in Hsplit as [-> Hext]. split.
        -- intros [= Hin%bool_decide_eq_true]. by exists name, ext.
        -- intros (name' & ext' & Heq & Hext' & Hin).
           pose proof (proj2 (rsplit_dot_Some _ name' ext') (conj Heq Hext')) as H1.
           pose proof (proj2 (rsplit_dot_Some (name +:+ "." +:+ ext) name ext)
                         (conj eq_refl Hext)) as H2.
           rewrite H1 in H2. injection H2 as -> ->. by rewrite bool_decide_eq_true_2.
      * apply rsplit_dot_None in Hsplit. congruence.
    + split; [done|]. intros (name & ext & -> & _).
      rewrite str_contains_append in Hdot. by apply orb_false_elim in Hdot as [_ Hdot].
  - intros ext' Hupper. destruct (str_contains "." filename) eqn:Hdot; [|done].
    destruct (rsplit_dot filename) as [[name ext]|] eqn:Hsplit.
    + f_equal. apply bool_decide_eq_false_2. intros Hin%elem_of_singleton.
      apply Hupper. by rewrite <- Hin, str_lower_idemp.
    + apply rsplit_dot_None in Hsplit. congruence.
Qed.

Example allowed_file_examples :
  allowed_file "Report.PDF" {[ "pdf"; "png" ]} = Ok true
  ∧ allowed_file "report.pdf.exe" {[ "pdf"; "png" ]} = Ok false
  ∧ allowed_file ".pdf" {[ "pdf"; "png" ]} = Ok true
  ∧ allowed_file "report." {[ "pdf"; "png" ]} = Ok false
  ∧ allowed_file "report" {[ "pdf"; "png" ]} = Ok false
  ∧ allowed_file "report.PDF" {[ "PDF" ]} = Ok false.
Proof. repeat split; vm_compute; reflexivity. Qed.

Lemma str_contains_dot_ext (a ext : string) :
  str_contains "." (a +:+ "." +:+ ext) = true.
Proof.
  rewrite !str_contains_append. replace (str_contains "." ".") with true by reflexivity.
  by destruct (str_contains "." a).
Qed.

Lemma rsplit_dot_append (a ext : string) :
  str_contains "." ext = false → rsplit_dot (a +:+ "." +:+ ext) = Some (a, ext).
Proof. intros Hext. by apply rsplit_dot_Some. Qed.

Lemma generate_unique_filename_run timestamp unique_id original prefix :
  generate_unique_filename timestamp unique_id original prefix
  = Ok (match rsplit_dot original with
        | Some (_, ext) => prefix +:+ timestamp +:+ "_" +:+ unique_id +:+ "." +:+ ext
        | None => prefix +:+ timestamp +:+ "_" +:+ unique_id
        end).
Proof.
  unfold generate_unique_filename.
  destruct (str_contains "." original) eqn:Hdot.
  - destruct (rsplit_dot original) as [[name ext]|] eqn:Hsplit; [done|].
    apply rsplit_dot_None in Hsplit. congruence.
  - apply rsplit_dot_None in Hdot. by rewrite Hdot.
Qed.

(** X22: [generate_unique_filename] never raises and keeps the extension:
    the new name is allowed exactly when the original name is, for every
    set of allowed extensions, provided the prefix, the timestamp and the
    unique id contain no dot when the original has none; and two names made
    with the same prefix and timestamp from unique ids of the same length are
    different when the ids are. *)
Theorem unique_filename_keeps_extension (timestamp unique_id original prefix : string)
    (allowed_extensions : gset string) :
  (str_contains "." original = false →
   str_contains "." (prefix +:+ timestamp +:+ "_" +:+ unique_id) = false) →
  ∃ name,
    generate_unique_filename timestamp unique_id original prefix = Ok name
    ∧ allowed_file name allowed_extensions = allowed_file original allowed_extensions
    ∧ (∀ unique_id' original' name',
         generate_unique_filename timestamp unique_id' original' prefix = Ok name' →
         String.length unique_id' = String.length unique_id →
         unique_id' ≠ unique_id → name' ≠ name).
Proof.
  intros Hnodot. rewrite generate_unique_filename_run. eexists. split; [reflexivity|].
  split.
  - unfold allowed_file. destruct (rsplit_dot original) as [[name ext]|] eqn:Hsplit.
    + pose proof Hsplit as [Heq Hext]%rsplit_dot_Some.
      replace (prefix +:+ timestamp +:+ "_" +:+ unique_id +:+ "." +:+ ext)
        with ((prefix +:+ timestamp +:+ "_" +:+ unique_id) +:+ "." +:+ ext)
        by (by rewrite !append_assoc).
      rewrite str_contains_dot_ext, (rsplit_dot_append _ _ Hext).
      assert (str_contains "." original = true) as Hdot
        by (rewrite Heq; apply str_contains_dot_ext).
      by rewrite Hdot.
    + pose proof Hsplit as Hdot%rsplit_dot_None. by rewrite Hdot, Hnodot.
  - intros unique_id' original' name' Hrun Hlen Hne Heq.
    rewrite generate_unique_filename_run in Hrun. injection Hrun as <-.
    apply Hne.
    assert (∀ rest rest', prefix +:+ timestamp +:+ "_" +:+ unique_id' +:+ rest'
                          = prefix +:+ timestamp +:+ "_" +:+ unique_id +:+ rest →
                          unique_id' = unique_id) as Hinj.
    { intros rest rest' H. do 2 apply String.app_inj in H.
      apply (String.app_inj "_") in H. by apply append_inj_prefix in H as [? _]. }
    destruct (rsplit_dot original') as [[? ext']|], (rsplit_dot original) as [[? ext]|].
    + by apply (Hinj ("." +:+ ext) ("." +:+ ext')).
    + apply (Hinj "" ("." +:+ ext')). by rewrite append_nil_r.
    + apply (Hinj ("." +:+ ext) ""). by rewrite append_nil_r.
    + apply (Hinj "" ""). by rewrite !append_nil_r.
Qed.

Lemma unique_filename_keeps_extension_witness :
  str_contains "." ("up_" +:+ "20240520_120000" +:+ "_" +:+ "0a1b2c3d") = false
  ∧ ∃ name,
      generate_unique_filename "20240520_120000" "0a1b2c3d" "README" "up_" = Ok name
      ∧ allowed_file name {[ "pdf"; "png" ]} = allowed_file "README" {[ "pdf"; "png" ]}.
Proof.
  split; [reflexivity|].
  destruct (unique_filename_keeps_extension "20240520_120000" "0a1b2c3d" "README" "up_"
              {[ "pdf"; "png" ]} (fun _ => eq_refl)) as (name & Hrun & Hallowed & _).
  by exists name.
Defined.

Example generate_unique_filename_examples :
  generate_unique_filename "20240520_120000" "0a1b2c3d" "Report.final.PDF" "up_"
  = Ok "up_20240520_120000_0a1b2c3d.PDF"
  ∧ generate_unique_filename "20240520_120000" "0a1b2c3d" "README" "" 
    = Ok "20240520_120000_0a1b2c3d".
Proof. split; vm_compute; reflexivity. Qed.

(** ** Cleaning up old files *)

Lemma cleanup_loop_all cutoff entries : ∀ count,
  Forall (fun en => is_old cutoff en = true → removable en = true) entries →
  cleanup_loop cutoff entries count
  = (Ok (count + Z.of_nat (length (filter (fun en => is_old cutoff en = true) entries))),
     filter (fun en => is_old cutoff en ≠ true) entries).
Proof.
  induction entries as [|en entries IH]; intros count Hall; cbn [cleanup_loop].
  { cbn. by rewrite Z.add_0_r. }
  inversion Hall as [|? ? Hen Hrest]; subst. rewrite !filter_cons.
  destruct (is_old cutoff en) eqn:Hold.
  - rewrite Hen by done. rewrite decide_True, decide_False by (by auto).
    rewrite IH by done. cbn [length]. f_equal. f_equal. lia.
  - rewrite decide_False, decide_True by done. by rewrite IH.
Qed.

Lemma cleanup_loop_stops cutoff pre bad post : ∀ count,
  Forall (fun en => is_old cutoff en = true → removable en = true) pre →
  is_old cutoff bad = true → removable bad = false →
  cleanup_loop cutoff (pre ++ bad :: post) count
  = (Raise (LibraryError "OSError"),
     filter (fun en => is_old cutoff en ≠ true) pre ++ bad :: post).
Proof.
  induction pre as [|en pre IH]; intros count Hall Hold Hbad; cbn [cleanup_loop app].
  { by rewrite Hold, Hbad. }
  inversion Hall as [|? ? Hen Hrest]; subst. rewrite filter_cons.
  destruct (is_old cutoff en) eqn:Hen_old.
  - rewrite Hen by done. rewrite decide_False by (by auto). by apply IH.
  - rewrite decide_True by done. by rewrite IH.
Qed.

(** X23: [cleanup_old_files], for a number of days whose seconds fit a
    float.  When every old regular file can be removed, exactly the regular
    files modified before the cutoff are removed, every other entry stays in
    place (directories, and files modified at the cutoff or later), and the
    value returned is the number of files removed.  When one of them cannot
    be removed the function returns 0, although the old files listed before
    it have been removed; that entry and everything listed after it stay. *)
Theorem cleanup_old_files_spec (clock : float) (directory : list Entry) (days : Z)
    (cutoff : float) :
  cutoff_of clock days = Some cutoff →
  (Forall (fun en => is_old cutoff en = true → removable en = true) directory →
   cleanup_old_files clock directory days
   = (Ok (Z.of_nat (length (filter (fun en => is_old cutoff en = true) directory))),
      filter (fun en => is_old cutoff en ≠ true) directory))
  ∧ (∀ pre bad post,
       directory = pre ++ bad :: post →
       Forall (fun en => is_old cutoff en = true → removable en = true) pre →
       is_old cutoff bad = true → removable bad = false →
       cleanup_old_files clock directory days
       = (Ok 0, filter (fun en => is_old cutoff en ≠ true) pre ++ bad :: post)).
Proof.
  unfold cutoff_of, cleanup_old_files.
  destruct (Py.float_of_Z (days * 24 * 60 * 60)) as [seconds|]; [|discriminate].
  intros [= <-]. split.
  - intros Hall. by rewrite cleanup_loop_all.
  - intros pre bad post -> Hall Hold Hbad. by rewrite cleanup_loop_stops.
Qed.

Lemma cleanup_old_files_spec_witness :
  ∃ cutoff,
    cutoff_of 1716206400%float 30 = Some cutoff
    ∧ cleanup_old_files 1716206400%float example_directory 30
      = (Ok 0, drop 1 example_directory)
    ∧ cleanup_old_files 1716206400%float (take 2 example_directory) 30
      = (Ok 1, drop 1 (take 2 example_directory)).
Proof.
  exists 1713614400%float.
  assert (cutoff_of 1716206400%float 30 = Some 1713614400%float) as Hcutoff
    by (vm_compute; reflexivity).
  split; [exact Hcutoff|].
  pose proof (cleanup_old_files_spec 1716206400%float example_directory 30 _ Hcutoff)
    as [_ Hstops].
  pose proof (cleanup_old_files_spec 1716206400%float (take 2 example_directory) 30 _
                Hcutoff) as [Hall _].
  split.
  - rewrite (Hstops (take 2 example_directory)
               {| entry_name := "resume_2.pdf"; isfile := true;
                  getmtime := 1700000100%float; removable := false |}
               (drop 3 example_directory)); [done|done| |done|done].
    repeat constructor; intros H; first [reflexivity|vm_compute in H; discriminate].
  - rewrite Hall; [done|].
    repeat constructor; intros H; first [reflexivity|vm_compute in H; discriminate].
Defined.

(** ** The daily statistics *)

Lemma list_find_key {A K : Type} `{EqDecision K} (f : A → K) (l : list A) (i : nat)
    (x : A) :
  NoDup (f <$> l) → l !! i = Some x →
  list_find (fun y => f y = f x) l = Some (i, x).
Proof.
  intros Hnd Hi. apply list_find_Some. split; [done|]. split; [done|].
  intros j y Hj Hlt Hy.
  assert ((f <$> l) !! j = Some (f x)) as H1 by (by rewrite list_lookup_fmap, Hj, <- Hy).
  assert ((f <$> l) !! i = Some (f x)) as H2 by (by rewrite list_lookup_fmap, Hi).
  pose proof (NoDup_lookup _ _ _ _ Hnd H1 H2). lia.
Qed.

Lemma filter_all_length {A} (P : A → Prop) `{∀ x, Decision (P x)} (l : list A) :
  Forall P l → length (filter P l) = length l.
Proof.
  induction 1 as [|x l Hx _ IH]; [done|].
  rewrite filter_cons, decide_True by done. cbn. by rewrite IH.
Qed.

Lemma fmap_date_alter (f : Analytics.row → Analytics.row) (table : list Analytics.row) :
  (∀ a, Analytics.date (f a) = Analytics.date a) →
  ∀ i : nat, Analytics.date <$> alter f i table = Analytics.date <$> table.
Proof.
  intros Hf. induction table as [|a table IH]; intros i; [done|].
  destruct i as [|i]; cbn; [by rewrite Hf|]. f_equal. apply IH.
Qed.

Lemma dt_ge_midnight t : valid_datetime t → dt_ge t (Analytics.midnight t) = true.
Proof.
  intros (_ & Hh & Hm & Hs & Hu).
  unfold dt_ge, dt_compare, dt_fields, Analytics.midnight.
  cbn [lex_compare year month day hour minute second microsecond].
  rewrite !Z.compare_refl.
  destruct (Z.compare_spec (hour t) 0); [|lia|done].
  destruct (Z.compare_spec (minute t) 0); [|lia|done].
  destruct (Z.compare_spec (second t) 0); [|lia|done].
  destruct (Z.compare_spec (microsecond t) 0); [done|lia|done].
Qed.

Lemma update_daily_stats_row t users docs table :
  Analytics.date (snd (Analytics.update_daily_stats t users docs table))
  = Analytics.date_of t
  ∧ Analytics.active_users (snd (Analytics.update_daily_stats t users docs table))
    = length (filter (fun u => Analytics.on_or_after (Analytics.midnight t)
                                 (Auth.last_login u) = true) users)
  ∧ Analytics.documents_created (snd (Analytics.update_daily_stats t users docs table))
    = length (filter (fun d => Analytics.on_or_after (Analytics.midnight t)
                                 (created_at d) = true) docs).
Proof.
  unfold Analytics.update_daily_stats.
  destruct (list_find _ table) as [[i a]|] eqn:Hfind; cbn; [|done].
  by apply list_find_Some in Hfind as (_ & -> & _).
Qed.

Lemma update_daily_stats_table t users docs table :
  NoDup (Analytics.date <$> table) →
  NoDup (Analytics.date <$> fst (Analytics.update_daily_stats t users docs table))
  ∧ snd (Analytics.update_daily_stats t users docs table)
    ∈ fst (Analytics.update_daily_stats t users docs table)
  ∧ (∀ a, Analytics.date a ≠ Analytics.date_of t →
          a ∈ fst (Analytics.update_daily_stats t users docs table) ↔ a ∈ table)
  ∧ Analytics.update_daily_stats t users docs
      (fst (Analytics.update_daily_stats t users docs table))
    = Analytics.update_daily_stats t users docs table.
Proof.
  intros Hnd.
  destruct (Analytics.update_daily_stats t users docs table) as [table' row] eqn:Hrun.
  cbn [fst snd]. unfold Analytics.update_daily_stats in Hrun |- *.
  set (f := Analytics.set_stats _ _) in *.
  destruct (list_find _ table) as [[i a]|] eqn:Hfind; injection Hrun as <- <-.
  - apply list_find_Some in Hfind as (Hi & Hdate & _).
    assert (alter f i table !! i = Some (f a)) as Hi' by (by rewrite list_lookup_alter_eq, Hi).
    split; [by rewrite fmap_date_alter|]. split; [by eapply list_elem_of_lookup_2|].
    split.
    + intros b Hb. split.
      * intros [j Hj]%list_elem_of_lookup. destruct (decide (j = i)) as [->|Hne].
        -- rewrite Hi' in Hj. injection Hj as <-. done.
        -- rewrite list_lookup_alter_ne in Hj by done. by eapply list_elem_of_lookup_2.
      * intros [j Hj]%list_elem_of_lookup. destruct (decide (j = i)) as [->|Hne].
        -- rewrite Hi in Hj. injection Hj as <-. done.
        -- apply (list_elem_of_lookup_2 _ j). by rewrite list_lookup_alter_ne.
    + rewrite <- Hdate. change (Analytics.date a) with (Analytics.date (f a)).
      rewrite (list_find_key Analytics.date _ i (f a)); [|by rewrite fmap_date_alter|done].
      f_equal. rewrite list_alter_alter_eq. by apply list_alter_ext.
  - pose proof (proj1 (list_find_None _ _) Hfind) as Hnone.
    set (new := {| Analytics.date := Analytics.date_of t |}).
    assert (Analytics.date_of t ∉ Analytics.date <$> table) as Hfresh.
    { intros (b & Hb & Hin)%list_elem_of_fmap.
      by apply (proj1 (Forall_forall _ _) Hnone b Hin). }
    split.
    { rewrite fmap_app. apply NoDup_app. split; [done|]. split; [|apply NoDup_singleton].
      intros x Hx ->%list_elem_of_singleton. done. }
    split; [apply elem_of_app; right; apply list_elem_of_singleton; done|]. split.
    { intros b Hb. rewrite elem_of_app, list_elem_of_singleton. split; [|by left].
      intros [?| ->]; [done|]. done. }
    assert (list_find (fun b => Analytics.date b = Analytics.date_of t) (table ++ [new])
            = Some (length table, new)) as ->.
    { apply list_find_Some. split; [|split; [done|]].
      - by rewrite lookup_app_r, Nat.sub_diag by lia.
      - intros j y Hj Hlt Hy. rewrite lookup_app_l in Hj by done.
        apply (proj1 (Forall_forall _ _) Hnone y); [|done]. by eapply list_elem_of_lookup_2. }
    f_equal. replace (length table) with (length table + 0)%nat by lia.
    by rewrite alter_app_r.
Qed.

(** X24: [Analytics.update_daily_stats].  The row returned is the row of
    today, it is in the table, and it holds the number of users whose
    last_login and the number of documents whose created_at are on or after
    today's midnight.  When no two rows of the table had the same date none
    have afterwards; the rows of other dates are untouched; calling the
    function again in the same state changes nothing (the index page calls
    it at every visit).  After a generation request served at the same clock
    the count of documents is larger by exactly the number of rows the
    request committed. *)
Theorem daily_stats (t : datetime) (users_ : list Auth.User) (docs : list Document)
    (table : list Analytics.row) :
  NoDup (Analytics.date <$> table) →
  NoDup (Analytics.date <$> fst (Analytics.update_daily_stats t users_ docs table))
  ∧ snd (Analytics.update_daily_stats t users_ docs table)
    ∈ fst (Analytics.update_daily_stats t users_ docs table)
  ∧ Analytics.date (snd (Analytics.update_daily_stats t users_ docs table))
    = Analytics.date_of t
  ∧ Analytics.documents_created (snd (Analytics.update_daily_stats t users_ docs table))
    = length (filter (fun d => Analytics.on_or_after (Analytics.midnight t)
                                 (created_at d) = true) docs)
  ∧ Analytics.active_users (snd (Analytics.update_daily_stats t users_ docs table))
    = length (filter (fun u => Analytics.on_or_after (Analytics.midnight t)
                                 (Auth.last_login u) = true) users_)
  ∧ (∀ a, Analytics.date a ≠ Analytics.date_of t →
          a ∈ fst (Analytics.update_daily_stats t users_ docs table) ↔ a ∈ table)
  ∧ Analytics.update_daily_stats t users_ docs
      (fst (Analytics.update_daily_stats t users_ docs table))
    = Analytics.update_daily_stats t users_ docs table
  ∧ (∀ lib c w,
       now (call_env c) = t → valid_datetime t → documents w = docs →
       Analytics.documents_created
         (snd (Analytics.update_daily_stats t users_ (documents (snd (handle lib c w)))
                 table))
       = (Analytics.documents_created
            (snd (Analytics.update_daily_stats t users_ docs table))
          + length (rows_of (fst (handle lib c w))))%nat).
Proof.
  intros Hnd.
  destruct (update_daily_stats_table t users_ docs table Hnd) as (H1 & H2 & H3 & H4).
  destruct (update_daily_stats_row t users_ docs table) as (H5 & H6 & H7).
  repeat (split; [done|]).
  intros lib c w Hnow Hvalid Hdocs.
  destruct (update_daily_stats_row t users_ (documents (snd (handle lib c w))) table)
    as (_ & _ & ->). rewrite H7.
  pose proof (handle_settled lib c w) as Hs.
  destruct Hs as [(user & rows & Hresp & _ & Hc & _)|[Hfail [_ Hsame]]].
  - destruct Hc as [Hd _ Hcreated _ _]. rewrite Hd, Hresp, Hdocs. cbn [rows_of].
    rewrite filter_app, length_app. f_equal. apply filter_all_length.
    eapply Forall_impl; [exact Hcreated|]. intros d Hd'. cbn. rewrite Hd'. cbn.
    rewrite Hnow. by apply dt_ge_midnight.
  - rewrite Hsame, Hdocs. destruct (fst (handle lib c w)); [done|..]; cbn; lia.
Qed.

Lemma daily_stats_witness :
  NoDup (Analytics.date <$> [])
  ∧ Analytics.documents_created
      (snd (Analytics.update_daily_stats (at_noon 2024 5 20) (Auth.users ada_state)
              (documents (snd (handle working_library (invoice_call "a") four_in_may)))
              []))
    = (Analytics.documents_created
         (snd (Analytics.update_daily_stats (at_noon 2024 5 20) (Auth.users ada_state)
                 (documents four_in_may) []))
       + length (rows_of (fst (handle working_library (invoice_call "a") four_in_may))))%nat
  ∧ Analytics.documents_created
      (snd (Analytics.update_daily_stats (at_noon 2024 5 20) (Auth.users ada_state)
              (documents (snd (handle working_library (invoice_call "a") four_in_may)))
              []))
    = 1%nat.
Proof.
  assert (NoDup (Analytics.date <$> [])) as Hnd by constructor.
  split; [exact Hnd|]. split; [|vm_compute; reflexivity].
  refine (proj2 (proj2 (proj2 (proj2 (proj2 (proj2 (proj2
            (daily_stats (at_noon 2024 5 20) (Auth.users ada_state) (documents four_in_may)
               [] Hnd)))))))
            working_library (invoice_call "a") four_in_may eq_refl _ eq_refl).
  unfold valid_datetime. cbn. lia.
Defined.

(** ** The monthly limit when requests are served one after the other *)

Lemma serve_cons lib c cs w :
  snd (serve lib (c :: cs) w) = snd (serve lib cs (snd (handle lib c w))).
Proof.
  cbn [serve]. destruct (handle lib c w) as [r w1]. cbn [snd].
  by destruct (serve lib cs w1) as [rs w2].
Qed.

Lemma monthly_count_other self_id other rows clock :
  other ≠ self_id → Forall (fun d => user_id d = other) rows →
  monthly_count self_id rows clock = 0%nat.
Proof.
  intros Hne. unfold monthly_count. induction 1 as [|d rows Hd _ IH]; [done|].
  rewrite filter_cons, decide_False; [done|].
  unfold in_month_of. rewrite bool_decide_eq_false_2 by congruence. done.
Qed.

Lemma monthly_count_le self_id rows clock :
  (monthly_count self_id rows clock ≤ length rows)%nat.
Proof. apply length_filter. Qed.

Lemma is_premium_same_plan u u' clock :
  subscription_plan u' = subscription_plan u →
  subscription_expires u' = subscription_expires u →
  is_premium u' clock = is_premium u clock.
Proof. unfold is_premium. by intros -> ->. Qed.

Lemma handle_keeps_limit lib c w self_id user u clock :
  users w !! self_id = Some u →
  subscription_plan u = subscription_plan user →
  subscription_expires u = subscription_expires user →
  in_free_month self_id user clock c →
  (monthly_count self_id (documents w) clock ≤ 5)%nat →
  (∃ u', users (snd (handle lib c w)) !! self_id = Some u'
         ∧ subscription_plan u' = subscription_plan user
         ∧ subscription_expires u' = subscription_expires user)
  ∧ (monthly_count self_id (documents (snd (handle lib c w))) clock ≤ 5)%nat.
Proof.
  intros Hu Hplan Hexpires Hfree Hcount.
  destruct (handle lib c w) as [resp w'] eqn:Hrun. cbn [snd].
  pose proof (handle_settled lib c w) as Hs. rewrite Hrun in Hs. cbn [fst snd] in Hs.
  destruct Hs as [(user' & rows & -> & Huser' & [Hdocs Hown _ Husers _] & Hone)
                 |[_ [Husers Hdocs]]].
  - destruct (decide (call_user c = self_id)) as [Hself|Hother].
    + destruct (Hfree Hself) as (Hprem & Hyear & Hmonth & _).
      rewrite Hself, Hu in Huser'. injection Huser' as <-.
      rewrite <- (is_premium_same_plan user u) in Hprem by done.
      specialize (Hone Hprem).
      rewrite handle_gate_act in Hrun.
      destruct (quota_gate (call_env c) (call_user c) w) as [r|user0] eqn:Hgate.
      { injection Hrun as -> _. by apply quota_gate_inl in Hgate. }
      apply quota_gate_inr in Hgate as [Huser0 Hcan].
      rewrite Hself, Hu in Huser0. injection Huser0 as <-.
      rewrite Hself, can_create_not_premium in Hcan by done.
      apply bool_decide_eq_true in Hcan.
      unfold monthly_count in Hcan. rewrite (month_start_same _ clock Hyear Hmonth) in Hcan.
      fold (monthly_count self_id (documents w) clock) in Hcan.
      split.
      * rewrite Husers, Hself. case_bool_decide; [eauto|].
        rewrite lookup_alter_eq, Hu. cbn. eauto.
      * rewrite Hdocs, monthly_count_app.
        pose proof (monthly_count_le self_id rows clock). lia.
    + split.
      * rewrite Husers. case_bool_decide; [eauto|].
        rewrite lookup_alter_ne by done. eauto.
      * rewrite Hdocs, monthly_count_app.
        rewrite (monthly_count_other self_id (call_user c) rows clock Hother Hown). lia.
  - rewrite Husers, Hdocs. eauto.
Qed.

(** X25: the monthly limit holds when requests are served one after the
    other.  For a user who has at most five artifacts in a calendar month,
    after any sequence of generation requests, in which those of the user
    are made in that month while the user is not premium and those of other
    users are arbitrary, the user still has at most five artifacts in the
    month. *)
Theorem serial_quota_bound (lib : Library) (cs : list call) (w : world) (self_id : Z)
    (user : User) (clock : datetime) :
  users w !! self_id = Some user →
  Forall (in_free_month self_id user clock) cs →
  (monthly_count self_id (documents w) clock ≤ 5)%nat →
  (monthly_count self_id (documents (snd (serve lib cs w))) clock ≤ 5)%nat.
Proof.
  intros Hu Hall Hcount.
  assert (∃ u, users w !! self_id = Some u
               ∧ subscription_plan u = subscription_plan user
               ∧ subscription_expires u = subscription_expires user) as Hinv by eauto.
  clear Hu. revert w Hinv Hcount.
  induction Hall as [|c cs Hc _ IH]; intros w (u & Hu & Hplan & Hexpires) Hcount; [done|].
  rewrite serve_cons.
  destruct (handle_keeps_limit lib c w self_id user u clock Hu Hplan Hexpires Hc Hcount)
    as [Hinv' Hcount'].
  by apply IH.
Qed.

Lemma serial_quota_bound_witness :
  users four_in_may !! 1 = Some (free_user 4)
  ∧ (monthly_count 1
       (documents (snd (serve working_library
                          [invoice_call "a"; invoice_call "b"; invoice_call "c"]
                          four_in_may)))
       (at_noon 2024 5 20) ≤ 5)%nat
  ∧ monthly_count 1
      (documents (snd (serve working_library
                         [invoice_call "a"; invoice_call "b"; invoice_call "c"]
                         four_in_may)))
      (at_noon 2024 5 20) = 5%nat.
Proof.
  assert (users four_in_may !! 1 = Some (free_user 4)) as Hu by (vm_compute; reflexivity).
  split; [exact Hu|]. split; [|vm_compute; reflexivity].
  apply (serial_quota_bound working_library
           [invoice_call "a"; invoice_call "b"; invoice_call "c"] four_in_may 1
           (free_user 4) (at_noon 2024 5 20) Hu).
  - repeat constructor; unfold valid_datetime; cbn; lia.
  - vm_compute. lia.
Defined.

(** ** Templates *)

Lemma available_loop_spec premium templates : ∀ available,
  Templates.available_loop premium templates available
  = available ++ filter (fun t => negb (Templates.is_premium t) || premium = true) templates.
Proof.
  induction templates as [|t templates IH]; intros available;
    cbn [Templates.available_loop].
  { by rewrite filter_nil, app_nil_r. }
  rewrite filter_cons. destruct (negb (Templates.is_premium t) || premium) eqn:Ht.
  - rewrite decide_True by done. by rewrite IH, <- app_assoc.
  - rewrite decide_False by done. apply IH.
Qed.

Lemma get_templates_loop_spec premium templates : ∀ available,
  Templates.get_templates_loop premium templates available
  = available ++ ((fun t => (t, negb (Templates.is_premium t) || premium)) <$> templates).
Proof.
  induction templates as [|t templates IH]; intros available; cbn.
  { by rewrite app_nil_r. }
  by rewrite IH, <- app_assoc.
Qed.

Lemma filter_snd_fmap premium (templates : list Templates.Template) :
  fst <$> filter (fun p : Templates.Template * bool => snd p = true)
            ((fun t => (t, negb (Templates.is_premium t) || premium)) <$> templates)
  = filter (fun t => negb (Templates.is_premium t) || premium = true) templates.
Proof.
  induction templates as [|t templates IH]; [done|].
  rewrite fmap_cons, !filter_cons. cbn [snd].
  destruct (decide (negb (Templates.is_premium t) || premium = true)); cbn; by rewrite IH.
Qed.

Lemma filter_all {A} (P : A → Prop) `{∀ x, Decision (P x)} (l : list A) :
  Forall P l → filter P l = l.
Proof.
  induction 1 as [|x l Hx _ IH]; [done|]. by rewrite filter_cons, decide_True, IH.
Qed.

Lemma fst_fmap_pair {A B} (f : A → B) (l : list A) :
  fst <$> ((fun x => (x, f x)) <$> l) = l.
Proof. induction l as [|x l IH]; [done|]. cbn. by rewrite IH. Qed.

Lemma next_id_above (table : list Templates.Template) t :
  t ∈ table → Templates.id t < Templates.next_id table.
Proof.
  unfold Templates.next_id. induction table as [|x table IH]; [by intros ?%elem_of_nil|].
  intros [->|Hin]%elem_of_cons; cbn; [lia|]. specialize (IH Hin). lia.
Qed.

(** X26: which templates a user is offered.  The GET pages of the three
    tools list exactly the templates of the table that have the requested
    type, are active, and are not premium unless the user is; these are the
    templates that /tools/templates/<type> flags as available, and a premium
    user is offered every template that endpoint lists.  After the admin
    deletes a template it is offered to nobody and the other offers are as
    before; a template the admin creates gets an id no row had, and it is
    offered for its type to premium users, and to the others unless the
    premium box was ticked.  Running the seeding of create_app a second time
    changes nothing. *)
Theorem template_gating (premium : bool) (ty : string) (table : list Templates.Template) :
  (∀ t, t ∈ Templates.available_templates premium ty table
        ↔ t ∈ table ∧ Templates.document_type t = ty ∧ Templates.is_active t = true
          ∧ (Templates.is_premium t = true → premium = true))
  ∧ Templates.available_templates premium ty table
    = fst <$> filter (fun p => snd p = true) (Templates.get_templates premium ty table)
  ∧ fst <$> Templates.get_templates premium ty table
    = Templates.available_templates true ty table
  ∧ (∀ i table',
       Templates.delete_template i table = Some table' →
       ∀ t, t ∈ Templates.available_templates premium ty table'
            ↔ t ∈ Templates.available_templates premium ty table ∧ Templates.id t ≠ i)
  ∧ (∀ n field table',
       Templates.create_template (Some n) (Some ty) field table = Some table' →
       ∃ t, table' = table ++ [t]
            ∧ Templates.name t = n
            ∧ (Templates.id t ∉ Templates.id <$> table)
            ∧ (t ∈ Templates.available_templates premium ty table'
               ↔ (field = Some "on" → premium = true)))
  ∧ (∀ db, Templates.create_app (Templates.create_app db) = Templates.create_app db).
Proof.
  assert (∀ tbl t, t ∈ Templates.available_templates premium ty tbl
                   ↔ t ∈ tbl ∧ Templates.document_type t = ty
                     ∧ Templates.is_active t = true
                     ∧ (Templates.is_premium t = true → premium = true)) as Hspec.
  { intros tbl t. unfold Templates.available_templates, Templates.active_of_type.
    rewrite available_loop_spec, app_nil_l, !list_elem_of_filter.
    destruct (Templates.is_premium t), premium; cbn; intuition congruence. }
  split; [apply Hspec|]. split; [|split; [|split; [|split]]].
  - unfold Templates.available_templates, Templates.get_templates.
    by rewrite available_loop_spec, get_templates_loop_spec, !app_nil_l, filter_snd_fmap.
  - unfold Templates.available_templates, Templates.get_templates.
    rewrite available_loop_spec, get_templates_loop_spec, !app_nil_l.
    rewrite fst_fmap_pair, filter_all; [done|].
    apply Forall_forall. intros t _. apply orb_true_r.
  - intros i table' Hdel t. unfold Templates.delete_template in Hdel.
    destruct (list_find _ table); [|discriminate]. injection Hdel as <-.
    rewrite !Hspec, list_elem_of_filter. tauto.
  - intros n field table' Hcreate. unfold Templates.create_template in Hcreate.
    destruct (bool_decide (n = "") || bool_decide (ty = "")); [discriminate|].
    injection Hcreate as <-. eexists. split; [reflexivity|]. split; [done|]. split.
    + cbn. intros (t & Hid & Hin)%list_elem_of_fmap.
      pose proof (next_id_above table t Hin). lia.
    + rewrite Hspec. cbn. rewrite elem_of_app, list_elem_of_singleton.
      rewrite bool_decide_eq_true. intuition congruence.
  - intros [admins tbl]. unfold Templates.create_app.
    case_bool_decide as Hadmin.
    + by rewrite bool_decide_eq_true_2.
    + rewrite bool_decide_eq_true_2; [done|]. apply elem_of_app. right.
      by apply list_elem_of_singleton.
Qed.

Example template_gating_seeded :
  (Templates.name <$> Templates.available_templates false "invoice"
                        (snd (Templates.create_app ([], []))))
  = ["Modern Invoice"]
  ∧ (Templates.name <$> Templates.available_templates true "invoice"
                          (snd (Templates.create_app ([], []))))
    = ["Modern Invoice"; "Corporate Invoice"]
  ∧ Templates.available_templates true "qrcode" (snd (Templates.create_app ([], []))) = []
  ∧ (Templates.id <$> snd (Templates.create_app ([], []))) = [1; 2; 3; 4; 5; 6].
Proof. repeat split; vm_compute; reflexivity. Qed.
